(** * Drop-off tracker: time-zone bucketing, range queries and record store

    A shallow embedding of the date logic of [app.py] and [app2.py]:
    the [UTCDateTime] column type, the dashboard's day bucketing, the
    range computed by [get_dropoffs_in_range], the tracking-number
    cleaning of [add_tracking] and the row removal of [delete_tracking].

    Conventions.  Time is counted in microseconds, the resolution of
    Python's [datetime].  A naive datetime is the number of microseconds
    of its wall-clock fields since 1970-01-01 00:00:00; an aware one adds
    its [tzinfo].  A string is the list of its code points.

    The range of [datetime], years 1 to 9999, is checked where a date
    typed by the user enters the arithmetic: there the [OverflowError] of
    Python is an outcome of the model.  Stored timestamps are written by
    [datetime.now] and are taken to lie far from both ends of the range;
    the conversions applied to them carry no check. *)

From Stdlib Require Import ZArith List Bool Lia String Ascii Sorting.Sorted Permutation.
Import ListNotations.
Open Scope Z_scope.

(** ** Strings *)

(** A Python [str]: the sequence of its code points. *)
Definition pystr := list Z.

(** The text of a literal, one code point per character. *)
Definition py (s : string) : pystr :=
  map (fun c => Z.of_nat (nat_of_ascii c)) (list_ascii_of_string s).

Coercion py : string >-> pystr.

Arguments Some {A} & a.

(** [a == b] *)
Fixpoint pystr_eqb (a b : pystr) : bool :=
  match a, b with
  | [], [] => true
  | x :: a', y :: b' => (x =? y) && pystr_eqb a' b'
  | _, _ => false
  end.

(** ** Exceptions *)

Inductive exn := ValueError | OverflowError.

(** What a computation that may raise comes to; [NoAnswer] stands for a
    recursion that ran out of fuel. *)
Inductive result (A : Type) :=
| Ok (a : A)
| Raise (e : exn)
| NoAnswer.

Arguments Ok {A} a.
Arguments Raise {A} e.
Arguments NoAnswer {A}.

Definition bind {A B : Type} (c : result A) (k : A -> result B) : result B :=
  match c with
  | Ok a => k a
  | Raise e => Raise e
  | NoAnswer => NoAnswer
  end.

Notation "x <- c ;; k" := (bind c (fun x => k))
  (at level 61, c at next level, right associativity).

(** ** Durations (Python's [timedelta]) *)

Definition SECOND : Z := 1000000.
Definition MINUTE : Z := 60 * SECOND.
Definition HOUR : Z := 60 * MINUTE.
Definition DAY : Z := 24 * HOUR.

(** [timedelta(days, seconds, microseconds)] *)
Definition timedelta (days seconds microseconds : Z) : Z :=
  days * DAY + seconds * SECOND + microseconds.

(** ** Calendar dates *)

Definition is_leap (y : Z) : bool :=
  ((y mod 4 =? 0) && negb (y mod 100 =? 0)) || (y mod 400 =? 0).

Definition days_in_month (y m : Z) : Z :=
  if m =? 2 then (if is_leap y then 29 else 28)
  else if (m =? 4) || (m =? 6) || (m =? 9) || (m =? 11) then 30
  else 31.

(** Days from 1970-01-01 to the civil date [y]-[m]-[d] in the proleptic
    Gregorian calendar ([date.toordinal] shifted to the Unix epoch). *)
Definition days_from_civil (y m d : Z) : Z :=
  let y' := if m <=? 2 then y - 1 else y in
  let era := y' / 400 in
  let yoe := y' - era * 400 in
  let mp := (m + 9) mod 12 in
  let doy := (153 * mp + 2) / 5 + d - 1 in
  let doe := yoe * 365 + yoe / 4 - yoe / 100 + doy in
  era * 146097 + doe - 719468.

Record date := mk_date { year : Z; month : Z; day : Z }.

Definition toordinal (d : date) : Z := days_from_civil (year d) (month d) (day d).

Definition date_le (a b : date) : Prop := toordinal a <= toordinal b.
Definition date_lt (a b : date) : Prop := toordinal a < toordinal b.

(** ** Datetimes *)

(** The two kinds of [tzinfo] the program meets: [timezone.utc] and the
    fixed-offset instances pytz attaches to a localized value (one per
    period of the zone: its UTC offset and whether it is daylight time). *)
Inductive tzinfo :=
| timezone_utc
| pytz_tzinfo (off : Z) (is_dst : bool).

Definition utcoffset (tz : tzinfo) : Z :=
  match tz with
  | timezone_utc => 0
  | pytz_tzinfo off _ => off
  end.

Inductive datetime :=
| Naive (wall : Z)
| Aware (wall : Z) (tz : tzinfo).

Definition wall_of (dt : datetime) : Z :=
  match dt with Naive w => w | Aware w _ => w end.

(** The UTC instant of a value.  Python reads a naive value in the
    system's zone when it has to; the server's zone is taken to be UTC.
    The program never relies on it: every [astimezone] is guarded by a
    test of [tzinfo] or applied to a loaded, aware value. *)
Definition instant (dt : datetime) : Z :=
  match dt with
  | Naive w => w
  | Aware w tz => w - utcoffset tz
  end.

Definition tzinfo_of (dt : datetime) : option tzinfo :=
  match dt with Naive _ => None | Aware _ tz => Some tz end.

(** [dt.date()]: the calendar day of the wall-clock fields, as a day number. *)
Definition date_of (dt : datetime) : Z := wall_of dt / DAY.

(** [datetime(y, m, d, 0, 0, 0)] as built by [strptime(...).replace(hour=0, ...)]
    or [datetime.combine(d, datetime.min.time())]. *)
Definition midnight (d : date) : Z := toordinal d * DAY.

(** [datetime.min] is 0001-01-01 00:00:00 and [datetime.max] is
    9999-12-31 23:59:59.999999. *)
Definition MIN_ORDINAL : Z := days_from_civil 1 1 1.
Definition MAX_ORDINAL : Z := days_from_civil 9999 12 31.
Definition datetime_min : Z := MIN_ORDINAL * DAY.
Definition datetime_max : Z := (MAX_ORDINAL + 1) * DAY - 1.

Definition representable (w : Z) : bool := (datetime_min <=? w) && (w <=? datetime_max).

(** The result of datetime arithmetic: the fields [w], or the
    [OverflowError] "date value out of range". *)
Definition checked (w : Z) : result Z :=
  if representable w then Ok w else Raise OverflowError.

(** [value.replace(tzinfo=timezone.utc)] *)
Definition replace_tzinfo_utc (dt : datetime) : datetime :=
  Aware (wall_of dt) timezone_utc.

(** [value.astimezone(timezone.utc)] *)
Definition astimezone_utc (dt : datetime) : datetime :=
  Aware (instant dt) timezone_utc.

(** ** pytz zones *)

(** One entry of [_transition_info]: the UTC offset in force and its
    daylight flag. *)
Record ttinfo := tt { tt_off : Z; tt_dst : bool }.

(** A zone is the info in force before the first transition and the sorted
    list of (UTC transition time in seconds, info from then on), that is
    [_utc_transition_times] and [_transition_info]. *)
Record zone := mk_zone { z_initial : ttinfo; z_transitions : list (Z * ttinfo) }.

(** [_transition_info[max(0, bisect_right(_utc_transition_times, u) - 1)]]:
    the info of the last transition at or before [u]. *)
Fixpoint info_at (cur : ttinfo) (trs : list (Z * ttinfo)) (u : Z) : ttinfo :=
  match trs with
  | [] => cur
  | (t, i) :: rest => if u <? t * SECOND then cur else info_at i rest u
  end.

Definition zone_info (z : zone) (u : Z) : ttinfo :=
  info_at (z_initial z) (z_transitions z) u.

Definition tzinfo_of_tt (i : ttinfo) : tzinfo := pytz_tzinfo (tt_off i * SECOND) (tt_dst i).

(** [tz.fromutc(dt)]: [(dt + inf[0]).replace(tzinfo=self._tzinfos[inf])]. *)
Definition fromutc (z : zone) (u : Z) : datetime :=
  let i := zone_info z u in
  Aware (u + tt_off i * SECOND) (tzinfo_of_tt i).

(** [value.astimezone(tz)] for a pytz zone. *)
Definition astimezone (z : zone) (dt : datetime) : datetime :=
  fromutc z (instant dt).

(** Equality of aware datetimes, as Python's set uses it: same instant. *)
Definition same_instant (a b : datetime) : bool := instant a =? instant b.

Definition dst_of (dt : datetime) : bool :=
  match dt with
  | Aware _ (pytz_tzinfo _ d) => d
  | _ => false
  end.

(** One round of the loop of [localize]: guess the period from the wall
    time shifted by [delta], attach its tzinfo, normalize, and keep the
    result when its wall-clock fields are still [w]. *)
Definition localize_candidate (z : zone) (w delta : Z) : list datetime :=
  let i := zone_info z (w + delta) in
  let loc_dt := fromutc z (w - tt_off i * SECOND) in
  if wall_of loc_dt =? w then [loc_dt] else [].

(** The set [possible_loc_dt] after both rounds. *)
Definition possible_loc_dt (z : zone) (w : Z) : list datetime :=
  match localize_candidate z w (- DAY), localize_candidate z w DAY with
  | [a], [b] => if same_instant a b then [a] else [a; b]
  | l1, l2 => l1 ++ l2
  end.

(** [max] over the UTC times of the remaining possibilities. *)
Definition later (a b : datetime) : datetime :=
  if instant a <? instant b then b else a.

Definition add_delta (dt : datetime) (d : Z) : datetime :=
  match dt with
  | Naive w => Naive (w + d)
  | Aware w tz => Aware (w + d) tz
  end.

(** [tz.localize(dt)] with the default [is_dst=False].  A wall time that
    never happened is resolved six hours earlier and shifted back; the
    recursion is bounded by [fuel]. *)
Fixpoint localize_fuel (fuel : nat) (z : zone) (w : Z) : option datetime :=
  match possible_loc_dt z w with
  | [a] => Some a
  | [] =>
      match fuel with
      | O => None
      | S n =>
          match localize_fuel n z (w - 6 * HOUR) with
          | Some r => Some (add_delta r (6 * HOUR))
          | None => None
          end
      end
  | l =>
      match filter (fun p => negb (dst_of p)) l with
      | [a] => Some a
      | [] => Some (fold_right later (hd (Naive 0) l) l)
      | a :: l' => Some (fold_right later a l')
      end
  end.

Definition localize (z : zone) (w : Z) : option datetime := localize_fuel 8 z w.

(** The same with the range checks of the arithmetic inside.  One round
    computes [dt + delta], then [dt - offset] in [normalize], then
    [dt + inf[0]] in [fromutc]. *)
Definition candidate_py (z : zone) (w delta : Z) : result (list datetime) :=
  _ <- checked (w + delta) ;;
  u <- checked (w - tt_off (zone_info z (w + delta)) * SECOND) ;;
  _ <- checked (wall_of (fromutc z u)) ;;
  Ok (localize_candidate z w delta).

Fixpoint localize_py_fuel (fuel : nat) (z : zone) (w : Z) : result datetime :=
  _ <- candidate_py z w (- DAY) ;;
  _ <- candidate_py z w DAY ;;
  match possible_loc_dt z w with
  | [a] => Ok a
  | [] =>
      match fuel with
      | O => NoAnswer
      | S n =>
          w' <- checked (w - 6 * HOUR) ;;
          r <- localize_py_fuel n z w' ;;
          _ <- checked (wall_of r + 6 * HOUR) ;;
          Ok (add_delta r (6 * HOUR))
      end
  | l =>
      match filter (fun p => negb (dst_of p)) l with
      | [a] => Ok a
      | [] => Ok (fold_right later (hd (Naive 0) l) l)
      | a :: l' => Ok (fold_right later a l')
      end
  end.

(** [tz.localize(dt)] for a date typed by the user. *)
Definition localize_py (z : zone) (w : Z) : result datetime := localize_py_fuel 8 z w.

(** [value.astimezone(timezone.utc)] computes [value - offset]. *)
Definition astimezone_utc_py (dt : datetime) : result datetime :=
  _ <- checked (instant dt) ;;
  Ok (astimezone_utc dt).

(** [value + timedelta] on an aware value. *)
Definition add_delta_py (dt : datetime) (d : Z) : result datetime :=
  _ <- checked (wall_of dt + d) ;;
  Ok (add_delta dt d).

(** ** The display zone *)

(** America/Los_Angeles as pytz builds it from the 32-bit block of the
    zone file: local mean time, its offset rounded to the minute, before
    the first entry, then the transitions of the tz database. *)
Definition LA_transitions : list (Z * ttinfo) := [
  (-2147483648, tt (-28800) false); (-1633269600, tt (-25200) true);
  (-1615129200, tt (-28800) false); (-1601820000, tt (-25200) true);
  (-1583679600, tt (-28800) false); (-880207200, tt (-25200) true);
  (-769395600, tt (-25200) true); (-765385200, tt (-28800) false);
  (-687967140, tt (-25200) true); (-662655600, tt (-28800) false);
  (-620838000, tt (-25200) true); (-608137200, tt (-28800) false);
  (-589388400, tt (-25200) true); (-576082800, tt (-28800) false);
  (-557938800, tt (-25200) true); (-544633200, tt (-28800) false);
  (-526489200, tt (-25200) true); (-513183600, tt (-28800) false);
  (-495039600, tt (-25200) true); (-481734000, tt (-28800) false);
  (-463590000, tt (-25200) true); (-450284400, tt (-28800) false);
  (-431535600, tt (-25200) true); (-418230000, tt (-28800) false);
  (-400086000, tt (-25200) true); (-386780400, tt (-28800) false);
  (-368636400, tt (-25200) true); (-355330800, tt (-28800) false);
  (-337186800, tt (-25200) true); (-323881200, tt (-28800) false);
  (-305737200, tt (-25200) true); (-292431600, tt (-28800) false);
  (-273682800, tt (-25200) true); (-260982000, tt (-28800) false);
  (-242233200, tt (-25200) true); (-226508400, tt (-28800) false);
  (-210783600, tt (-25200) true); (-195058800, tt (-28800) false);
  (-179334000, tt (-25200) true); (-163609200, tt (-28800) false);
  (-147884400, tt (-25200) true); (-131554800, tt (-28800) false);
  (-116434800, tt (-25200) true); (-100105200, tt (-28800) false);
  (-84376800, tt (-25200) true); (-68655600, tt (-28800) false); (-52927200, tt (-25200) true);
  (-37206000, tt (-28800) false); (-21477600, tt (-25200) true); (-5756400, tt (-28800) false);
  (9972000, tt (-25200) true); (25693200, tt (-28800) false); (41421600, tt (-25200) true);
  (57747600, tt (-28800) false); (73476000, tt (-25200) true); (89197200, tt (-28800) false);
  (104925600, tt (-25200) true); (120646800, tt (-28800) false); (126698400, tt (-25200) true);
  (152096400, tt (-28800) false); (162381600, tt (-25200) true);
  (183546000, tt (-28800) false); (199274400, tt (-25200) true);
  (215600400, tt (-28800) false); (230724000, tt (-25200) true);
  (247050000, tt (-28800) false); (262778400, tt (-25200) true);
  (278499600, tt (-28800) false); (294228000, tt (-25200) true);
  (309949200, tt (-28800) false); (325677600, tt (-25200) true);
  (341398800, tt (-28800) false); (357127200, tt (-25200) true);
  (372848400, tt (-28800) false); (388576800, tt (-25200) true);
  (404902800, tt (-28800) false); (420026400, tt (-25200) true);
  (436352400, tt (-28800) false); (452080800, tt (-25200) true);
  (467802000, tt (-28800) false); (483530400, tt (-25200) true);
  (499251600, tt (-28800) false); (514980000, tt (-25200) true);
  (530701200, tt (-28800) false); (544615200, tt (-25200) true);
  (562150800, tt (-28800) false); (576064800, tt (-25200) true);
  (594205200, tt (-28800) false); (607514400, tt (-25200) true);
  (625654800, tt (-28800) false); (638964000, tt (-25200) true);
  (657104400, tt (-28800) false); (671018400, tt (-25200) true);
  (688554000, tt (-28800) false); (702468000, tt (-25200) true);
  (720003600, tt (-28800) false); (733917600, tt (-25200) true);
  (752058000, tt (-28800) false); (765367200, tt (-25200) true);
  (783507600, tt (-28800) false); (796816800, tt (-25200) true);
  (814957200, tt (-28800) false); (828871200, tt (-25200) true);
  (846406800, tt (-28800) false); (860320800, tt (-25200) true);
  (877856400, tt (-28800) false); (891770400, tt (-25200) true);
  (909306000, tt (-28800) false); (923220000, tt (-25200) true);
  (941360400, tt (-28800) false); (954669600, tt (-25200) true);
  (972810000, tt (-28800) false); (986119200, tt (-25200) true);
  (1004259600, tt (-28800) false); (1018173600, tt (-25200) true);
  (1035709200, tt (-28800) false); (1049623200, tt (-25200) true);
  (1067158800, tt (-28800) false); (1081072800, tt (-25200) true);
  (1099213200, tt (-28800) false); (1112522400, tt (-25200) true);
  (1130662800, tt (-28800) false); (1143972000, tt (-25200) true);
  (1162112400, tt (-28800) false); (1173607200, tt (-25200) true);
  (1194166800, tt (-28800) false); (1205056800, tt (-25200) true);
  (1225616400, tt (-28800) false); (1236506400, tt (-25200) true);
  (1257066000, tt (-28800) false); (1268560800, tt (-25200) true);
  (1289120400, tt (-28800) false); (1300010400, tt (-25200) true);
  (1320570000, tt (-28800) false); (1331460000, tt (-25200) true);
  (1352019600, tt (-28800) false); (1362909600, tt (-25200) true);
  (1383469200, tt (-28800) false); (1394359200, tt (-25200) true);
  (1414918800, tt (-28800) false); (1425808800, tt (-25200) true);
  (1446368400, tt (-28800) false); (1457863200, tt (-25200) true);
  (1478422800, tt (-28800) false); (1489312800, tt (-25200) true);
  (1509872400, tt (-28800) false); (1520762400, tt (-25200) true);
  (1541322000, tt (-28800) false); (1552212000, tt (-25200) true);
  (1572771600, tt (-28800) false); (1583661600, tt (-25200) true);
  (1604221200, tt (-28800) false); (1615716000, tt (-25200) true);
  (1636275600, tt (-28800) false); (1647165600, tt (-25200) true);
  (1667725200, tt (-28800) false); (1678615200, tt (-25200) true);
  (1699174800, tt (-28800) false); (1710064800, tt (-25200) true);
  (1730624400, tt (-28800) false); (1741514400, tt (-25200) true);
  (1762074000, tt (-28800) false); (1772964000, tt (-25200) true);
  (1793523600, tt (-28800) false); (1805018400, tt (-25200) true);
  (1825578000, tt (-28800) false); (1836468000, tt (-25200) true);
  (1857027600, tt (-28800) false); (1867917600, tt (-25200) true);
  (1888477200, tt (-28800) false); (1899367200, tt (-25200) true);
  (1919926800, tt (-28800) false); (1930816800, tt (-25200) true);
  (1951376400, tt (-28800) false); (1962871200, tt (-25200) true);
  (1983430800, tt (-28800) false); (1994320800, tt (-25200) true);
  (2014880400, tt (-28800) false); (2025770400, tt (-25200) true);
  (2046330000, tt (-28800) false); (2057220000, tt (-25200) true);
  (2077779600, tt (-28800) false); (2088669600, tt (-25200) true);
  (2109229200, tt (-28800) false); (2120119200, tt (-25200) true);
  (2140678800, tt (-28800) false)
].

Definition DISPLAY_TIMEZONE : zone := mk_zone (tt (-28380) false) LA_transitions.

(** ** The column type [UTCDateTime] *)

(** [app.py] and [app2.py] bind parameters the same way. *)
Definition process_bind_param (value : option datetime) : option datetime :=
  match value with
  | Some v =>
      match tzinfo_of v with
      | None => Some (replace_tzinfo_utc v)
      | Some _ => Some (astimezone_utc v)
      end
  | None => None
  end.

Module App.

(** [app.py], [UTCDateTime.process_result_value] *)
Definition process_result_value (value : option datetime) : option datetime :=
  match value with
  | Some v =>
      match tzinfo_of v with
      | None => Some (replace_tzinfo_utc v)
      | Some _ => Some (astimezone_utc v)
      end
  | None => None
  end.

End App.

Module App2.

(** [app2.py], [UTCDateTime.process_result_value]: the value is handed
    out in the display zone. *)
Definition process_result_value (value : option datetime) : option datetime :=
  match value with
  | Some v =>
      let v' := match tzinfo_of v with
                | None => replace_tzinfo_utc v
                | Some _ => v
                end in
      Some (astimezone DISPLAY_TIMEZONE v')
  | None => None
  end.

End App2.

(** ** Python's [sorted] *)

Section Sorted.
Context {A : Type}.
Variable key : A -> Z.

(** Insertion in front of the first element whose key is not smaller:
    an element sorted in later (it stood earlier in the input) stays in
    front of its equals. *)
Fixpoint insert_asc (x : A) (l : list A) : list A :=
  match l with
  | [] => [x]
  | y :: l' => if key x <=? key y then x :: l else y :: insert_asc x l'
  end.

(** [sorted(l, key=key)] *)
Definition sorted_asc (l : list A) : list A := fold_right insert_asc [] l.

Fixpoint insert_desc (x : A) (l : list A) : list A :=
  match l with
  | [] => [x]
  | y :: l' => if key y <=? key x then x :: l else y :: insert_desc x l'
  end.

(** [sorted(l, key=key, reverse=True)], which keeps equal elements in
    their input order as well. *)
Definition sorted_desc (l : list A) : list A := fold_right insert_desc [] l.
End Sorted.

(** ** Records *)

(** A row of the [tracking] table.  The column stores the timestamp
    without zone, as UTC wall-clock fields. *)
Record row := mk_row {
  row_id : Z;
  row_user_id : Z;
  row_tracking_number : pystr;
  row_timestamp : Z
}.

(** A loaded [Tracking] object: the timestamp has gone through
    [process_result_value]. *)
Record Tracking := mk_Tracking {
  id : Z;
  user_id : Z;
  tracking_number : pystr;
  timestamp : datetime
}.

Definition store := list row.

Definition load (prv : option datetime -> option datetime) (r : row) : Tracking :=
  mk_Tracking (row_id r) (row_user_id r) (row_tracking_number r)
    (match prv (Some (Naive (row_timestamp r))) with
     | Some v => v
     | None => Naive (row_timestamp r)
     end).

(** ** [datetime.strptime(s, '%Y-%m-%d')] *)

(** The first code point of each run of ten Unicode decimal digits
    (category Nd, Unicode 14): what [\d] matches and [int] converts. *)
Definition decimal_zeros : list Z := [
  48; 1632; 1776; 1984; 2406; 2534; 2662; 2790; 2918; 3046; 3174; 3302; 3430; 3558; 3664; 3792;
  3872; 4160; 4240; 6112; 6160; 6470; 6608; 6784; 6800; 6992; 7088; 7232; 7248; 42528; 43216;
  43264; 43472; 43504; 43600; 44016; 65296; 66720; 68912; 69734; 69872; 69942; 70096; 70384;
  70736; 70864; 71248; 71360; 71472; 71904; 72016; 72784; 73040; 73120; 92768; 92864; 93008;
  120782; 120792; 120802; 120812; 120822; 123200; 123632; 125264; 130032
].

Definition digit_val (c : Z) : option Z :=
  match find (fun z => (z <=? c) && (c <=? z + 9)) decimal_zeros with
  | Some z => Some (c - z)
  | None => None
  end.

(** The code points of which [str.isdigit] holds (Unicode 14): the
    decimal digits and the other characters with a digit value, such as
    the superscripts. *)
Definition isdigit_ranges : list (Z * Z) := [
  (48, 57); (178, 179); (185, 185); (1632, 1641); (1776, 1785); (1984, 1993); (2406, 2415);
  (2534, 2543); (2662, 2671); (2790, 2799); (2918, 2927); (3046, 3055); (3174, 3183);
  (3302, 3311); (3430, 3439); (3558, 3567); (3664, 3673); (3792, 3801); (3872, 3881);
  (4160, 4169); (4240, 4249); (4969, 4977); (6112, 6121); (6160, 6169); (6470, 6479);
  (6608, 6618); (6784, 6793); (6800, 6809); (6992, 7001); (7088, 7097); (7232, 7241);
  (7248, 7257); (8304, 8304); (8308, 8313); (8320, 8329); (9312, 9320); (9332, 9340);
  (9352, 9360); (9450, 9450); (9461, 9469); (9471, 9471); (10102, 10110); (10112, 10120);
  (10122, 10130); (42528, 42537); (43216, 43225); (43264, 43273); (43472, 43481);
  (43504, 43513); (43600, 43609); (44016, 44025); (65296, 65305); (66720, 66729);
  (68160, 68163); (68912, 68921); (69216, 69224); (69714, 69722); (69734, 69743);
  (69872, 69881); (69942, 69951); (70096, 70105); (70384, 70393); (70736, 70745);
  (70864, 70873); (71248, 71257); (71360, 71369); (71472, 71481); (71904, 71913);
  (72016, 72025); (72784, 72793); (73040, 73049); (73120, 73129); (92768, 92777);
  (92864, 92873); (93008, 93017); (120782, 120831); (123200, 123209); (123632, 123641);
  (125264, 125273); (127232, 127242); (130032, 130041)
].

Definition isdigit (c : Z) : bool :=
  existsb (fun r => (fst r <=? c) && (c <=? snd r)) isdigit_ranges.

(** The ten ASCII digits, which the character classes [[0-9]] of the
    patterns match; only [\d] matches the other decimal digits. *)
Definition ascii_digit (c : Z) : option Z :=
  if (48 <=? c) && (c <=? 57) then Some (c - 48) else None.

(** [%m] is the pattern [1[0-2]|0[1-9]|[1-9]]. *)
Definition parse_month (s : pystr) : option (Z * pystr) :=
  match s with
  | c1 :: r1 =>
      match ascii_digit c1 with
      | Some d1 =>
          let two :=
            match r1 with
            | c2 :: r2 =>
                match ascii_digit c2 with
                | Some d2 =>
                    if ((d1 =? 1) && (d2 <=? 2)) || ((d1 =? 0) && (1 <=? d2))
                    then Some (10 * d1 + d2, r2) else None
                | None => None
                end
            | [] => None
            end in
          match two with
          | Some r => Some r
          | None => if 1 <=? d1 then Some (d1, r1) else None
          end
      | None => None
      end
  | [] => None
  end.

(** [%d] is the pattern [3[01]|[12]\d|0[1-9]|[1-9]| [1-9]]: after a 1 or
    a 2 any decimal digit is taken. *)
Definition parse_day (s : pystr) : option (Z * pystr) :=
  match s with
  | c1 :: r1 =>
      let second (digit : Z -> option Z) :=
        match r1 with
        | c2 :: r2 =>
            match digit c2 with
            | Some d2 => Some (d2, r2)
            | None => None
            end
        | [] => None
        end in
      match ascii_digit c1 with
      | Some d1 =>
          let two :=
            if (d1 =? 1) || (d1 =? 2) then
              match second digit_val with
              | Some (d2, r2) => Some (10 * d1 + d2, r2)
              | None => None
              end
            else
              match second ascii_digit with
              | Some (d2, r2) =>
                  if ((d1 =? 3) && (d2 <=? 1)) || ((d1 =? 0) && (1 <=? d2))
                  then Some (10 * d1 + d2, r2) else None
              | None => None
              end in
          match two with
          | Some r => Some r
          | None => if 1 <=? d1 then Some (d1, r1) else None
          end
      | None =>
          if c1 =? 32 then
            match second ascii_digit with
            | Some (d2, r2) => if 1 <=? d2 then Some (d2, r2) else None
            | None => None
            end
          else None
      end
  | [] => None
  end.

(** [None] stands for the [ValueError]: the string does not match the
    format, text is left over, or the fields are no calendar date.  The
    year is the pattern [\d\d\d\d]; the hyphen is code point 45. *)
Definition strptime (s : pystr) : option date :=
  match s with
  | y1 :: y2 :: y3 :: y4 :: sep1 :: r =>
      match digit_val y1, digit_val y2, digit_val y3, digit_val y4 with
      | Some a, Some b, Some c, Some d =>
          if sep1 =? 45 then
            match parse_month r with
            | Some (m, sep2 :: r') =>
                if sep2 =? 45 then
                  match parse_day r' with
                  | Some (dd, []) =>
                      let y := 1000 * a + 100 * b + 10 * c + d in
                      if (1 <=? y) && (dd <=? days_in_month y m)
                      then Some (mk_date y m dd) else None
                  | _ => None
                  end
                else None
            | _ => None
            end
          else None
      | _, _, _, _ => None
      end
  | _ => None
  end.

(** ** Responses of the JSON routes *)

Inductive response :=
| BadRequest (message : string)                      (* success false, 400 *)
| Success (trackings : list (pystr * datetime))      (* success true, 200 *)
| ServerError.                                       (* an exception nobody caught, 500 *)

Definition msg_required : string := "Start and end dates are required.".
Definition msg_invalid : string := "Invalid date format. Please use YYYY-MM-DD.".

(** [not s] for a form field: missing or empty. *)
Definition absent (s : option pystr) : bool :=
  match s with
  | None => true
  | Some [] => true
  | Some _ => false
  end.

(** The filter of the query: owner, and timestamp within the two bounds.
    The bounds are bound as UTC by [process_bind_param] and compared with
    the stored UTC value. *)
Definition in_filter (user : Z) (bounds : datetime * datetime) (r : row) : bool :=
  (row_user_id r =? user)
  && (instant (fst bounds) <=? row_timestamp r)
  && (row_timestamp r <=? instant (snd bounds)).

Definition query_range (prv : option datetime -> option datetime)
    (user : Z) (bounds : datetime * datetime) (db : store) : list Tracking :=
  map (load prv) (sorted_asc row_timestamp (filter (in_filter user bounds) db)).

(** What a route computes inside its [try]: the two bounds, or the
    exception raised on the way. *)
Definition parsed := result (datetime * datetime).

Abbreviation Bounds start_date_utc end_date_utc := (Ok (start_date_utc, end_date_utc)).

Module AppRange.

(** [app.py], lines 608-614 *)
Definition range_bounds (start_date_str end_date_str : pystr) : parsed :=
  match strptime start_date_str, strptime end_date_str with
  | Some sd, Some ed =>
      let start_date_display_tz := midnight sd in
      let end_date_display_tz := midnight ed in
      s <- localize_py DISPLAY_TIMEZONE start_date_display_tz ;;
      start_date_utc <- astimezone_utc_py s ;;
      end_of_day <- checked (end_date_display_tz + timedelta 1 (-1) 0) ;;
      e <- localize_py DISPLAY_TIMEZONE end_of_day ;;
      end_date_utc <- astimezone_utc_py e ;;
      Bounds start_date_utc end_date_utc
  | _, _ => Raise ValueError
  end.

(** [app.py], [get_dropoffs_in_range] *)
Definition get_dropoffs_in_range (current_user : Z) (db : store)
    (start_date_str end_date_str : option pystr) : option response :=
  if absent start_date_str || absent end_date_str then
    Some (BadRequest msg_required)
  else
    match start_date_str, end_date_str with
    | Some s, Some e =>
        match range_bounds s e with
        | Raise ValueError => Some (BadRequest msg_invalid)
        | Raise OverflowError => Some ServerError
        | NoAnswer => None
        | Bounds lo hi =>
            let trackings_in_range :=
              query_range App.process_result_value current_user (lo, hi) db in
            Some (Success
              (map (fun track =>
                      (tracking_number track,
                       astimezone DISPLAY_TIMEZONE (timestamp track)))
                   trackings_in_range))
        end
    | _, _ => Some (BadRequest msg_required)
    end.

End AppRange.

Module App2Range.

(** [app2.py], lines 564-570 *)
Definition range_bounds (start_date_str end_date_str : pystr) : parsed :=
  match strptime start_date_str, strptime end_date_str with
  | Some sd, Some ed =>
      let start_date_display_tz := midnight sd in
      let end_date_display_tz := midnight ed in
      s <- localize_py DISPLAY_TIMEZONE start_date_display_tz ;;
      start_date_utc <- astimezone_utc_py s ;;
      e <- localize_py DISPLAY_TIMEZONE end_date_display_tz ;;
      end_midnight_utc <- astimezone_utc_py e ;;
      end_date_utc <- add_delta_py end_midnight_utc (timedelta 0 0 999999) ;;
      Bounds start_date_utc end_date_utc
  | _, _ => Raise ValueError
  end.

(** [app2.py], [get_dropoffs_in_range] *)
Definition get_dropoffs_in_range (current_user : Z) (db : store)
    (start_date_str end_date_str : option pystr) : option response :=
  if absent start_date_str || absent end_date_str then
    Some (BadRequest msg_required)
  else
    match start_date_str, end_date_str with
    | Some s, Some e =>
        match range_bounds s e with
        | Raise ValueError => Some (BadRequest msg_invalid)
        | Raise OverflowError => Some ServerError
        | NoAnswer => None
        | Bounds lo hi =>
            let trackings_in_range :=
              query_range App2.process_result_value current_user (lo, hi) db in
            Some (Success
              (map (fun track => (tracking_number track, timestamp track))
                   trackings_in_range))
        end
    | _, _ => Some (BadRequest msg_required)
    end.

End App2Range.

(** ** The dashboard's day bucketing *)

(** [defaultdict(list)] keyed by date, in insertion order; [d[k].append(v)]. *)
Fixpoint dict_append {A : Type} (k : Z) (v : A) (d : list (Z * list A)) : list (Z * list A) :=
  match d with
  | [] => [(k, [v])]
  | (k', vs) :: d' =>
      if k =? k' then (k', vs ++ [v]) :: d' else (k', vs) :: dict_append k v d'
  end.

(** The entry of one day handed to the template. *)
Record day_entry := mk_day_entry {
  entry_date : Z;
  package_count : Z;
  trackings : list Tracking;
  reference_id : option Z
}.

Section Dashboard.
(** How a route reads the display date off a loaded timestamp. *)
Variable display_timestamp : datetime -> datetime.

Definition drop_off_date (t : Tracking) : Z := date_of (display_timestamp (timestamp t)).

(** The loop filling [trackings_by_display_date]. *)
Definition trackings_by_display_date (all_user_trackings : list Tracking)
    : list (Z * list Tracking) :=
  fold_left (fun d tracking => dict_append (drop_off_date tracking) tracking d)
            all_user_trackings [].

Definition grouped_trackings (all_user_trackings : list Tracking)
    : list (Z * list Tracking) :=
  sorted_desc fst (trackings_by_display_date all_user_trackings).

Definition dashboard_data (all_user_trackings : list Tracking) : list day_entry :=
  map (fun item : Z * list Tracking =>
         let (date_obj, trackings_list) := item in
         mk_day_entry date_obj
           (Z.of_nat (List.length trackings_list))
           (sorted_asc (fun t => instant (timestamp t)) trackings_list)
           (match trackings_list with t :: _ => Some (id t) | [] => None end))
      (grouped_trackings all_user_trackings).
End Dashboard.

(** [app.py] converts at display time, [app2.py] reads the value as loaded. *)
Definition dashboard_app : list Tracking -> list day_entry :=
  dashboard_data (astimezone DISPLAY_TIMEZONE).

Definition dashboard_app2 : list Tracking -> list day_entry :=
  dashboard_data (fun ts => ts).

(** [Tracking.query.filter_by(user_id=...).order_by(Tracking.timestamp.desc()).all()] *)
Definition all_user_trackings (prv : option datetime -> option datetime)
    (current_user : Z) (db : store) : list Tracking :=
  map (load prv)
      (sorted_desc row_timestamp (filter (fun r => row_user_id r =? current_user) db)).

(** ** [add_tracking] of [app2.py] *)

(** [s[-12:]] *)
Definition last12 (s : pystr) : pystr := skipn (List.length s - 12) s.

(** The value the route decides to save. *)
Definition final_tracking_number_to_save (tracking_number_input : pystr) : pystr :=
  let cleaned_number := filter isdigit tracking_number_input in
  if (12 <? List.length cleaned_number)%nat then last12 cleaned_number
  else cleaned_number.

Inductive flash :=
| flash_required
| flash_exists (n : pystr)
| flash_added (n : pystr)
| flash_deleted
| flash_not_found.

Definition next_id (db : store) : Z := fold_right (fun r m => Z.max (row_id r + 1) m) 1 db.

(** The route: the new store and the message flashed last.  [now] is
    the default of the timestamp column. *)
Definition add_tracking (current_user now : Z) (db : store)
    (tracking_number_input : option pystr) : store * flash :=
  match tracking_number_input with
  | None | Some [] => (db, flash_required)
  | Some input =>
      let n := final_tracking_number_to_save input in
      if existsb (fun r => (row_user_id r =? current_user)
                           && pystr_eqb (row_tracking_number r) n) db
      then (db, flash_exists n)
      else (db ++ [mk_row (next_id db) current_user n now], flash_added n)
  end.

(** ** [delete_tracking] *)

(** [Tracking.query.filter_by(id=tracking_id, user_id=current_user.id).first()] *)
Definition tracking_to_delete (current_user tracking_id : Z) (db : store) : option row :=
  find (fun r => (row_id r =? tracking_id) && (row_user_id r =? current_user)) db.

(** [db.session.delete(obj)] then [commit]: the row with the object's
    primary key goes. *)
Definition session_delete (obj : row) (db : store) : store :=
  filter (fun r => negb (row_id r =? row_id obj)) db.

Definition delete_tracking (current_user tracking_id : Z) (db : store) : store * flash :=
  match tracking_to_delete current_user tracking_id db with
  | Some obj => (session_delete obj db, flash_deleted)
  | None => (db, flash_not_found)
  end.

(** * Properties *)

(** ** Zones: the period of an instant *)

(** The three facts about a transition table the proofs need, all
    decidable: every offset lies between -8h and -7h, two transitions
    are at least two days apart, and no transition happens between
    00:00 and 09:00 UTC. *)
Definition offset_ok (i : ttinfo) : bool :=
  (-28800 <=? tt_off i) && (tt_off i <=? -25200).

Definition offsets_ok (z : zone) : bool :=
  offset_ok (z_initial z) && forallb (fun p => offset_ok (snd p)) (z_transitions z).

Definition spaced_ok (z : zone) : bool :=
  forallb (fun a =>
    forallb (fun b => (fst b <=? fst a) || (fst a + 172800 <=? fst b))
            (z_transitions z))
    (z_transitions z).

Definition times_ok (z : zone) : bool :=
  forallb (fun p => 32400 <=? fst p mod 86400) (z_transitions z).

Definition LO : Z := 25200 * SECOND.
Definition HI : Z := 28800 * SECOND.

(** No transition in the UTC instants that a wall time [w] can stand for. *)
Definition clear (z : zone) (w : Z) : Prop :=
  forall t i, In (t, i) (z_transitions z) -> t * SECOND <= w + LO \/ w + HI < t * SECOND.

Lemma info_at_constant trs : forall cur a b,
  a <= b ->
  (forall t i, In (t, i) trs -> t * SECOND <= a \/ b < t * SECOND) ->
  info_at cur trs a = info_at cur trs b.
Proof.
  induction trs as [|[t i] rest IH]; intros cur a b Hab Hno; simpl; [reflexivity|].
  destruct (Hno t i (or_introl eq_refl)) as [H|H].
  - assert (Ha : (a <? t * SECOND) = false) by (apply Z.ltb_ge; exact H).
    assert (Hb : (b <? t * SECOND) = false) by (apply Z.ltb_ge; lia).
    rewrite Ha, Hb. apply IH; [exact Hab|].
    intros t' i' Hin. apply (Hno t' i'). right. exact Hin.
  - assert (Ha : (a <? t * SECOND) = true) by (apply Z.ltb_lt; lia).
    assert (Hb : (b <? t * SECOND) = true) by (apply Z.ltb_lt; exact H).
    rewrite Ha, Hb. reflexivity.
Qed.

Lemma info_at_offset_ok trs : forall cur u,
  offset_ok cur = true ->
  forallb (fun p => offset_ok (snd p)) trs = true ->
  offset_ok (info_at cur trs u) = true.
Proof.
  induction trs as [|[t i] rest IH]; intros cur u Hc Hall; simpl; [exact Hc|].
  simpl in Hall. apply andb_true_iff in Hall. destruct Hall as [Hi Hrest].
  destruct (u <? t * SECOND); [exact Hc|]. apply IH; assumption.
Qed.

Lemma zone_info_bounds z u :
  offsets_ok z = true ->
  - HI <= tt_off (zone_info z u) * SECOND <= - LO.
Proof.
  intros H. unfold offsets_ok in H. apply andb_true_iff in H. destruct H as [H0 H1].
  pose proof (info_at_offset_ok (z_transitions z) (z_initial z) u H0 H1) as Hok.
  unfold offset_ok in Hok. apply andb_true_iff in Hok. destruct Hok as [Ha Hb].
  apply Z.leb_le in Ha. apply Z.leb_le in Hb.
  unfold zone_info, HI, LO, SECOND. lia.
Qed.

Section ClearWall.
Variable z : zone.
Hypothesis Hoff : offsets_ok z = true.
Hypothesis Hspaced : spaced_ok z = true.
Variable w : Z.
Hypothesis Hclear : clear z w.

(** The period every instant that can show [w] on the clock lies in. *)
Definition period : ttinfo := zone_info z (w + LO).

Definition localized : datetime := Aware w (tzinfo_of_tt period).

Lemma period_of_solution u :
  w + LO <= u <= w + HI -> zone_info z u = period.
Proof.
  intros Hu. unfold period, zone_info. symmetry.
  apply info_at_constant; [lia|].
  intros t i Hin. destruct (Hclear t i Hin); [left; assumption | right; lia].
Qed.

Lemma candidate_cases delta :
  localize_candidate z w delta =
    if tt_off (zone_info z (w + delta)) =? tt_off period then [localized] else [].
Proof.
  unfold localize_candidate, fromutc.
  set (i := zone_info z (w + delta)).
  pose proof (zone_info_bounds z (w + delta) Hoff) as Hb. fold i in Hb.
  rewrite (period_of_solution (w - tt_off i * SECOND)) by lia.
  cbn [wall_of].
  destruct (tt_off i =? tt_off period) eqn:E.
  - apply Z.eqb_eq in E. rewrite E.
    replace (w - tt_off period * SECOND + tt_off period * SECOND) with w by lia.
    rewrite Z.eqb_refl. reflexivity.
  - apply Z.eqb_neq in E.
    assert (Hne : (w - tt_off i * SECOND + tt_off period * SECOND =? w) = false).
    { apply Z.eqb_neq. unfold SECOND. lia. }
    rewrite Hne. reflexivity.
Qed.

Lemma one_side_is_period :
  zone_info z (w - DAY) = period \/ zone_info z (w + DAY) = period.
Proof.
  destruct (existsb (fun p => (w - DAY <? fst p * SECOND) && (fst p * SECOND <=? w + LO))
                    (z_transitions z)) eqn:E.
  - right. apply existsb_exists in E. destruct E as [[t1 i1] [Hin1 H1]].
    apply andb_true_iff in H1. cbn [fst] in H1. destruct H1 as [Ha Hb].
    apply Z.ltb_lt in Ha. apply Z.leb_le in Hb.
    unfold period, zone_info. symmetry.
    apply info_at_constant; [unfold LO, DAY, HOUR, MINUTE, SECOND; lia|].
    intros t i Hin.
    destruct (Hclear t i Hin) as [H|H]; [left; exact H|].
    right. unfold spaced_ok in Hspaced.
    rewrite forallb_forall in Hspaced. specialize (Hspaced _ Hin1).
    rewrite forallb_forall in Hspaced. specialize (Hspaced _ Hin).
    cbn [fst] in Hspaced. apply orb_true_iff in Hspaced.
    destruct Hspaced as [Hs|Hs]; [apply Z.leb_le in Hs | apply Z.leb_le in Hs];
      unfold LO, HI, DAY, HOUR, MINUTE, SECOND in *; lia.
  - left. unfold period, zone_info.
    apply info_at_constant; [unfold LO, DAY, HOUR, MINUTE, SECOND; lia|].
    intros t i Hin.
    destruct (Z_le_gt_dec (t * SECOND) (w - DAY)) as [Hle|Hgt]; [left; exact Hle|].
    right.
    destruct (Z_lt_le_dec (w + LO) (t * SECOND)) as [Hlt|Hge]; [exact Hlt|].
    exfalso.
    assert (Hex : existsb (fun p => (w - DAY <? fst p * SECOND) && (fst p * SECOND <=? w + LO))
                          (z_transitions z) = true).
    { apply existsb_exists. exists (t, i). split; [exact Hin|].
      cbn [fst]. apply andb_true_iff. split; [apply Z.ltb_lt; lia | apply Z.leb_le; lia]. }
    congruence.
Qed.

Lemma possible_loc_dt_clear : possible_loc_dt z w = [localized].
Proof.
  unfold possible_loc_dt. rewrite !candidate_cases.
  destruct one_side_is_period as [H|H].
  - replace (w + - DAY) with (w - DAY) by lia. rewrite H, Z.eqb_refl.
    destruct (tt_off (zone_info z (w + DAY)) =? tt_off period); [|reflexivity].
    unfold same_instant. rewrite Z.eqb_refl. reflexivity.
  - rewrite H, Z.eqb_refl.
    destruct (tt_off (zone_info z (w + - DAY)) =? tt_off period); [|reflexivity].
    unfold same_instant. rewrite Z.eqb_refl. reflexivity.
Qed.

Lemma localize_fuel_clear n : localize_fuel n z w = Some localized.
Proof.
  destruct n; simpl; rewrite possible_loc_dt_clear; reflexivity.
Qed.

Lemma localize_clear : localize z w = Some localized.
Proof. apply localize_fuel_clear. Qed.

Lemma localized_instant_bounds : w + LO <= instant localized <= w + HI.
Proof.
  unfold localized, period. cbn [instant tzinfo_of_tt utcoffset].
  pose proof (zone_info_bounds z (w + LO) Hoff). lia.
Qed.

(** The display zone shows [w] again at the instant [localize] picked. *)
Lemma fromutc_localized : fromutc z (instant localized) = localized.
Proof.
  unfold fromutc. rewrite (period_of_solution _ localized_instant_bounds).
  unfold localized. cbn [instant tzinfo_of_tt utcoffset]. f_equal. lia.
Qed.
End ClearWall.

Lemma localized_lt z w1 w2 :
  offsets_ok z = true -> clear z w1 -> clear z w2 -> w1 < w2 ->
  instant (localized z w1) < instant (localized z w2).
Proof.
  intros Hoff H1 H2 Hlt.
  pose proof (localized_instant_bounds z Hoff w1) as B1.
  pose proof (localized_instant_bounds z Hoff w2) as B2.
  destruct (Z_lt_le_dec (instant (localized z w1)) (instant (localized z w2)))
    as [Hok|Hbad]; [exact Hok|exfalso].
  assert (Hsame : period z w2 = period z w1).
  { rewrite <- (period_of_solution z w2 H2 (instant (localized z w2))) by exact B2.
    apply (period_of_solution z w1 H1). lia. }
  unfold localized in Hbad. cbn [instant tzinfo_of_tt utcoffset] in Hbad.
  rewrite Hsame in Hbad. lia.
Qed.

(** ** The display zone *)

Lemma display_offsets_ok : offsets_ok DISPLAY_TIMEZONE = true.
Proof. vm_compute. reflexivity. Qed.

Lemma display_spaced_ok : spaced_ok DISPLAY_TIMEZONE = true.
Proof. vm_compute. reflexivity. Qed.

Lemma display_times_ok : times_ok DISPLAY_TIMEZONE = true.
Proof. vm_compute. reflexivity. Qed.

(** Every transition of the zone happens at 01:00 local time or later and
    well before 23:00: wall times from seven hours before a midnight to one
    hour after it are never skipped nor repeated. *)
Lemma clear_near_midnight k w :
  k * DAY - 7 * HOUR <= w < k * DAY + HOUR -> clear DISPLAY_TIMEZONE w.
Proof.
  intros Hw t i Hin.
  pose proof display_times_ok as Hall. unfold times_ok in Hall.
  rewrite forallb_forall in Hall. specialize (Hall _ Hin). cbn [fst] in Hall.
  apply Z.leb_le in Hall.
  pose proof (Z.div_mod t 86400 ltac:(lia)) as Hdm.
  pose proof (Z.mod_pos_bound t 86400 ltac:(lia)) as Hr.
  set (q := t / 86400) in *. set (r := t mod 86400) in *.
  unfold LO, HI, DAY, HOUR, MINUTE, SECOND in *.
  destruct (Z_lt_le_dec q k); [left | right]; lia.
Qed.

Lemma clear_midnight k : clear DISPLAY_TIMEZONE (k * DAY).
Proof. apply (clear_near_midnight k). unfold HOUR, MINUTE, SECOND. lia. Qed.

Lemma clear_last_second k : clear DISPLAY_TIMEZONE (k * DAY + timedelta 1 (-1) 0).
Proof.
  apply (clear_near_midnight (k + 1)). unfold timedelta, DAY, HOUR, MINUTE, SECOND. lia.
Qed.

Definition local_midnight (k : Z) : datetime := localized DISPLAY_TIMEZONE (k * DAY).
Definition local_last_second (k : Z) : datetime :=
  localized DISPLAY_TIMEZONE (k * DAY + timedelta 1 (-1) 0).

(** *** The range checks *)

Lemma MIN_ORDINAL_value : MIN_ORDINAL = -719162.
Proof. reflexivity. Qed.

Lemma MAX_ORDINAL_value : MAX_ORDINAL = 2932896.
Proof. reflexivity. Qed.

Lemma checked_ok w : datetime_min <= w <= datetime_max -> checked w = Ok w.
Proof.
  intros H. unfold checked, representable.
  assert (E1 : (datetime_min <=? w) = true) by (apply Z.leb_le; lia).
  assert (E2 : (w <=? datetime_max) = true) by (apply Z.leb_le; lia).
  rewrite E1, E2. reflexivity.
Qed.

Lemma checked_overflow w :
  w < datetime_min \/ datetime_max < w -> checked w = Raise OverflowError.
Proof.
  intros H. unfold checked, representable.
  destruct (datetime_min <=? w) eqn:E1; [|reflexivity].
  destruct (w <=? datetime_max) eqn:E2; [|reflexivity].
  apply Z.leb_le in E1. apply Z.leb_le in E2. lia.
Qed.

Lemma checked_cases w : checked w = Ok w \/ checked w = Raise OverflowError.
Proof. unfold checked. destruct (representable w); [left | right]; reflexivity. Qed.

Lemma candidate_py_cases z w delta :
  candidate_py z w delta = Ok (localize_candidate z w delta)
  \/ candidate_py z w delta = Raise OverflowError.
Proof.
  unfold candidate_py.
  destruct (checked_cases (w + delta)) as [E|E]; rewrite E; cbn [bind]; [|right; reflexivity].
  destruct (checked_cases (w - tt_off (zone_info z (w + delta)) * SECOND)) as [E2|E2];
    rewrite E2; cbn [bind]; [|right; reflexivity].
  destruct (checked_cases
              (wall_of (fromutc z (w - tt_off (zone_info z (w + delta)) * SECOND))))
    as [E3|E3]; rewrite E3; cbn [bind]; [left | right]; reflexivity.
Qed.

Lemma candidate_py_inside z w delta :
  offsets_ok z = true ->
  datetime_min <= w - DAY -> w + DAY <= datetime_max ->
  delta = - DAY \/ delta = DAY ->
  candidate_py z w delta = Ok (localize_candidate z w delta).
Proof.
  intros Hoff Hlo Hhi Hd. unfold candidate_py.
  pose proof (zone_info_bounds z (w + delta) Hoff) as B1.
  pose proof (zone_info_bounds z (w - tt_off (zone_info z (w + delta)) * SECOND) Hoff) as B2.
  rewrite (checked_ok (w + delta))
    by (destruct Hd; subst; unfold DAY, HOUR, MINUTE, SECOND in *; lia).
  cbn [bind].
  rewrite checked_ok
    by (unfold LO, HI, DAY, HOUR, MINUTE, SECOND in *; lia). cbn [bind].
  rewrite checked_ok; [reflexivity|].
  unfold fromutc. cbn [wall_of].
  unfold LO, HI, DAY, HOUR, MINUTE, SECOND in *. lia.
Qed.

Lemma localize_py_fuel_clear n z w :
  offsets_ok z = true -> spaced_ok z = true -> clear z w ->
  datetime_min <= w - DAY -> w + DAY <= datetime_max ->
  localize_py_fuel n z w = Ok (localized z w).
Proof.
  intros Hoff Hsp Hclear Hlo Hhi.
  destruct n; cbn [localize_py_fuel];
    rewrite !candidate_py_inside by (try assumption; tauto); cbn [bind];
    rewrite (possible_loc_dt_clear z Hoff Hsp w Hclear); reflexivity.
Qed.

Lemma candidate_py_overflow z w delta :
  w + delta < datetime_min \/ datetime_max < w + delta ->
  candidate_py z w delta = Raise OverflowError.
Proof.
  intros H. unfold candidate_py. rewrite checked_overflow by exact H. reflexivity.
Qed.

Lemma localize_py_fuel_overflow n z w :
  w - DAY < datetime_min \/ datetime_max < w + DAY ->
  localize_py_fuel n z w = Raise OverflowError.
Proof.
  intros H. destruct n; cbn [localize_py_fuel]; destruct H as [H|H].
  - rewrite (candidate_py_overflow z w (- DAY)) by lia. reflexivity.
  - destruct (candidate_py_cases z w (- DAY)) as [E|E]; rewrite E; cbn [bind];
      [|reflexivity].
    rewrite (candidate_py_overflow z w DAY) by lia. reflexivity.
  - rewrite (candidate_py_overflow z w (- DAY)) by lia. reflexivity.
  - destruct (candidate_py_cases z w (- DAY)) as [E|E]; rewrite E; cbn [bind];
      [|reflexivity].
    rewrite (candidate_py_overflow z w DAY) by lia. reflexivity.
Qed.

Lemma astimezone_utc_py_localized z w :
  offsets_ok z = true ->
  datetime_min <= w - DAY -> w + DAY <= datetime_max ->
  astimezone_utc_py (localized z w) = Ok (astimezone_utc (localized z w)).
Proof.
  intros Hoff Hlo Hhi. unfold astimezone_utc_py.
  pose proof (localized_instant_bounds z Hoff w) as B.
  rewrite checked_ok; [reflexivity|].
  unfold LO, HI, DAY, HOUR, MINUTE, SECOND in *. lia.
Qed.

(** A date neither the first nor the last of the calendar: 0001-01-02 to
    9999-12-30. *)
Definition away_from_bounds (d : date) : Prop :=
  MIN_ORDINAL < toordinal d < MAX_ORDINAL.

(** The first day of the calendar or before, the last or after. *)
Definition at_bounds (d : date) : Prop :=
  toordinal d <= MIN_ORDINAL \/ MAX_ORDINAL <= toordinal d.

Lemma bounds_cases d : away_from_bounds d \/ at_bounds d.
Proof. unfold away_from_bounds, at_bounds. lia. Qed.

Ltac calendar :=
  unfold away_from_bounds, at_bounds, midnight, datetime_min, datetime_max, timedelta in *;
  rewrite ?MIN_ORDINAL_value, ?MAX_ORDINAL_value in *;
  unfold DAY, HOUR, MINUTE, SECOND in *; lia.

Lemma localize_py_midnight d :
  away_from_bounds d ->
  localize_py DISPLAY_TIMEZONE (midnight d) = Ok (local_midnight (toordinal d)).
Proof.
  intros Hd. apply localize_py_fuel_clear;
    [exact display_offsets_ok | exact display_spaced_ok | apply clear_midnight | |];
    calendar.
Qed.

Lemma localize_py_last_second d :
  away_from_bounds d ->
  localize_py DISPLAY_TIMEZONE (midnight d + timedelta 1 (-1) 0)
  = Ok (local_last_second (toordinal d)).
Proof.
  intros Hd. apply localize_py_fuel_clear;
    [exact display_offsets_ok | exact display_spaced_ok | apply clear_last_second | |];
    calendar.
Qed.

Lemma localize_py_midnight_overflow d :
  at_bounds d -> localize_py DISPLAY_TIMEZONE (midnight d) = Raise OverflowError.
Proof. intros Hd. apply localize_py_fuel_overflow. calendar. Qed.

Lemma localize_py_last_second_overflow d :
  at_bounds d ->
  localize_py DISPLAY_TIMEZONE (midnight d + timedelta 1 (-1) 0) = Raise OverflowError.
Proof. intros Hd. apply localize_py_fuel_overflow. calendar. Qed.

Lemma astimezone_utc_py_midnight d :
  away_from_bounds d ->
  astimezone_utc_py (local_midnight (toordinal d))
  = Ok (astimezone_utc (local_midnight (toordinal d))).
Proof.
  intros Hd. apply astimezone_utc_py_localized; [exact display_offsets_ok | |]; calendar.
Qed.

Lemma astimezone_utc_py_last_second d :
  away_from_bounds d ->
  astimezone_utc_py (local_last_second (toordinal d))
  = Ok (astimezone_utc (local_last_second (toordinal d))).
Proof.
  intros Hd. apply astimezone_utc_py_localized; [exact display_offsets_ok | |]; calendar.
Qed.

Lemma app_range_bounds s e sd ed :
  strptime s = Some sd -> strptime e = Some ed ->
  away_from_bounds sd -> away_from_bounds ed ->
  AppRange.range_bounds s e =
    Bounds (astimezone_utc (local_midnight (toordinal sd)))
           (astimezone_utc (local_last_second (toordinal ed))).
Proof.
  intros Hs He Asd Aed. unfold AppRange.range_bounds.
  rewrite Hs, He, (localize_py_midnight sd Asd). cbn [bind].
  rewrite (astimezone_utc_py_midnight sd Asd). cbn [bind].
  rewrite checked_ok by calendar. cbn [bind].
  rewrite (localize_py_last_second ed Aed). cbn [bind].
  rewrite (astimezone_utc_py_last_second ed Aed). reflexivity.
Qed.

Lemma app2_range_bounds s e sd ed :
  strptime s = Some sd -> strptime e = Some ed ->
  away_from_bounds sd -> away_from_bounds ed ->
  App2Range.range_bounds s e =
    Bounds (astimezone_utc (local_midnight (toordinal sd)))
           (add_delta (astimezone_utc (local_midnight (toordinal ed)))
                      (timedelta 0 0 999999)).
Proof.
  intros Hs He Asd Aed. unfold App2Range.range_bounds.
  rewrite Hs, He, (localize_py_midnight sd Asd). cbn [bind].
  rewrite (astimezone_utc_py_midnight sd Asd). cbn [bind].
  rewrite (localize_py_midnight ed Aed). cbn [bind].
  rewrite (astimezone_utc_py_midnight ed Aed). cbn [bind].
  unfold add_delta_py.
  pose proof (localized_instant_bounds DISPLAY_TIMEZONE display_offsets_ok
                (toordinal ed * DAY)) as B.
  rewrite checked_ok; [reflexivity|].
  unfold astimezone_utc, local_midnight. cbn [wall_of].
  unfold LO, HI in B. calendar.
Qed.

(** At the first or the last day of the calendar no bounds come out: the
    arithmetic inside [localize] leaves the range of [datetime]. *)
Lemma app_range_overflow s e sd ed :
  strptime s = Some sd -> strptime e = Some ed ->
  at_bounds sd \/ at_bounds ed ->
  AppRange.range_bounds s e = Raise OverflowError.
Proof.
  intros Hs He Hb. unfold AppRange.range_bounds. rewrite Hs, He.
  destruct (bounds_cases sd) as [Asd|Bsd].
  - destruct Hb as [Hb|Bed]; [unfold away_from_bounds, at_bounds in *; lia|].
    rewrite (localize_py_midnight sd Asd). cbn [bind].
    rewrite (astimezone_utc_py_midnight sd Asd). cbn [bind].
    destruct (checked_cases (midnight ed + timedelta 1 (-1) 0)) as [E|E]; rewrite E;
      cbn [bind]; [|reflexivity].
    rewrite (localize_py_last_second_overflow ed Bed). reflexivity.
  - rewrite (localize_py_midnight_overflow sd Bsd). reflexivity.
Qed.

Lemma app2_range_overflow s e sd ed :
  strptime s = Some sd -> strptime e = Some ed ->
  at_bounds sd \/ at_bounds ed ->
  App2Range.range_bounds s e = Raise OverflowError.
Proof.
  intros Hs He Hb. unfold App2Range.range_bounds. rewrite Hs, He.
  destruct (bounds_cases sd) as [Asd|Bsd].
  - destruct Hb as [Hb|Bed]; [unfold away_from_bounds, at_bounds in *; lia|].
    rewrite (localize_py_midnight sd Asd). cbn [bind].
    rewrite (astimezone_utc_py_midnight sd Asd). cbn [bind].
    rewrite (localize_py_midnight_overflow ed Bed). reflexivity.
  - rewrite (localize_py_midnight_overflow sd Bsd). reflexivity.
Qed.

Lemma local_midnight_bounds k :
  k * DAY + LO <= instant (local_midnight k) <= k * DAY + HI.
Proof. apply localized_instant_bounds. exact display_offsets_ok. Qed.

Lemma local_last_second_bounds k :
  k * DAY + timedelta 1 (-1) 0 + LO <= instant (local_last_second k)
  <= k * DAY + timedelta 1 (-1) 0 + HI.
Proof. apply localized_instant_bounds. exact display_offsets_ok. Qed.

Lemma local_midnight_mono j k :
  j <= k -> instant (local_midnight j) <= instant (local_midnight k).
Proof.
  intros Hjk. destruct (Z.eq_dec j k) as [->|Hne]; [lia|].
  apply Z.lt_le_incl. apply localized_lt.
  - exact display_offsets_ok.
  - apply clear_midnight.
  - apply clear_midnight.
  - unfold DAY, HOUR, MINUTE, SECOND. lia.
Qed.

Lemma last_second_before_midnight j k :
  j < k -> instant (local_last_second j) < instant (local_midnight k).
Proof.
  intros Hjk. apply localized_lt.
  - exact display_offsets_ok.
  - apply clear_last_second.
  - apply clear_midnight.
  - unfold timedelta, DAY, HOUR, MINUTE, SECOND. lia.
Qed.

Lemma midnight_before_last_second j k :
  j <= k -> instant (local_midnight j) < instant (local_last_second k).
Proof.
  intros Hjk. apply localized_lt.
  - exact display_offsets_ok.
  - apply clear_midnight.
  - apply clear_last_second.
  - unfold timedelta, DAY, HOUR, MINUTE, SECOND. lia.
Qed.

Lemma instant_astimezone_utc dt : instant (astimezone_utc dt) = instant dt.
Proof. unfold astimezone_utc. cbn [instant utcoffset]. lia. Qed.

Lemma instant_add_delta_utc dt d :
  instant (add_delta (astimezone_utc dt) d) = instant dt + d.
Proof. unfold astimezone_utc. cbn [add_delta instant utcoffset]. lia. Qed.

(** ** Claims about the range of [get_dropoffs_in_range] *)

Open Scope string_scope.
Open Scope list_scope.
Open Scope Z_scope.

(** [y-m-d hh:mm:ss] UTC as an instant. *)
Definition utc (y m d hh mm ss : Z) : Z :=
  (days_from_civil y m d * 86400 + hh * 3600 + mm * 60 + ss) * SECOND.

Lemma filter_none {A : Type} (f : A -> bool) (l : list A) :
  (forall x, f x = false) -> filter f l = [].
Proof.
  intros H. induction l as [|x l IH]; simpl; [reflexivity|]. rewrite H. exact IH.
Qed.

Lemma strptime_not_absent (s : pystr) d : strptime s = Some d -> absent (Some s) = false.
Proof. destruct s; simpl; [discriminate | reflexivity]. Qed.

(** C1.  On the single day 2024-03-10 the two routes do not filter on the
    window from 2024-03-10T08:00:00Z up to 2024-03-11T07:00:00Z.  [app.py]
    stops at 06:59:59.000000Z, the last whole second of the local day, and
    [app2.py] at 08:00:00.999999Z, one second after local midnight: a
    record at 2024-03-11T06:59:59.500000Z lies in the window and passes
    neither filter. *)
Theorem C1_single_day_window_not_covered :
  let r := mk_row 1 7 "794644790132" (utc 2024 3 11 6 59 59 + 500000) in
  AppRange.range_bounds "2024-03-10" "2024-03-10"
    = Bounds (Aware (utc 2024 3 10 8 0 0) timezone_utc)
             (Aware (utc 2024 3 11 6 59 59) timezone_utc)
  /\ App2Range.range_bounds "2024-03-10" "2024-03-10"
    = Bounds (Aware (utc 2024 3 10 8 0 0) timezone_utc)
             (Aware (utc 2024 3 10 8 0 0 + 999999) timezone_utc)
  /\ utc 2024 3 10 8 0 0 <= row_timestamp r < utc 2024 3 11 7 0 0
  /\ in_filter 7 (Aware (utc 2024 3 10 8 0 0) timezone_utc,
                  Aware (utc 2024 3 11 6 59 59) timezone_utc) r = false
  /\ in_filter 7 (Aware (utc 2024 3 10 8 0 0) timezone_utc,
                  Aware (utc 2024 3 10 8 0 0 + 999999) timezone_utc) r = false
  /\ AppRange.get_dropoffs_in_range 7 [r] (Some "2024-03-10") (Some "2024-03-10")
     = Some (Success [])
  /\ App2Range.get_dropoffs_in_range 7 [r] (Some "2024-03-10") (Some "2024-03-10")
     = Some (Success []).
Proof.
  vm_compute. repeat split; intro; discriminate.
Qed.

(** C3, as the code has it.  For two dates that parse, from 0001-01-02
    to 9999-12-30, the first not after the second, both routes start their
    filter at the instant the display zone shows as 00:00:00 of the start
    date: a record of the user stamped at that instant passes the filter,
    and one stamped a microsecond earlier does not. *)
Theorem C3_start_boundary (user : Z) (s e : pystr) (sd ed : date) (r : row) :
  strptime s = Some sd -> strptime e = Some ed -> date_le sd ed ->
  away_from_bounds sd -> away_from_bounds ed ->
  row_user_id r = user ->
  exists lo hi hi2,
    AppRange.range_bounds s e = Bounds lo hi
    /\ App2Range.range_bounds s e = Bounds lo hi2
    /\ astimezone DISPLAY_TIMEZONE lo = local_midnight (toordinal sd)
    /\ wall_of (local_midnight (toordinal sd)) = midnight sd
    /\ (row_timestamp r = instant lo ->
        in_filter user (lo, hi) r = true /\ in_filter user (lo, hi2) r = true)
    /\ (row_timestamp r = instant lo - 1 ->
        in_filter user (lo, hi) r = false /\ in_filter user (lo, hi2) r = false).
Proof.
  intros Hs He Hle Asd Aed Hu. unfold date_le in Hle.
  eexists _, _, _.
  split; [apply (app_range_bounds s e sd ed Hs He Asd Aed)|].
  split; [apply (app2_range_bounds s e sd ed Hs He Asd Aed)|].
  split.
  { unfold astimezone. rewrite instant_astimezone_utc.
    apply fromutc_localized; [exact display_offsets_ok | apply clear_midnight]. }
  split; [reflexivity|].
  pose proof (midnight_before_last_second _ _ Hle) as H1.
  pose proof (local_midnight_mono _ _ Hle) as H2.
  unfold in_filter. cbn [fst snd].
  rewrite !instant_astimezone_utc, instant_add_delta_utc, Hu, Z.eqb_refl.
  unfold timedelta.
  split; intros Hr; rewrite Hr; split; cbn [andb].
  - apply andb_true_iff. split; apply Z.leb_le; lia.
  - apply andb_true_iff. split; apply Z.leb_le; lia.
  - apply andb_false_iff. left. apply Z.leb_gt. lia.
  - apply andb_false_iff. left. apply Z.leb_gt. lia.
Qed.

Lemma C3_start_boundary_witness :
  exists lo hi hi2,
    AppRange.range_bounds "2024-03-09" "2024-03-10" = Bounds lo hi
    /\ App2Range.range_bounds "2024-03-09" "2024-03-10" = Bounds lo hi2
    /\ astimezone DISPLAY_TIMEZONE lo = local_midnight (toordinal (mk_date 2024 3 9))
    /\ wall_of (local_midnight (toordinal (mk_date 2024 3 9))) = midnight (mk_date 2024 3 9)
    /\ (row_timestamp (mk_row 1 7 "794644790132" (utc 2024 3 9 8 0 0)) = instant lo ->
        in_filter 7 (lo, hi) (mk_row 1 7 "794644790132" (utc 2024 3 9 8 0 0)) = true
        /\ in_filter 7 (lo, hi2) (mk_row 1 7 "794644790132" (utc 2024 3 9 8 0 0)) = true)
    /\ (row_timestamp (mk_row 1 7 "794644790132" (utc 2024 3 9 8 0 0)) = instant lo - 1 ->
        in_filter 7 (lo, hi) (mk_row 1 7 "794644790132" (utc 2024 3 9 8 0 0)) = false
        /\ in_filter 7 (lo, hi2) (mk_row 1 7 "794644790132" (utc 2024 3 9 8 0 0)) = false).
Proof.
  apply (C3_start_boundary 7 "2024-03-09" "2024-03-10" (mk_date 2024 3 9) (mk_date 2024 3 10)).
  - reflexivity.
  - reflexivity.
  - unfold date_le. vm_compute. discriminate.
  - unfold away_from_bounds. vm_compute. split; reflexivity.
  - unfold away_from_bounds. vm_compute. split; reflexivity.
  - reflexivity.
Defined.

(** C3, as stated, fails on the last day of the calendar.  The range
    from 9999-12-31 to 9999-12-31 is valid, but [localize] adds a day to the
    date and leaves the range of [datetime]: the [OverflowError] is not
    caught, no filter is computed and the answer is the server error. *)
Lemma C3_no_filter_on_the_last_day :
  strptime "9999-12-31" = Some (mk_date 9999 12 31)
  /\ date_le (mk_date 9999 12 31) (mk_date 9999 12 31)
  /\ AppRange.range_bounds "9999-12-31" "9999-12-31" = Raise OverflowError
  /\ App2Range.range_bounds "9999-12-31" "9999-12-31" = Raise OverflowError
  /\ AppRange.get_dropoffs_in_range 7 [mk_row 1 7 "794644790132" (utc 2024 3 9 8 0 0)]
       (Some "9999-12-31") (Some "9999-12-31") = Some ServerError
  /\ App2Range.get_dropoffs_in_range 7 [mk_row 1 7 "794644790132" (utc 2024 3 9 8 0 0)]
       (Some "9999-12-31") (Some "9999-12-31") = Some ServerError
  /\ ~ (exists lo hi, AppRange.range_bounds "9999-12-31" "9999-12-31" = Bounds lo hi)
  /\ ~ (exists lo hi, App2Range.range_bounds "9999-12-31" "9999-12-31" = Bounds lo hi).
Proof.
  assert (E1 : AppRange.range_bounds "9999-12-31" "9999-12-31" = Raise OverflowError)
    by (vm_compute; reflexivity).
  assert (E2 : App2Range.range_bounds "9999-12-31" "9999-12-31" = Raise OverflowError)
    by (vm_compute; reflexivity).
  split; [vm_compute; reflexivity|].
  split; [unfold date_le; lia|].
  split; [exact E1|]. split; [exact E2|].
  split; [vm_compute; reflexivity|]. split; [vm_compute; reflexivity|].
  split; intros [lo [hi H]]; [rewrite E1 in H | rewrite E2 in H]; discriminate.
Qed.

(** C7, as the code has it.  For two dates that parse, from 0001-01-02
    to 9999-12-30, the first strictly after the second, neither route
    rejects the request: the bounds are computed, the lower one lies
    strictly after the upper one, no row passes the filter and the answer
    is a success with an empty list. *)
Theorem C7_inverted_range_is_empty (user : Z) (db : store) (s e : pystr) (sd ed : date) :
  strptime s = Some sd -> strptime e = Some ed -> date_lt ed sd ->
  away_from_bounds sd -> away_from_bounds ed ->
  exists lo hi hi2,
    AppRange.range_bounds s e = Bounds lo hi
    /\ App2Range.range_bounds s e = Bounds lo hi2
    /\ instant hi < instant lo
    /\ instant hi2 < instant lo
    /\ (forall r, in_filter user (lo, hi) r = false)
    /\ (forall r, in_filter user (lo, hi2) r = false)
    /\ AppRange.get_dropoffs_in_range user db (Some s) (Some e) = Some (Success [])
    /\ App2Range.get_dropoffs_in_range user db (Some s) (Some e) = Some (Success []).
Proof.
  intros Hs He Hlt Asd Aed. unfold date_lt in Hlt.
  pose proof (last_second_before_midnight _ _ Hlt) as H1.
  pose proof (local_midnight_bounds (toordinal sd)) as B1.
  pose proof (local_midnight_bounds (toordinal ed)) as B2.
  assert (H2 : instant (local_midnight (toordinal ed)) + timedelta 0 0 999999
               < instant (local_midnight (toordinal sd))).
  { unfold timedelta, LO, HI, DAY, HOUR, MINUTE, SECOND in *. lia. }
  assert (F1 : forall r, in_filter user
                 (astimezone_utc (local_midnight (toordinal sd)),
                  astimezone_utc (local_last_second (toordinal ed))) r = false).
  { intros r. unfold in_filter. cbn [fst snd]. rewrite !instant_astimezone_utc.
    destruct (row_user_id r =? user); [cbn [andb]|reflexivity].
    destruct (Z_le_gt_dec (instant (local_midnight (toordinal sd))) (row_timestamp r)).
    - apply andb_false_iff. right. apply Z.leb_gt. lia.
    - apply andb_false_iff. left. apply Z.leb_gt. lia. }
  assert (F2 : forall r, in_filter user
                 (astimezone_utc (local_midnight (toordinal sd)),
                  add_delta (astimezone_utc (local_midnight (toordinal ed)))
                            (timedelta 0 0 999999)) r = false).
  { intros r. unfold in_filter. cbn [fst snd].
    rewrite instant_astimezone_utc, instant_add_delta_utc.
    destruct (row_user_id r =? user); [cbn [andb]|reflexivity].
    destruct (Z_le_gt_dec (instant (local_midnight (toordinal sd))) (row_timestamp r)).
    - apply andb_false_iff. right. apply Z.leb_gt. lia.
    - apply andb_false_iff. left. apply Z.leb_gt. lia. }
  eexists _, _, _.
  split; [apply (app_range_bounds s e sd ed Hs He Asd Aed)|].
  split; [apply (app2_range_bounds s e sd ed Hs He Asd Aed)|].
  split; [rewrite !instant_astimezone_utc; exact H1|].
  split; [rewrite instant_astimezone_utc, instant_add_delta_utc; exact H2|].
  split; [exact F1|]. split; [exact F2|].
  unfold AppRange.get_dropoffs_in_range, App2Range.get_dropoffs_in_range.
  rewrite (strptime_not_absent s sd Hs), (strptime_not_absent e ed He). cbn [orb].
  rewrite (app_range_bounds s e sd ed Hs He Asd Aed),
          (app2_range_bounds s e sd ed Hs He Asd Aed).
  unfold query_range. rewrite (filter_none _ db F1), (filter_none _ db F2).
  split; reflexivity.
Qed.

Lemma C7_inverted_range_is_empty_witness :
  exists lo hi hi2,
    AppRange.range_bounds "2024-01-05" "2024-01-03" = Bounds lo hi
    /\ App2Range.range_bounds "2024-01-05" "2024-01-03" = Bounds lo hi2
    /\ instant hi < instant lo
    /\ instant hi2 < instant lo
    /\ (forall r, in_filter 7 (lo, hi) r = false)
    /\ (forall r, in_filter 7 (lo, hi2) r = false)
    /\ AppRange.get_dropoffs_in_range 7 [mk_row 1 7 "794644790132" (utc 2024 1 4 20 0 0)]
         (Some "2024-01-05") (Some "2024-01-03") = Some (Success [])
    /\ App2Range.get_dropoffs_in_range 7 [mk_row 1 7 "794644790132" (utc 2024 1 4 20 0 0)]
         (Some "2024-01-05") (Some "2024-01-03") = Some (Success []).
Proof.
  apply (C7_inverted_range_is_empty 7 _ "2024-01-05" "2024-01-03"
           (mk_date 2024 1 5) (mk_date 2024 1 3)).
  - reflexivity.
  - reflexivity.
  - unfold date_lt. vm_compute. reflexivity.
  - unfold away_from_bounds. vm_compute. split; reflexivity.
  - unfold away_from_bounds. vm_compute. split; reflexivity.
Defined.

(** C7, as stated, fails on the last day of the calendar.  From
    9999-12-31 back to 2024-01-01 the range is inverted, yet the answer is
    an error, the server error of the uncaught [OverflowError], and not an
    empty list: no interval is computed. *)
Lemma C7_error_on_the_last_day :
  strptime "9999-12-31" = Some (mk_date 9999 12 31)
  /\ strptime "2024-01-01" = Some (mk_date 2024 1 1)
  /\ date_lt (mk_date 2024 1 1) (mk_date 9999 12 31)
  /\ AppRange.get_dropoffs_in_range 7 [] (Some "9999-12-31") (Some "2024-01-01")
     = Some ServerError
  /\ App2Range.get_dropoffs_in_range 7 [] (Some "9999-12-31") (Some "2024-01-01")
     = Some ServerError
  /\ AppRange.get_dropoffs_in_range 7 [] (Some "9999-12-31") (Some "2024-01-01")
     <> Some (Success [])
  /\ ~ (exists lo hi, AppRange.range_bounds "9999-12-31" "2024-01-01" = Bounds lo hi).
Proof.
  assert (E : AppRange.range_bounds "9999-12-31" "2024-01-01" = Raise OverflowError)
    by (vm_compute; reflexivity).
  assert (R : AppRange.get_dropoffs_in_range 7 [] (Some "9999-12-31") (Some "2024-01-01")
              = Some ServerError) by (vm_compute; reflexivity).
  split; [vm_compute; reflexivity|]. split; [vm_compute; reflexivity|].
  split; [unfold date_lt; vm_compute; reflexivity|].
  split; [exact R|]. split; [vm_compute; reflexivity|].
  split; [rewrite R; discriminate|].
  intros [lo [hi H]]. rewrite E in H. discriminate.
Qed.

Lemma get_dropoffs_answers user db (s e : pystr) sd ed :
  strptime s = Some sd -> strptime e = Some ed ->
  (AppRange.get_dropoffs_in_range user db (Some s) (Some e) = Some ServerError
   \/ exists l, AppRange.get_dropoffs_in_range user db (Some s) (Some e) = Some (Success l))
  /\ (App2Range.get_dropoffs_in_range user db (Some s) (Some e) = Some ServerError
      \/ exists l, App2Range.get_dropoffs_in_range user db (Some s) (Some e)
                   = Some (Success l)).
Proof.
  intros Hs He.
  unfold AppRange.get_dropoffs_in_range, App2Range.get_dropoffs_in_range.
  rewrite (strptime_not_absent s sd Hs), (strptime_not_absent e ed He). cbn [orb].
  destruct (bounds_cases sd) as [Asd|Bsd]; [destruct (bounds_cases ed) as [Aed|Bed]|].
  - rewrite (app_range_bounds s e sd ed Hs He Asd Aed),
            (app2_range_bounds s e sd ed Hs He Asd Aed).
    split; right; eexists; reflexivity.
  - rewrite (app_range_overflow s e sd ed Hs He (or_intror Bed)),
            (app2_range_overflow s e sd ed Hs He (or_intror Bed)).
    split; left; reflexivity.
  - rewrite (app_range_overflow s e sd ed Hs He (or_introl Bsd)),
            (app2_range_overflow s e sd ed Hs He (or_introl Bsd)).
    split; left; reflexivity.
Qed.

(** C6.  When both fields are filled in and one of them is no calendar
    date in the form YYYY-MM-DD, both routes answer with the invalid-date
    failure and compute no bounds.  When both parse, neither route answers
    with a validation failure: the answer is a success, or the server error
    when a date lies on the edge of the calendar. *)
Theorem C6_invalid_date_is_rejected (user : Z) (db : store) (s e : pystr) :
  absent (Some s) = false -> absent (Some e) = false ->
  ((strptime s = None \/ strptime e = None) ->
     AppRange.range_bounds s e = Raise ValueError
     /\ App2Range.range_bounds s e = Raise ValueError
     /\ AppRange.get_dropoffs_in_range user db (Some s) (Some e)
        = Some (BadRequest msg_invalid)
     /\ App2Range.get_dropoffs_in_range user db (Some s) (Some e)
        = Some (BadRequest msg_invalid))
  /\ ((exists sd ed, strptime s = Some sd /\ strptime e = Some ed) ->
      (forall m, AppRange.get_dropoffs_in_range user db (Some s) (Some e)
                 <> Some (BadRequest m))
      /\ (forall m, App2Range.get_dropoffs_in_range user db (Some s) (Some e)
                    <> Some (BadRequest m))
      /\ AppRange.range_bounds s e <> Raise ValueError
      /\ App2Range.range_bounds s e <> Raise ValueError
      /\ (AppRange.get_dropoffs_in_range user db (Some s) (Some e) = Some ServerError
          \/ exists l, AppRange.get_dropoffs_in_range user db (Some s) (Some e)
                       = Some (Success l))
      /\ (App2Range.get_dropoffs_in_range user db (Some s) (Some e) = Some ServerError
          \/ exists l, App2Range.get_dropoffs_in_range user db (Some s) (Some e)
                       = Some (Success l))).
Proof.
  intros Hs He. split.
  - intros Hbad.
    assert (R1 : AppRange.range_bounds s e = Raise ValueError).
    { unfold AppRange.range_bounds.
      destruct Hbad as [H|H]; rewrite H; [reflexivity|].
      destruct (strptime s); reflexivity. }
    assert (R2 : App2Range.range_bounds s e = Raise ValueError).
    { unfold App2Range.range_bounds.
      destruct Hbad as [H|H]; rewrite H; [reflexivity|].
      destruct (strptime s); reflexivity. }
    unfold AppRange.get_dropoffs_in_range, App2Range.get_dropoffs_in_range.
    rewrite Hs, He, R1, R2. cbn [orb]. repeat split; reflexivity.
  - intros [sd [ed [Hsd Hed]]].
    destruct (get_dropoffs_answers user db s e sd ed Hsd Hed) as [A1 A2].
    assert (B1 : AppRange.range_bounds s e <> Raise ValueError).
    { destruct (bounds_cases sd) as [Asd|Bsd]; [destruct (bounds_cases ed) as [Aed|Bed]|].
      - rewrite (app_range_bounds s e sd ed Hsd Hed Asd Aed). discriminate.
      - rewrite (app_range_overflow s e sd ed Hsd Hed (or_intror Bed)). discriminate.
      - rewrite (app_range_overflow s e sd ed Hsd Hed (or_introl Bsd)). discriminate. }
    assert (B2 : App2Range.range_bounds s e <> Raise ValueError).
    { destruct (bounds_cases sd) as [Asd|Bsd]; [destruct (bounds_cases ed) as [Aed|Bed]|].
      - rewrite (app2_range_bounds s e sd ed Hsd Hed Asd Aed). discriminate.
      - rewrite (app2_range_overflow s e sd ed Hsd Hed (or_intror Bed)). discriminate.
      - rewrite (app2_range_overflow s e sd ed Hsd Hed (or_introl Bsd)). discriminate. }
    split; [|split; [|split; [exact B1|split; [exact B2|split; [exact A1 | exact A2]]]]].
    + intros m. destruct A1 as [E|[l E]]; rewrite E; discriminate.
    + intros m. destruct A2 as [E|[l E]]; rewrite E; discriminate.
Qed.

Lemma C6_invalid_date_is_rejected_witness :
  AppRange.range_bounds "2024-02-30" "2024-03-01" = Raise ValueError
  /\ App2Range.range_bounds "2024-02-30" "2024-03-01" = Raise ValueError
  /\ AppRange.get_dropoffs_in_range 7 [] (Some "2024-02-30") (Some "2024-03-01")
     = Some (BadRequest msg_invalid)
  /\ App2Range.get_dropoffs_in_range 7 [] (Some "2024-02-30") (Some "2024-03-01")
     = Some (BadRequest msg_invalid).
Proof.
  apply (proj1 (C6_invalid_date_is_rejected 7 [] "2024-02-30" "2024-03-01"
                  eq_refl eq_refl)).
  left. reflexivity.
Defined.

(** ** Claims about the conversions *)

Lemma fromutc_offset_nonzero u tz :
  tzinfo_of (fromutc DISPLAY_TIMEZONE u) = Some tz -> utcoffset tz <> 0.
Proof.
  unfold fromutc. cbn [tzinfo_of]. intros H. injection H as <-.
  pose proof (zone_info_bounds DISPLAY_TIMEZONE u display_offsets_ok) as Hb.
  unfold tzinfo_of_tt. cbn [utcoffset]. unfold HI, LO, SECOND in *. lia.
Qed.

Lemma instant_fromutc z u : instant (fromutc z u) = u.
Proof. unfold fromutc. cbn [instant tzinfo_of_tt utcoffset]. lia. Qed.

(** C2, as the code has it.  Every non-null value read back is made aware.
    The column type of [app.py] hands it out in UTC, with offset zero.
    The one of [app2.py] hands out the same instant in the display zone,
    with the offset of that zone, which is never zero. *)
Theorem C2_result_value_zones (v : datetime) :
  (exists r, App.process_result_value (Some v) = Some r
             /\ tzinfo_of r = Some timezone_utc
             /\ instant r = instant v)
  /\ (exists r tz, App2.process_result_value (Some v) = Some r
                   /\ tzinfo_of r = Some tz
                   /\ utcoffset tz <> 0
                   /\ instant r = instant v
                   /\ r = fromutc DISPLAY_TIMEZONE (instant v)).
Proof.
  split.
  - unfold App.process_result_value.
    destruct v as [w|w tz]; cbn [tzinfo_of]; eexists; (split; [reflexivity|]);
      split; try reflexivity; cbn [replace_tzinfo_utc astimezone_utc instant wall_of utcoffset];
      lia.
  - unfold App2.process_result_value.
    assert (E : instant (match tzinfo_of v with
                         | Some _ => v
                         | None => replace_tzinfo_utc v
                         end) = instant v).
    { destruct v as [w|w tz]; cbn [tzinfo_of replace_tzinfo_utc instant wall_of utcoffset];
        lia. }
    unfold astimezone. rewrite E.
    exists (fromutc DISPLAY_TIMEZONE (instant v)),
           (tzinfo_of_tt (zone_info DISPLAY_TIMEZONE (instant v))).
    split; [reflexivity|]. split; [reflexivity|].
    split; [apply (fromutc_offset_nonzero (instant v)); reflexivity|].
    split; [apply instant_fromutc | reflexivity].
Qed.

(** C2, as stated, fails for [app2.py]: the stored value 1970-01-01
    00:00:00 is read back as 1969-12-31 16:00:00-08:00. *)
Lemma C2_app2_offset_not_zero :
  App2.process_result_value (Some (Naive 0))
    = Some (Aware (-28800 * SECOND) (pytz_tzinfo (-28800 * SECOND) false))
  /\ ~ (forall v r tz, App2.process_result_value (Some v) = Some r ->
                       tzinfo_of r = Some tz -> utcoffset tz = 0).
Proof.
  split; [vm_compute; reflexivity|].
  intros H.
  specialize (H (Naive 0) _ (pytz_tzinfo (-28800 * SECOND) false) eq_refl eq_refl).
  vm_compute in H. discriminate.
Qed.

(** C8.  A value shown in the display zone, bound as a parameter, is
    normalized to UTC at the same instant, and shown in the display zone
    again it is the same local datetime. *)
Theorem C8_round_trip (i : datetime) :
  let local := astimezone DISPLAY_TIMEZONE i in
  exists bound,
    process_bind_param (Some local) = Some bound
    /\ tzinfo_of bound = Some timezone_utc
    /\ instant bound = instant i
    /\ astimezone DISPLAY_TIMEZONE bound = local.
Proof.
  intros local. exists (astimezone_utc local).
  split; [reflexivity|]. split; [reflexivity|].
  assert (E : instant (astimezone_utc local) = instant i).
  { rewrite instant_astimezone_utc. apply instant_fromutc. }
  split; [exact E|]. unfold astimezone at 1. rewrite E. reflexivity.
Qed.

(** ** Claims about the day buckets *)

Section SortedFacts.
Context {A : Type}.
Variable key : A -> Z.

Definition key_le (a b : A) : Prop := key a <= key b.
Definition key_ge (a b : A) : Prop := key b <= key a.
Definition key_gt (a b : A) : Prop := key b < key a.

Lemma insert_asc_In x l y : In y (insert_asc key x l) <-> y = x \/ In y l.
Proof.
  induction l as [|z l IH]; simpl; [intuition congruence|].
  destruct (key x <=? key z); simpl; [intuition congruence|].
  rewrite IH. intuition congruence.
Qed.

Lemma insert_asc_sorted x l :
  StronglySorted key_le l -> StronglySorted key_le (insert_asc key x l).
Proof.
  induction 1 as [|z l Hs IH Hz]; simpl; [repeat constructor|].
  destruct (key x <=? key z) eqn:E.
  - apply Z.leb_le in E. constructor; [constructor; assumption|].
    constructor; [exact E|].
    rewrite Forall_forall in *. intros y Hy. specialize (Hz y Hy).
    unfold key_le in *. lia.
  - apply Z.leb_gt in E. constructor; [exact IH|].
    rewrite Forall_forall in *. intros y Hy. apply insert_asc_In in Hy.
    destruct Hy as [->|Hy]; [unfold key_le; lia | apply Hz; exact Hy].
Qed.

Lemma sorted_asc_sorted l : StronglySorted key_le (sorted_asc key l).
Proof.
  induction l as [|x l IH]; simpl; [constructor | apply insert_asc_sorted; exact IH].
Qed.

(** Stability: among the elements of one key, the order is the input's. *)
Lemma insert_asc_stable v x l :
  filter (fun a => key a =? v) (insert_asc key x l)
  = filter (fun a => key a =? v) (x :: l).
Proof.
  induction l as [|z l IH]; [reflexivity|].
  cbn [insert_asc]. destruct (key x <=? key z) eqn:E; [reflexivity|].
  apply Z.leb_gt in E. cbn [filter] in *.
  destruct (key z =? v) eqn:Ez.
  - apply Z.eqb_eq in Ez.
    assert (Ex : (key x =? v) = false) by (apply Z.eqb_neq; lia).
    rewrite Ex in *. rewrite IH. reflexivity.
  - exact IH.
Qed.

Lemma sorted_asc_stable v l :
  filter (fun a => key a =? v) (sorted_asc key l) = filter (fun a => key a =? v) l.
Proof.
  induction l as [|x l IH]; [reflexivity|].
  cbn [sorted_asc fold_right]. fold (sorted_asc key l).
  rewrite insert_asc_stable. cbn [filter]. rewrite IH. reflexivity.
Qed.

Lemma insert_desc_In x l y : In y (insert_desc key x l) <-> y = x \/ In y l.
Proof.
  induction l as [|z l IH]; simpl; [intuition congruence|].
  destruct (key z <=? key x); simpl; [intuition congruence|].
  rewrite IH. intuition congruence.
Qed.

Lemma sorted_desc_In l y : In y (sorted_desc key l) <-> In y l.
Proof.
  induction l as [|x l IH]; simpl; [tauto|].
  rewrite insert_desc_In, IH. intuition congruence.
Qed.

Lemma insert_desc_keys x l :
  Permutation (map key (insert_desc key x l)) (key x :: map key l).
Proof.
  induction l as [|z l IH]; simpl; [reflexivity|].
  destruct (key z <=? key x); simpl; [reflexivity|].
  rewrite IH. apply perm_swap.
Qed.

Lemma sorted_desc_keys l : Permutation (map key (sorted_desc key l)) (map key l).
Proof.
  induction l as [|x l IH]; simpl; [reflexivity|].
  rewrite insert_desc_keys. apply perm_skip. exact IH.
Qed.

Lemma insert_desc_sorted x l :
  StronglySorted key_ge l -> StronglySorted key_ge (insert_desc key x l).
Proof.
  induction 1 as [|z l Hs IH Hz]; simpl; [repeat constructor|].
  destruct (key z <=? key x) eqn:E.
  - apply Z.leb_le in E. constructor; [constructor; assumption|].
    constructor; [exact E|].
    rewrite Forall_forall in *. intros y Hy. specialize (Hz y Hy).
    unfold key_ge in *. lia.
  - apply Z.leb_gt in E. constructor; [exact IH|].
    rewrite Forall_forall in *. intros y Hy. apply insert_desc_In in Hy.
    destruct Hy as [->|Hy]; [unfold key_ge; lia | apply Hz; exact Hy].
Qed.

Lemma sorted_desc_sorted l : StronglySorted key_ge (sorted_desc key l).
Proof.
  induction l as [|x l IH]; simpl; [constructor | apply insert_desc_sorted; exact IH].
Qed.

Lemma sorted_distinct_strict l :
  StronglySorted key_ge l -> NoDup (map key l) -> StronglySorted key_gt l.
Proof.
  induction 1 as [|z l Hs IH Hz]; intros Hnd; [constructor|].
  simpl in Hnd. inversion Hnd as [|? ? Hnotin Hnd']; subst.
  constructor; [apply IH; exact Hnd'|].
  rewrite Forall_forall in *. intros y Hy.
  specialize (Hz y Hy). unfold key_ge in Hz. unfold key_gt.
  assert (key y <> key z).
  { intros Heq. apply Hnotin. rewrite <- Heq. apply in_map. exact Hy. }
  lia.
Qed.
End SortedFacts.

Section Buckets.
Context {A : Type}.
Variable date_key : A -> Z.

(** [d.get(k)] *)
Fixpoint dict_get (k : Z) (d : list (Z * list A)) : option (list A) :=
  match d with
  | [] => None
  | (k', vs) :: d' => if k =? k' then Some vs else dict_get k d'
  end.

Definition nonempty (l : list A) : option (list A) :=
  match l with [] => None | _ => Some l end.

Lemma dict_get_append_same k v d :
  dict_get k (dict_append k v d)
  = Some (match dict_get k d with Some vs => vs ++ [v] | None => [v] end).
Proof.
  induction d as [|[k' vs] d IH]; simpl; [rewrite Z.eqb_refl; reflexivity|].
  destruct (k =? k') eqn:E; simpl; rewrite E; [reflexivity | exact IH].
Qed.

Lemma dict_get_append_other k v d k' :
  k' <> k -> dict_get k' (dict_append k v d) = dict_get k' d.
Proof.
  intros Hne. induction d as [|[k0 vs] d IH]; simpl.
  - apply Z.eqb_neq in Hne. rewrite Hne. reflexivity.
  - destruct (k =? k0) eqn:E; simpl.
    + apply Z.eqb_eq in E. subst k0.
      apply Z.eqb_neq in Hne. rewrite Hne. reflexivity.
    + rewrite IH. reflexivity.
Qed.

Lemma dict_append_keys k v (d : list (Z * list A)) :
  (In k (map fst d) /\ map fst (dict_append k v d) = map fst d)
  \/ (~ In k (map fst d) /\ map fst (dict_append k v d) = map fst d ++ [k]).
Proof.
  induction d as [|[k' vs] d IH]; simpl; [right; split; [tauto|reflexivity]|].
  destruct (k =? k') eqn:E.
  - apply Z.eqb_eq in E. left. simpl. split; [left; congruence | reflexivity].
  - apply Z.eqb_neq in E. simpl.
    destruct IH as [[Hin Heq]|[Hnin Heq]]; rewrite Heq.
    + left. split; [right; exact Hin | reflexivity].
    + right. split; [|reflexivity]. intros [H|H]; [congruence | contradiction].
Qed.

Lemma dict_append_NoDup k v (d : list (Z * list A)) :
  NoDup (map fst d) -> NoDup (map fst (dict_append k v d)).
Proof.
  intros Hnd. destruct (dict_append_keys k v d) as [[_ Heq]|[Hnin Heq]]; rewrite Heq.
  - exact Hnd.
  - apply NoDup_rev in Hnd. rewrite <- (rev_involutive (map fst d ++ [k])).
    apply NoDup_rev. rewrite rev_app_distr. simpl. constructor; [|exact Hnd].
    rewrite <- in_rev. exact Hnin.
Qed.

Lemma dict_get_In k vs (d : list (Z * list A)) :
  NoDup (map fst d) -> In (k, vs) d -> dict_get k d = Some vs.
Proof.
  induction d as [|[k' vs'] d IH]; simpl; [tauto|].
  intros Hnd [H|H]; inversion Hnd as [|? ? Hnotin Hnd']; subst.
  - inversion H; subst. rewrite Z.eqb_refl. reflexivity.
  - destruct (k =? k') eqn:E.
    + apply Z.eqb_eq in E. subst k'. exfalso. apply Hnotin.
      change k with (fst (k, vs)). apply in_map. exact H.
    + apply IH; assumption.
Qed.

(** What the loop has built after the records [l]: one entry per date
    met, holding the records of that date in their order in [l]. *)
Definition buckets_of (l : list A) (d : list (Z * list A)) : Prop :=
  NoDup (map fst d)
  /\ forall k, dict_get k d = nonempty (filter (fun t => date_key t =? k) l).

Lemma buckets_of_step l d v :
  buckets_of l d -> buckets_of (l ++ [v]) (dict_append (date_key v) v d).
Proof.
  intros [Hnd Hget]. split; [apply dict_append_NoDup; exact Hnd|].
  intros k. rewrite filter_app. cbn [filter].
  destruct (Z.eq_dec k (date_key v)) as [->|Hne].
  - rewrite dict_get_append_same, Hget, Z.eqb_refl.
    destruct (filter (fun t => date_key t =? date_key v) l); reflexivity.
  - rewrite dict_get_append_other by exact Hne. rewrite Hget.
    assert (E : (date_key v =? k) = false) by (apply Z.eqb_neq; congruence).
    rewrite E, app_nil_r. reflexivity.
Qed.

Lemma buckets_of_loop l : forall done d,
  buckets_of done d ->
  buckets_of (done ++ l) (fold_left (fun d t => dict_append (date_key t) t d) l d).
Proof.
  induction l as [|v l IH]; intros done d H; simpl.
  - rewrite app_nil_r. exact H.
  - replace (done ++ v :: l) with ((done ++ [v]) ++ l)
      by (rewrite <- app_assoc; reflexivity).
    apply IH. apply buckets_of_step. exact H.
Qed.

Lemma buckets_of_all l :
  buckets_of l (fold_left (fun d t => dict_append (date_key t) t d) l []).
Proof.
  apply (buckets_of_loop l [] []). split; [constructor|].
  intros k. reflexivity.
Qed.

Lemma dict_get_Some k vs (d : list (Z * list A)) :
  dict_get k d = Some vs -> In (k, vs) d.
Proof.
  induction d as [|[k' vs'] d IH]; simpl; [discriminate|].
  destruct (k =? k') eqn:E.
  - apply Z.eqb_eq in E. subst k'. intros H. injection H as ->. left. reflexivity.
  - intros H. right. apply IH. exact H.
Qed.

Lemma buckets_of_complete l d v :
  buckets_of l d -> In v l ->
  In (date_key v, filter (fun t => date_key t =? date_key v) l) d.
Proof.
  intros [Hnd Hget] Hin. apply dict_get_Some. rewrite Hget.
  assert (Hv : In v (filter (fun t => date_key t =? date_key v) l)).
  { apply filter_In. split; [exact Hin | apply Z.eqb_refl]. }
  destruct (filter (fun t => date_key t =? date_key v) l); [destruct Hv | reflexivity].
Qed.

Lemma buckets_of_In l d k vs :
  buckets_of l d -> In (k, vs) d -> vs = filter (fun t => date_key t =? k) l.
Proof.
  intros [Hnd Hget] Hin. pose proof (dict_get_In k vs d Hnd Hin) as H.
  rewrite Hget in H. destruct (filter (fun t => date_key t =? k) l); simpl in H.
  - discriminate.
  - injection H as <-. reflexivity.
Qed.
End Buckets.

Lemma StronglySorted_map {A B : Type} (f : A -> B) (R : B -> B -> Prop) (l : list A) :
  StronglySorted (fun a b => R (f a) (f b)) l -> StronglySorted R (map f l).
Proof.
  induction 1 as [|x l Hs IH Hx]; simpl; constructor; [exact IH|].
  rewrite Forall_forall in *. intros y Hy. apply in_map_iff in Hy.
  destruct Hy as [a [<- Ha]]. apply Hx. exact Ha.
Qed.

Lemma insert_asc_perm {A : Type} (key : A -> Z) x l :
  Permutation (insert_asc key x l) (x :: l).
Proof.
  induction l as [|z l IH]; simpl; [reflexivity|].
  destruct (key x <=? key z); [reflexivity|].
  rewrite IH. apply perm_swap.
Qed.

Lemma sorted_asc_perm {A : Type} (key : A -> Z) l : Permutation (sorted_asc key l) l.
Proof.
  induction l as [|x l IH]; simpl; [reflexivity|].
  rewrite insert_asc_perm. apply perm_skip. exact IH.
Qed.

Definition stamp (t : Tracking) : Z := instant (timestamp t).

Section DashboardFacts.
Variable display_timestamp : datetime -> datetime.

Let date_key := drop_off_date display_timestamp.

Lemma grouped_trackings_In l k vs :
  In (k, vs) (grouped_trackings display_timestamp l) ->
  vs = filter (fun t => date_key t =? k) l.
Proof.
  unfold grouped_trackings, trackings_by_display_date. intros H.
  apply sorted_desc_In in H.
  apply (buckets_of_In date_key l _ k vs (buckets_of_all date_key l) H).
Qed.

Lemma grouped_trackings_descending l :
  StronglySorted (key_gt fst) (grouped_trackings display_timestamp l).
Proof.
  unfold grouped_trackings. apply sorted_distinct_strict; [apply sorted_desc_sorted|].
  apply (Permutation_NoDup (l := map fst (trackings_by_display_date display_timestamp l))).
  - symmetry. apply sorted_desc_keys.
  - apply (buckets_of_all date_key l).
Qed.

Lemma dashboard_data_dates_descending l :
  StronglySorted (fun a b => entry_date b < entry_date a)
                 (dashboard_data display_timestamp l).
Proof.
  unfold dashboard_data. apply StronglySorted_map.
  pose proof (grouped_trackings_descending l) as H.
  induction H as [|[k vs] g Hs IH Hx]; constructor; [exact IH|].
  rewrite Forall_forall in *. intros [k' vs'] Hy. specialize (Hx _ Hy).
  exact Hx.
Qed.

Lemma dashboard_data_entry l e :
  In e (dashboard_data display_timestamp l) ->
  trackings e = sorted_asc stamp (filter (fun t => date_key t =? entry_date e) l).
Proof.
  unfold dashboard_data. intros H. apply in_map_iff in H.
  destruct H as [[k vs] [<- Hin]]. cbn [trackings entry_date].
  rewrite (grouped_trackings_In l k vs Hin). reflexivity.
Qed.
Lemma dashboard_data_complete l t :
  In t l ->
  exists e, In e (dashboard_data display_timestamp l)
            /\ entry_date e = date_key t /\ In t (trackings e).
Proof.
  intros Hin.
  pose proof (buckets_of_complete date_key l _ t (buckets_of_all date_key l) Hin) as H.
  apply (sorted_desc_In fst) in H.
  eexists. split.
  - unfold dashboard_data, grouped_trackings, trackings_by_display_date.
    apply in_map_iff. eexists. split; [reflexivity | exact H].
  - cbn [entry_date trackings]. split; [reflexivity|].
    apply (Permutation_in _ (Permutation_sym (sorted_asc_perm _ _))).
    apply filter_In. split; [exact Hin | apply Z.eqb_refl].
Qed.

Lemma dashboard_data_member l e t :
  In e (dashboard_data display_timestamp l) -> In t (trackings e) ->
  In t l /\ entry_date e = date_key t.
Proof.
  intros He Ht. rewrite (dashboard_data_entry l e He) in Ht.
  apply (Permutation_in _ (sorted_asc_perm _ _)) in Ht.
  apply filter_In in Ht. destruct Ht as [Hl Hk]. apply Z.eqb_eq in Hk.
  split; [exact Hl | symmetry; exact Hk].
Qed.
End DashboardFacts.

(** What the claim asks of one dashboard: the days in strictly
    descending order; in each day the records of the input with that date,
    all of them, ascending and stable; and every record of the input in the
    entry of its date. *)
Definition buckets_ordered (date_key : Tracking -> Z)
    (l : list Tracking) (out : list day_entry) : Prop :=
  StronglySorted (fun a b => entry_date b < entry_date a) out
  /\ (forall e, In e out ->
        StronglySorted (fun a b => stamp a <= stamp b) (trackings e)
        /\ Permutation (trackings e) (filter (fun t => date_key t =? entry_date e) l)
        /\ forall v,
             filter (fun t => stamp t =? v) (trackings e)
             = filter (fun t => stamp t =? v)
                      (filter (fun t => date_key t =? entry_date e) l))
  /\ (forall t, In t l ->
        exists e, In e out /\ entry_date e = date_key t /\ In t (trackings e)).

Lemma dashboard_data_ordered display_timestamp l :
  buckets_ordered (drop_off_date display_timestamp) l (dashboard_data display_timestamp l).
Proof.
  split; [apply dashboard_data_dates_descending|]. split.
  - intros e He. rewrite (dashboard_data_entry display_timestamp l e He).
    split; [apply (sorted_asc_sorted stamp)|].
    split; [apply sorted_asc_perm|].
    intros v. apply (sorted_asc_stable stamp).
  - intros t Ht. apply dashboard_data_complete. exact Ht.
Qed.

(** C4.  For every list of records, both dashboards put the days in
    strictly descending order of local date; the records of a day are those
    of the input with that local date, in ascending order of timestamp, and
    records with the same timestamp stand in their input order; every
    record of the input stands in the entry of its local date. *)
Theorem C4_buckets_sorted_and_stable (l : list Tracking) :
  buckets_ordered (drop_off_date (astimezone DISPLAY_TIMEZONE)) l (dashboard_app l)
  /\ buckets_ordered (fun t => date_of (timestamp t)) l (dashboard_app2 l).
Proof.
  split.
  - apply (dashboard_data_ordered (astimezone DISPLAY_TIMEZONE)).
  - apply (dashboard_data_ordered (fun ts => ts)).
Qed.

Lemma drop_off_date_of_midnight d t :
  wall_of (astimezone DISPLAY_TIMEZONE (timestamp t)) = midnight d ->
  drop_off_date (astimezone DISPLAY_TIMEZONE) t = toordinal d.
Proof.
  intros H. unfold drop_off_date, date_of. rewrite H. unfold midnight.
  apply Z.div_mul. unfold DAY, HOUR, MINUTE, SECOND. lia.
Qed.

(** C5.  A record whose timestamp the display zone shows as 00:00:00 of
    a date stands, in the dashboard of [app.py], in the entry of that date
    and in no other; every date from 0001-01-02 to 9999-12-30 has such an
    instant, the one [localize] finds for its midnight.  In June the zone is seven hours behind UTC: of
    three records stamped 2024-06-01T06:59:59Z, 07:00:00Z and 07:00:01Z the
    first is put under 2024-05-31 and the two others under 2024-06-01. *)
Theorem C5_midnight_belongs_to_its_day :
  (forall (d : date) (l : list Tracking) (t : Tracking),
     In t l ->
     wall_of (astimezone DISPLAY_TIMEZONE (timestamp t)) = midnight d ->
     (exists e, In e (dashboard_app l)
                /\ entry_date e = toordinal d /\ In t (trackings e))
     /\ (forall e, In e (dashboard_app l) -> In t (trackings e) ->
                   entry_date e = toordinal d))
  /\ (forall d : date,
        away_from_bounds d ->
        exists m, localize_py DISPLAY_TIMEZONE (midnight d) = Ok m
                  /\ wall_of m = midnight d
                  /\ forall ts, instant ts = instant m ->
                       wall_of (astimezone DISPLAY_TIMEZONE ts) = midnight d)
  /\ (forall i1 i2 i3 n1 n2 n3,
        dashboard_app
          [mk_Tracking i3 7 n3 (Aware (utc 2024 6 1 7 0 1) timezone_utc);
           mk_Tracking i2 7 n2 (Aware (utc 2024 6 1 7 0 0) timezone_utc);
           mk_Tracking i1 7 n1 (Aware (utc 2024 6 1 6 59 59) timezone_utc)]
        = [mk_day_entry (toordinal (mk_date 2024 6 1)) 2
             [mk_Tracking i2 7 n2 (Aware (utc 2024 6 1 7 0 0) timezone_utc);
              mk_Tracking i3 7 n3 (Aware (utc 2024 6 1 7 0 1) timezone_utc)]
             (Some i3);
           mk_day_entry (toordinal (mk_date 2024 5 31)) 1
             [mk_Tracking i1 7 n1 (Aware (utc 2024 6 1 6 59 59) timezone_utc)]
             (Some i1)]).
Proof.
  split; [|split].
  - intros d l t Hin Hw.
    pose proof (drop_off_date_of_midnight d t Hw) as Hd. split.
    + destruct (dashboard_data_complete (astimezone DISPLAY_TIMEZONE) l t Hin)
        as [e [He [Hk Ht]]].
      exists e. split; [exact He|]. split; [rewrite Hk; exact Hd | exact Ht].
    + intros e He Ht.
      destruct (dashboard_data_member (astimezone DISPLAY_TIMEZONE) l e t He Ht)
        as [_ Hk].
      rewrite Hk. exact Hd.
  - intros d Ad. exists (local_midnight (toordinal d)).
    split; [apply (localize_py_midnight d Ad)|]. split; [reflexivity|].
    intros ts Hts. unfold astimezone. rewrite Hts. unfold local_midnight.
    rewrite fromutc_localized; [reflexivity | exact display_offsets_ok | apply clear_midnight].
  - intros i1 i2 i3 n1 n2 n3. vm_compute. reflexivity.
Qed.

Definition midnight_sample : list Tracking :=
  [mk_Tracking 3 7 "794644790154" (Aware (utc 2024 6 1 7 0 1) timezone_utc);
   mk_Tracking 2 7 "794644790143" (Aware (utc 2024 6 1 7 0 0) timezone_utc);
   mk_Tracking 1 7 "794644790132" (Aware (utc 2024 6 1 6 59 59) timezone_utc)].

Lemma C5_midnight_belongs_to_its_day_witness :
  (exists e, In e (dashboard_app midnight_sample)
             /\ entry_date e = toordinal (mk_date 2024 6 1)
             /\ In (mk_Tracking 2 7 "794644790143" (Aware (utc 2024 6 1 7 0 0) timezone_utc))
                   (trackings e))
  /\ (forall e, In e (dashboard_app midnight_sample) ->
        In (mk_Tracking 2 7 "794644790143" (Aware (utc 2024 6 1 7 0 0) timezone_utc))
           (trackings e) ->
        entry_date e = toordinal (mk_date 2024 6 1)).
Proof.
  exact (proj1 C5_midnight_belongs_to_its_day (mk_date 2024 6 1) midnight_sample
           (mk_Tracking 2 7 "794644790143" (Aware (utc 2024 6 1 7 0 0) timezone_utc))
           (or_intror (or_introl eq_refl)) eq_refl).
Defined.

(** ** Claims about the record store *)

Lemma pystr_eqb_eq a : forall b, pystr_eqb a b = true <-> a = b.
Proof.
  induction a as [|x a IH]; intros [|y b]; simpl; split; intros H;
    try reflexivity; try discriminate.
  - apply andb_true_iff in H. destruct H as [H1 H2].
    apply Z.eqb_eq in H1. apply IH in H2. congruence.
  - injection H as -> ->. rewrite Z.eqb_refl. apply IH. reflexivity.
Qed.

Lemma pystr_eqb_refl a : pystr_eqb a a = true.
Proof. apply pystr_eqb_eq. reflexivity. Qed.

Lemma last12_suffix s :
  s = firstn (List.length s - 12) s ++ last12 s
  /\ List.length (firstn (List.length s - 12) s) = (List.length s - 12)%nat
  /\ List.length (last12 s) = (List.length s - (List.length s - 12))%nat.
Proof.
  unfold last12. split; [symmetry; apply firstn_skipn|].
  split; [apply firstn_length_le; lia | apply length_skipn].
Qed.

Lemma Forall_skipn {A : Type} (P : A -> Prop) n : forall l,
  Forall P l -> Forall P (skipn n l).
Proof.
  induction n as [|n IH]; intros l H; simpl; [exact H|].
  destruct l as [|x l]; [constructor|].
  inversion H; subst. apply IH. assumption.
Qed.

Lemma cleaned_all_digits (s : pystr) :
  Forall (fun c => isdigit c = true) (filter isdigit s).
Proof.
  apply Forall_forall. intros c Hc. apply filter_In in Hc. tauto.
Qed.

(** The query for an existing record of the user with the number. *)
Lemma existing_tracking_iff (current_user : Z) (n : pystr) (db : store) :
  existsb (fun r => (row_user_id r =? current_user)
                    && pystr_eqb (row_tracking_number r) n) db = true
  <-> exists r, In r db /\ row_user_id r = current_user /\ row_tracking_number r = n.
Proof.
  rewrite existsb_exists. split; intros [r [Hin H]]; exists r; (split; [exact Hin|]).
  - apply andb_true_iff in H. destruct H as [H1 H2].
    apply Z.eqb_eq in H1. apply pystr_eqb_eq in H2. tauto.
  - destruct H as [H1 H2]. apply andb_true_iff. split.
    + apply Z.eqb_eq. exact H1.
    + apply pystr_eqb_eq. exact H2.
Qed.

(** C9.  [add_tracking] of [app2.py] saves the characters of the input
    that [str.isdigit] accepts, all of them when there are at most twelve
    and the last twelve otherwise: the saved number is a suffix of the
    cleaned input, made of such characters only, never longer than twelve
    and exactly twelve long when the input has twelve of them or more.
    [str.isdigit] accepts more than the ten ASCII digits: a superscript two
    is kept.  A submitted, non-empty input is refused, and nothing stored,
    when the user already has a record with the saved number; otherwise one
    record with that number is added for the user. *)
Theorem C9_saved_tracking_number (current_user now : Z) (db : store) (input : pystr) :
  let cleaned_number := filter isdigit input in
  let saved := final_tracking_number_to_save input in
  (exists dropped,
     cleaned_number = dropped ++ saved
     /\ List.length dropped = (List.length cleaned_number - 12)%nat)
  /\ Forall (fun c => isdigit c = true) saved
  /\ (forall c, In c saved -> In c input)
  /\ (List.length saved <= 12)%nat
  /\ ((12 <= List.length cleaned_number)%nat -> List.length saved = 12%nat)
  /\ ((List.length cleaned_number <= 12)%nat -> saved = cleaned_number)
  /\ final_tracking_number_to_save [49; 178; 50] = [49; 178; 50]
  /\ (input <> [] ->
      ((exists r, In r db /\ row_user_id r = current_user
                  /\ row_tracking_number r = saved) ->
       add_tracking current_user now db (Some input) = (db, flash_exists saved))
      /\ ((forall r, In r db -> row_user_id r = current_user ->
                     row_tracking_number r <> saved) ->
          add_tracking current_user now db (Some input)
          = (db ++ [mk_row (next_id db) current_user saved now], flash_added saved))).
Proof.
  intros cleaned_number saved.
  assert (Hsuffix : exists dropped,
             cleaned_number = dropped ++ saved
             /\ List.length dropped = (List.length cleaned_number - 12)%nat).
  { unfold saved, final_tracking_number_to_save. fold cleaned_number.
    destruct (12 <? List.length cleaned_number)%nat eqn:E.
    - destruct (last12_suffix cleaned_number) as [H1 [H2 _]].
      eexists. split; [exact H1 | exact H2].
    - apply Nat.ltb_ge in E. exists []. split; [reflexivity | simpl; lia]. }
  assert (Hdigits : Forall (fun c => isdigit c = true) saved).
  { unfold saved, final_tracking_number_to_save. fold cleaned_number.
    destruct (12 <? List.length cleaned_number)%nat.
    - unfold last12. apply Forall_skipn. apply cleaned_all_digits.
    - apply cleaned_all_digits. }
  assert (Hlen : (List.length saved <= 12)%nat
                 /\ ((12 <= List.length cleaned_number)%nat -> List.length saved = 12%nat)
                 /\ ((List.length cleaned_number <= 12)%nat -> saved = cleaned_number)).
  { unfold saved, final_tracking_number_to_save. fold cleaned_number.
    destruct (12 <? List.length cleaned_number)%nat eqn:E.
    - apply Nat.ltb_lt in E. destruct (last12_suffix cleaned_number) as [_ [_ H3]].
      rewrite H3. repeat split; lia.
    - apply Nat.ltb_ge in E. repeat split; lia. }
  split; [exact Hsuffix|]. split; [exact Hdigits|].
  split.
  { intros c Hc. destruct Hsuffix as [dropped [Hd _]].
    assert (Hin : In c cleaned_number) by (rewrite Hd; apply in_or_app; right; exact Hc).
    apply filter_In in Hin. tauto. }
  split; [apply Hlen|]. split; [apply Hlen|]. split; [apply Hlen|].
  split; [vm_compute; reflexivity|].
  intros Hne. unfold add_tracking. fold saved.
  destruct input as [|c input']; [congruence|].
  split.
  - intros Hex. apply existing_tracking_iff in Hex. rewrite Hex. reflexivity.
  - intros Hnone.
    destruct (existsb _ db) eqn:E; [|reflexivity].
    exfalso. apply existing_tracking_iff in E. destruct E as [r [Hin [Hu Hn]]].
    exact (Hnone r Hin Hu Hn).
Qed.

Lemma C9_saved_tracking_number_witness :
  add_tracking 7 5 [mk_row 1 8 "464479013299" 0] (Some "7946-4479 0132 99x")
  = ([mk_row 1 8 "464479013299" 0] ++
     [mk_row (next_id [mk_row 1 8 "464479013299" 0]) 7
        (final_tracking_number_to_save "7946-4479 0132 99x") 5],
     flash_added (final_tracking_number_to_save "7946-4479 0132 99x")).
Proof.
  apply (proj2 (proj2 (proj2 (proj2 (proj2 (proj2 (proj2
           (C9_saved_tracking_number 7 5 [mk_row 1 8 "464479013299" 0]
              "7946-4479 0132 99x")))))))).
  - discriminate.
  - intros r [<-|[]] Hu. simpl in Hu. discriminate.
Defined.

Lemma filter_all {A : Type} (f : A -> bool) (l : list A) :
  (forall x, In x l -> f x = true) -> filter f l = l.
Proof.
  induction l as [|x l IH]; intros H; simpl; [reflexivity|].
  rewrite (H x (or_introl eq_refl)). f_equal. apply IH.
  intros y Hy. apply H. right. exact Hy.
Qed.

Lemma session_delete_split obj before after :
  NoDup (map row_id (before ++ obj :: after)) ->
  session_delete obj (before ++ obj :: after) = before ++ after.
Proof.
  intros Hnd. rewrite map_app in Hnd. cbn [map] in Hnd.
  pose proof (NoDup_remove_2 _ _ _ Hnd) as Hnotin.
  assert (Hother : forall r, In r (before ++ after) ->
                             negb (row_id r =? row_id obj) = true).
  { intros r Hr. apply negb_true_iff. apply Z.eqb_neq. intros Heq.
    apply Hnotin. rewrite <- map_app. rewrite <- Heq. apply in_map. exact Hr. }
  unfold session_delete. rewrite filter_app. cbn [filter].
  rewrite Z.eqb_refl. cbn [negb].
  rewrite !filter_all; [reflexivity | |].
  - intros r Hr. apply Hother. apply in_or_app. right. exact Hr.
  - intros r Hr. apply Hother. apply in_or_app. left. exact Hr.
Qed.

(** C10.  In a store whose ids are distinct, [delete_tracking] takes out
    the one record with the given id and owner and keeps every other
    record, in place; when no record has that id and that owner, be it
    that the id belongs to another user, the store is returned as it was
    with the not-found message. *)
Theorem C10_delete_only_own_record (current_user tracking_id : Z) (db : store) :
  NoDup (map row_id db) ->
  ((exists r, In r db /\ row_id r = tracking_id /\ row_user_id r = current_user) ->
     exists before obj after,
       db = before ++ obj :: after
       /\ row_id obj = tracking_id /\ row_user_id obj = current_user
       /\ delete_tracking current_user tracking_id db = (before ++ after, flash_deleted))
  /\ ((forall r, In r db -> row_id r = tracking_id -> row_user_id r <> current_user) ->
      delete_tracking current_user tracking_id db = (db, flash_not_found)).
Proof.
  intros Hnd. unfold delete_tracking, tracking_to_delete. split.
  - intros [r [Hin [Hid Hu]]].
    destruct (find _ db) as [obj|] eqn:F.
    + apply find_some in F. destruct F as [Hobj Hmatch].
      apply andb_true_iff in Hmatch. destruct Hmatch as [H1 H2].
      apply Z.eqb_eq in H1. apply Z.eqb_eq in H2.
      destruct (in_split _ _ Hobj) as [before [after Hdb]].
      exists before, obj, after. subst db.
      rewrite (session_delete_split obj before after Hnd). tauto.
    + exfalso. pose proof (find_none _ _ F r Hin) as Hn. cbn beta in Hn.
      rewrite Hid, Hu, !Z.eqb_refl in Hn. discriminate.
  - intros Hnone.
    destruct (find _ db) as [obj|] eqn:F; [|reflexivity].
    exfalso. apply find_some in F. destruct F as [Hobj Hmatch].
    apply andb_true_iff in Hmatch. destruct Hmatch as [H1 H2].
    apply Z.eqb_eq in H1. apply Z.eqb_eq in H2.
    exact (Hnone obj Hobj H1 H2).
Qed.

Lemma C10_delete_only_own_record_witness :
  delete_tracking 7 1 [mk_row 1 8 "794644790132" 0; mk_row 2 7 "794644790143" 5]
  = ([mk_row 1 8 "794644790132" 0; mk_row 2 7 "794644790143" 5], flash_not_found).
Proof.
  apply (C10_delete_only_own_record 7 1
           [mk_row 1 8 "794644790132" 0; mk_row 2 7 "794644790143" 5]).
  - repeat constructor; simpl; intuition discriminate.
  - intros r Hin Hid. simpl in Hin.
    destruct Hin as [<-|[<-|[]]]; simpl in *; [intro H | ]; discriminate.
Defined.

(** * Further routes and properties *)

(** ** Instants and wall-clock times around a midnight *)

(** Between 00:00 and 09:00 UTC of a day the zone has no transition. *)
Lemma zone_info_quiet k u :
  k * DAY <= u < k * DAY + 9 * HOUR ->
  zone_info DISPLAY_TIMEZONE u = period DISPLAY_TIMEZONE (k * DAY).
Proof.
  intros Hu. unfold period, zone_info.
  assert (Hq : forall t i, In (t, i) (z_transitions DISPLAY_TIMEZONE) ->
                 t * SECOND < k * DAY \/ k * DAY + 9 * HOUR <= t * SECOND).
  { intros t i Hin.
    pose proof display_times_ok as Hall. unfold times_ok in Hall.
    rewrite forallb_forall in Hall. specialize (Hall _ Hin). cbn [fst] in Hall.
    apply Z.leb_le in Hall.
    pose proof (Z.div_mod t 86400 ltac:(lia)) as Hdm.
    pose proof (Z.mod_pos_bound t 86400 ltac:(lia)) as Hr.
    set (q := t / 86400) in *. set (r := t mod 86400) in *.
    unfold DAY, HOUR, MINUTE, SECOND in *.
    destruct (Z_lt_le_dec q k); [left | right]; lia. }
  destruct (Z_le_gt_dec u (k * DAY + LO)) as [Hle|Hgt].
  - apply info_at_constant; [exact Hle|].
    intros t i Hin. destruct (Hq t i Hin); [left | right];
      unfold LO, DAY, HOUR, MINUTE, SECOND in *; lia.
  - symmetry. apply info_at_constant; [lia|].
    intros t i Hin. destruct (Hq t i Hin); [left | right];
      unfold LO, DAY, HOUR, MINUTE, SECOND in *; lia.
Qed.

(** The offset in force around the midnight that opens day [k]. *)
Definition offset_at_midnight (k : Z) : Z :=
  tt_off (period DISPLAY_TIMEZONE (k * DAY)) * SECOND.

Lemma offset_at_midnight_bounds k : - HI <= offset_at_midnight k <= - LO.
Proof. apply zone_info_bounds. exact display_offsets_ok. Qed.

Lemma wall_of_fromutc u :
  wall_of (fromutc DISPLAY_TIMEZONE u)
  = u + tt_off (zone_info DISPLAY_TIMEZONE u) * SECOND.
Proof. reflexivity. Qed.

Lemma wall_of_fromutc_quiet k u :
  k * DAY <= u < k * DAY + 9 * HOUR ->
  wall_of (fromutc DISPLAY_TIMEZONE u) = u + offset_at_midnight k.
Proof.
  intros Hu. rewrite wall_of_fromutc, (zone_info_quiet k u Hu). reflexivity.
Qed.

Lemma localized_near_midnight k w :
  k * DAY - HOUR <= w < k * DAY + HOUR ->
  instant (localized DISPLAY_TIMEZONE w) = w - offset_at_midnight k.
Proof.
  intros Hw. unfold localized, offset_at_midnight. cbn [instant tzinfo_of_tt utcoffset].
  replace (period DISPLAY_TIMEZONE w) with (period DISPLAY_TIMEZONE (k * DAY)); [reflexivity|].
  symmetry. unfold period at 1. apply zone_info_quiet.
  unfold LO, DAY, HOUR, MINUTE, SECOND in *. lia.
Qed.

Lemma clear_around_midnight k w :
  k * DAY - HOUR <= w < k * DAY + HOUR -> clear DISPLAY_TIMEZONE w.
Proof.
  intros Hw. apply (clear_near_midnight k). unfold HOUR, MINUTE, SECOND in *. lia.
Qed.

Lemma localize_around_midnight k w :
  k * DAY - HOUR <= w < k * DAY + HOUR ->
  localize DISPLAY_TIMEZONE w = Some (localized DISPLAY_TIMEZONE w).
Proof.
  intros Hw. apply localize_clear;
    [exact display_offsets_ok | exact display_spaced_ok | apply (clear_around_midnight k w Hw)].
Qed.

(** Within an hour of a midnight, instants and the wall-clock times the
    zone shows for them are in the same order. *)
Lemma le_localized_iff k w u :
  k * DAY - HOUR <= w < k * DAY + HOUR ->
  (u <= instant (localized DISPLAY_TIMEZONE w)
   <-> wall_of (fromutc DISPLAY_TIMEZONE u) <= w).
Proof.
  intros Hw. rewrite (localized_near_midnight k w Hw).
  pose proof (offset_at_midnight_bounds k) as Hk.
  pose proof (zone_info_bounds DISPLAY_TIMEZONE u display_offsets_ok) as Hu.
  destruct (Z_lt_le_dec u (k * DAY)) as [Hlow|Hge].
  - rewrite wall_of_fromutc.
    unfold LO, HI, DAY, HOUR, MINUTE, SECOND in *. split; intros; lia.
  - destruct (Z_lt_le_dec u (k * DAY + 9 * HOUR)) as [Hin|Hhigh].
    + rewrite (wall_of_fromutc_quiet k u (conj Hge Hin)). split; intros; lia.
    + rewrite wall_of_fromutc.
      unfold LO, HI, DAY, HOUR, MINUTE, SECOND in *. split; intros; lia.
Qed.

Lemma localized_le_iff k w u :
  k * DAY - HOUR <= w < k * DAY + HOUR ->
  (instant (localized DISPLAY_TIMEZONE w) <= u
   <-> w <= wall_of (fromutc DISPLAY_TIMEZONE u)).
Proof.
  intros Hw. rewrite (localized_near_midnight k w Hw).
  pose proof (offset_at_midnight_bounds k) as Hk.
  pose proof (zone_info_bounds DISPLAY_TIMEZONE u display_offsets_ok) as Hu.
  destruct (Z_lt_le_dec u (k * DAY)) as [Hlow|Hge].
  - rewrite wall_of_fromutc.
    unfold LO, HI, DAY, HOUR, MINUTE, SECOND in *. split; intros; lia.
  - destruct (Z_lt_le_dec u (k * DAY + 9 * HOUR)) as [Hin|Hhigh].
    + rewrite (wall_of_fromutc_quiet k u (conj Hge Hin)). split; intros; lia.
    + rewrite wall_of_fromutc.
      unfold LO, HI, DAY, HOUR, MINUTE, SECOND in *. split; intros; lia.
Qed.

(** The local date of an instant, as every route reads it. *)
Definition local_date (u : Z) : Z := date_of (fromutc DISPLAY_TIMEZONE u).

Lemma local_date_ge_iff k u :
  k <= local_date u <-> k * DAY <= wall_of (fromutc DISPLAY_TIMEZONE u).
Proof.
  unfold local_date, date_of.
  pose proof (Z.div_mod (wall_of (fromutc DISPLAY_TIMEZONE u)) DAY
                ltac:(unfold DAY, HOUR, MINUTE, SECOND; lia)) as Hdm.
  pose proof (Z.mod_pos_bound (wall_of (fromutc DISPLAY_TIMEZONE u)) DAY
                ltac:(unfold DAY, HOUR, MINUTE, SECOND; lia)) as Hr.
  set (q := wall_of (fromutc DISPLAY_TIMEZONE u) / DAY) in *.
  set (r := wall_of (fromutc DISPLAY_TIMEZONE u) mod DAY) in *.
  unfold DAY, HOUR, MINUTE, SECOND in *. split; intros; lia.
Qed.

Lemma local_date_le_iff k u :
  local_date u <= k <-> wall_of (fromutc DISPLAY_TIMEZONE u) < (k + 1) * DAY.
Proof.
  pose proof (local_date_ge_iff (k + 1) u) as H. split; intros; lia.
Qed.

(** ** The receipt of a day: [get_tracking_details] *)

Inductive receipt_response :=
| NotFound (message : string)                                  (* success false, 404 *)
| Receipt (receipt_date : Z)
          (trackings_for_day : list (pystr * datetime))
          (total_packages : Z).                                (* success true *)

Definition msg_record_not_found : string := "Tracking record not found.".
Definition msg_no_records : string := "No tracking records found for this date.".

(** [datetime.min.time()] and [datetime.max.time()] as offsets in the day. *)
Definition min_time : Z := 0.
Definition max_time : Z := DAY - 1.

(** [datetime.combine(d, t)] *)
Definition combine (d t : Z) : Z := d * DAY + t.

(** [Tracking.query.filter_by(id=tracking_id, user_id=current_user.id).first()] *)
Definition selected_tracking (current_user tracking_id : Z) (db : store) : option row :=
  find (fun r => (row_id r =? tracking_id) && (row_user_id r =? current_user)) db.

Module AppReceipt.

(** [app.py], lines 434-440 *)
Definition day_bounds (selected : Tracking) : option (Z * (datetime * datetime)) :=
  let receipt_date_obj_display_tz :=
    date_of (astimezone DISPLAY_TIMEZONE (timestamp selected)) in
  let start_of_day_display_tz := combine receipt_date_obj_display_tz min_time in
  let end_of_day_display_tz := combine receipt_date_obj_display_tz max_time in
  match localize DISPLAY_TIMEZONE start_of_day_display_tz,
        localize DISPLAY_TIMEZONE (end_of_day_display_tz + timedelta 1 (-1) 0) with
  | Some s, Some e =>
      Some (receipt_date_obj_display_tz, (astimezone_utc s, astimezone_utc e))
  | _, _ => None
  end.

(** [app.py], [get_tracking_details] *)
Definition get_tracking_details (current_user tracking_id : Z) (db : store)
    : option receipt_response :=
  match selected_tracking current_user tracking_id db with
  | None => Some (NotFound msg_record_not_found)
  | Some sel =>
      match day_bounds (load App.process_result_value sel) with
      | None => None
      | Some (receipt_date, bounds) =>
          let same_day_trackings :=
            query_range App.process_result_value current_user bounds db in
          match same_day_trackings with
          | [] => Some (NotFound msg_no_records)
          | _ =>
              Some (Receipt receipt_date
                      (map (fun track =>
                              (tracking_number track,
                               astimezone DISPLAY_TIMEZONE (timestamp track)))
                           same_day_trackings)
                      (Z.of_nat (List.length same_day_trackings)))
          end
      end
  end.

End AppReceipt.

Module App2Receipt.

(** [app2.py], lines 365-374 *)
Definition day_bounds (selected : Tracking) : option (Z * (datetime * datetime)) :=
  let receipt_date_obj_display_tz := date_of (timestamp selected) in
  let start_of_day_display_tz := combine receipt_date_obj_display_tz min_time in
  let end_of_day_display_tz := combine receipt_date_obj_display_tz max_time in
  match localize DISPLAY_TIMEZONE start_of_day_display_tz,
        localize DISPLAY_TIMEZONE end_of_day_display_tz with
  | Some s, Some e =>
      Some (receipt_date_obj_display_tz,
            (astimezone_utc s, add_delta (astimezone_utc e) (timedelta 0 0 999999)))
  | _, _ => None
  end.

(** [app2.py], [get_tracking_details] *)
Definition get_tracking_details (current_user tracking_id : Z) (db : store)
    : option receipt_response :=
  match selected_tracking current_user tracking_id db with
  | None => Some (NotFound msg_record_not_found)
  | Some sel =>
      match day_bounds (load App2.process_result_value sel) with
      | None => None
      | Some (receipt_date, bounds) =>
          let same_day_trackings :=
            query_range App2.process_result_value current_user bounds db in
          match same_day_trackings with
          | [] => Some (NotFound msg_no_records)
          | _ =>
              Some (Receipt receipt_date
                      (map (fun track => (tracking_number track, timestamp track))
                           same_day_trackings)
                      (Z.of_nat (List.length same_day_trackings)))
          end
      end
  end.

End App2Receipt.

(** ** The admin search of [app.py]: [admin_dropoffs] *)

(** Lines 657-671: each bound is added only when its field is filled in;
    the end of the range is 23:59:59.999999 of the end date.  The start is
    read, localized and converted before the end is looked at, so an
    exception of the start hides what the end would raise.  The result is
    the pair of bounds or the exception that leaves the [try] body. *)
Definition admin_date_filters (start_date_str end_date_str : option pystr)
    : result (option datetime * option datetime) :=
  start_date_utc <-
    match start_date_str with
    | None | Some [] => Ok None
    | Some s =>
        match strptime s with
        | None => Raise ValueError
        | Some sd =>
            start_date_display_tz <- localize_py DISPLAY_TIMEZONE (midnight sd) ;;
            u <- astimezone_utc_py start_date_display_tz ;;
            Ok (Some u)
        end
    end ;;
  end_date_utc <-
    match end_date_str with
    | None | Some [] => Ok None
    | Some e =>
        match strptime e with
        | None => Raise ValueError
        | Some ed =>
            end_date_display_tz <-
              localize_py DISPLAY_TIMEZONE
                (midnight ed + timedelta 0 (23 * 3600 + 59 * 60 + 59) 999999) ;;
            u <- astimezone_utc_py end_date_display_tz ;;
            Ok (Some u)
        end
    end ;;
  Ok (start_date_utc, end_date_utc).

Definition passes_lower (lo : option datetime) (r : row) : bool :=
  match lo with Some d => instant d <=? row_timestamp r | None => true end.

Definition passes_upper (hi : option datetime) (r : row) : bool :=
  match hi with Some d => row_timestamp r <=? instant d | None => true end.

Section AdminDropoffs.
(** The join with [User] and the optional phone-number search, as a
    predicate on rows: what SQL's [ILIKE] matches is left to the database. *)
Variable user_matches : row -> bool.

(** The listing and whether the invalid-date message was flashed.  Only
    [ValueError] is caught: an [OverflowError] leaves the route. *)
Definition admin_dropoffs (start_date_str end_date_str : option pystr) (db : store)
    : result (list Tracking * bool) :=
  let listing (f : row -> bool) :=
    map (load App.process_result_value)
        (sorted_desc row_timestamp (filter (fun r => user_matches r && f r) db)) in
  match admin_date_filters start_date_str end_date_str with
  | Ok (lo, hi) => Ok (listing (fun r => passes_lower lo r && passes_upper hi r), false)
  | Raise ValueError => Ok (listing (fun _ => true), true)
  | Raise OverflowError => Raise OverflowError
  | NoAnswer => NoAnswer
  end.
End AdminDropoffs.

(** ** [add_tracking] of [app.py] *)

Module AppAdd.

(** The number is stored as submitted. *)
Definition add_tracking (current_user now : Z) (db : store)
    (tracking_number : option pystr) : store * flash :=
  match tracking_number with
  | None | Some [] => (db, flash_required)
  | Some n =>
      if existsb (fun r => (row_user_id r =? current_user)
                           && pystr_eqb (row_tracking_number r) n) db
      then (db, flash_exists n)
      else (db ++ [mk_row (next_id db) current_user n now], flash_added n)
  end.

End AppAdd.

(** ** Range filters in wall-clock terms *)

(** The wall-clock time the display zone shows for an instant. *)
Definition local_wall (u : Z) : Z := wall_of (fromutc DISPLAY_TIMEZONE u).

(** A row of [user] whose local wall-clock time lies between [w1] and
    [w2], both included. *)
Definition in_window (user w1 w2 : Z) (r : row) : bool :=
  (row_user_id r =? user)
  && (w1 <=? local_wall (row_timestamp r))
  && (local_wall (row_timestamp r) <=? w2).

(** What the JSON routes show of a row. *)
Definition shown (r : row) : pystr * datetime :=
  (row_tracking_number r, fromutc DISPLAY_TIMEZONE (row_timestamp r)).

Definition near_midnight (k w : Z) : Prop := k * DAY - HOUR <= w < k * DAY + HOUR.

Lemma leb_iff_eq a b c d : (a <= b <-> c <= d) -> (a <=? b) = (c <=? d).
Proof.
  intros H. destruct (c <=? d) eqn:E.
  - apply Z.leb_le. apply H. apply Z.leb_le. exact E.
  - apply Z.leb_gt. apply Z.leb_gt in E. lia.
Qed.

Lemma in_filter_window k1 k2 w1 w2 user r :
  near_midnight k1 w1 -> near_midnight k2 w2 ->
  in_filter user (astimezone_utc (localized DISPLAY_TIMEZONE w1),
                  astimezone_utc (localized DISPLAY_TIMEZONE w2)) r
  = in_window user w1 w2 r.
Proof.
  intros H1 H2. unfold in_filter, in_window, local_wall. cbn [fst snd].
  rewrite !instant_astimezone_utc.
  rewrite (leb_iff_eq _ _ _ _ (localized_le_iff k1 w1 (row_timestamp r) H1)).
  rewrite (leb_iff_eq _ _ _ _ (le_localized_iff k2 w2 (row_timestamp r) H2)).
  reflexivity.
Qed.

Lemma in_filter_window_delta k1 k2 w1 w2 d user r :
  near_midnight k1 w1 -> near_midnight k2 w2 -> near_midnight k2 (w2 + d) ->
  in_filter user (astimezone_utc (localized DISPLAY_TIMEZONE w1),
                  add_delta (astimezone_utc (localized DISPLAY_TIMEZONE w2)) d) r
  = in_window user w1 (w2 + d) r.
Proof.
  intros H1 H2 H3. rewrite <- (in_filter_window k1 k2 w1 (w2 + d) user r H1 H3).
  unfold in_filter. cbn [fst snd].
  rewrite !instant_astimezone_utc, instant_add_delta_utc.
  rewrite (localized_near_midnight k2 (w2 + d) H3), (localized_near_midnight k2 w2 H2).
  replace (w2 + d - offset_at_midnight k2) with (w2 - offset_at_midnight k2 + d) by lia.
  reflexivity.
Qed.

Lemma load_app r :
  load App.process_result_value r
  = mk_Tracking (row_id r) (row_user_id r) (row_tracking_number r)
                (Aware (row_timestamp r) timezone_utc).
Proof. reflexivity. Qed.

Lemma load_app2 r :
  load App2.process_result_value r
  = mk_Tracking (row_id r) (row_user_id r) (row_tracking_number r)
                (fromutc DISPLAY_TIMEZONE (row_timestamp r)).
Proof.
  unfold load, App2.process_result_value, astimezone.
  cbn [tzinfo_of replace_tzinfo_utc wall_of instant utcoffset].
  rewrite Z.sub_0_r. reflexivity.
Qed.

Lemma shown_app rows :
  map (fun track => (tracking_number track, astimezone DISPLAY_TIMEZONE (timestamp track)))
      (map (load App.process_result_value) rows)
  = map shown rows.
Proof.
  rewrite map_map. apply map_ext. intros r. rewrite load_app.
  unfold shown, astimezone. cbn [tracking_number timestamp instant utcoffset].
  rewrite Z.sub_0_r. reflexivity.
Qed.

Lemma shown_app2 rows :
  map (fun track => (tracking_number track, timestamp track))
      (map (load App2.process_result_value) rows)
  = map shown rows.
Proof.
  rewrite map_map. apply map_ext. intros r. rewrite load_app2. reflexivity.
Qed.

Lemma query_range_window prv user bounds w1 w2 db :
  (forall r, in_filter user bounds r = in_window user w1 w2 r) ->
  query_range prv user bounds db
  = map (load prv) (sorted_asc row_timestamp (filter (in_window user w1 w2) db)).
Proof.
  intros H. unfold query_range. rewrite (filter_ext _ _ H). reflexivity.
Qed.

Lemma near_midnight_0 k : near_midnight k (k * DAY).
Proof. unfold near_midnight, HOUR, MINUTE, SECOND. lia. Qed.

Lemma near_midnight_before k d :
  - HOUR <= d < HOUR -> near_midnight k (k * DAY + d).
Proof. unfold near_midnight. lia. Qed.

Lemma app_range_filter user sd ed r :
  in_filter user (astimezone_utc (local_midnight (toordinal sd)),
                  astimezone_utc (local_last_second (toordinal ed))) r
  = in_window user (midnight sd) (midnight ed + DAY - SECOND) r.
Proof.
  unfold local_midnight, local_last_second, midnight.
  replace (toordinal ed * DAY + timedelta 1 (-1) 0)
    with (toordinal ed * DAY + DAY - SECOND) by (unfold timedelta; lia).
  apply (in_filter_window (toordinal sd) (toordinal ed + 1)).
  - apply near_midnight_0.
  - unfold near_midnight, DAY, HOUR, MINUTE, SECOND. lia.
Qed.

(** X1.  The range of [app.py], exactly.  For two dates that parse, from
    0001-01-02 to 9999-12-30, the route answers with the user's records
    whose local wall-clock time runs from 00:00:00 of the start date to
    23:59:59.000000 of the end date, oldest first. *)
Theorem app_range_is_local_window (user : Z) (db : store) (s e : pystr) (sd ed : date) :
  strptime s = Some sd -> strptime e = Some ed ->
  away_from_bounds sd -> away_from_bounds ed ->
  AppRange.get_dropoffs_in_range user db (Some s) (Some e)
  = Some (Success
      (map shown
         (sorted_asc row_timestamp
            (filter (in_window user (midnight sd) (midnight ed + DAY - SECOND)) db)))).
Proof.
  intros Hs He Asd Aed. unfold AppRange.get_dropoffs_in_range.
  rewrite (strptime_not_absent s sd Hs), (strptime_not_absent e ed He). cbn [orb].
  rewrite (app_range_bounds s e sd ed Hs He Asd Aed).
  rewrite (query_range_window _ user _ (midnight sd) (midnight ed + DAY - SECOND) db)
    by apply app_range_filter.
  rewrite shown_app. reflexivity.
Qed.

Lemma app_range_is_local_window_witness :
  AppRange.get_dropoffs_in_range 7
    [mk_row 1 7 "794644790132" (utc 2024 3 11 6 59 59)] (Some "2024-03-10") (Some "2024-03-10")
  = Some (Success
      (map shown
         (sorted_asc row_timestamp
            (filter (in_window 7 (midnight (mk_date 2024 3 10))
                               (midnight (mk_date 2024 3 10) + DAY - SECOND))
                    [mk_row 1 7 "794644790132" (utc 2024 3 11 6 59 59)])))).
Proof.
  exact (app_range_is_local_window 7 _ "2024-03-10" "2024-03-10"
           (mk_date 2024 3 10) (mk_date 2024 3 10) eq_refl eq_refl
           (conj eq_refl eq_refl) (conj eq_refl eq_refl)).
Defined.

Lemma app2_range_filter user sd ed r :
  in_filter user (astimezone_utc (local_midnight (toordinal sd)),
                  add_delta (astimezone_utc (local_midnight (toordinal ed)))
                            (timedelta 0 0 999999)) r
  = in_window user (midnight sd) (midnight ed + 999999) r.
Proof.
  unfold local_midnight, midnight, timedelta.
  replace (0 * DAY + 0 * SECOND + 999999) with 999999 by lia.
  apply (in_filter_window_delta (toordinal sd) (toordinal ed)).
  - apply near_midnight_0.
  - apply near_midnight_0.
  - unfold near_midnight, DAY, HOUR, MINUTE, SECOND. lia.
Qed.

(** X2.  The range of [app2.py], exactly.  The upper bound is the first
    second of the end date: for two dates that parse, from 0001-01-02 to
    9999-12-30, the route answers with the user's records from 00:00:00 of
    the start date to 00:00:00.999999 of the end date. *)
Theorem app2_range_is_local_window (user : Z) (db : store) (s e : pystr) (sd ed : date) :
  strptime s = Some sd -> strptime e = Some ed ->
  away_from_bounds sd -> away_from_bounds ed ->
  App2Range.get_dropoffs_in_range user db (Some s) (Some e)
  = Some (Success
      (map shown
         (sorted_asc row_timestamp
            (filter (in_window user (midnight sd) (midnight ed + 999999)) db)))).
Proof.
  intros Hs He Asd Aed. unfold App2Range.get_dropoffs_in_range.
  rewrite (strptime_not_absent s sd Hs), (strptime_not_absent e ed He). cbn [orb].
  rewrite (app2_range_bounds s e sd ed Hs He Asd Aed).
  rewrite (query_range_window _ user _ (midnight sd) (midnight ed + 999999) db)
    by apply app2_range_filter.
  rewrite shown_app2. reflexivity.
Qed.

Lemma app2_range_is_local_window_witness :
  App2Range.get_dropoffs_in_range 7
    [mk_row 1 7 "794644790132" (utc 2024 3 10 8 0 1)] (Some "2024-03-10") (Some "2024-03-10")
  = Some (Success
      (map shown
         (sorted_asc row_timestamp
            (filter (in_window 7 (midnight (mk_date 2024 3 10))
                               (midnight (mk_date 2024 3 10) + 999999))
                    [mk_row 1 7 "794644790132" (utc 2024 3 10 8 0 1)])))).
Proof.
  exact (app2_range_is_local_window 7 _ "2024-03-10" "2024-03-10"
           (mk_date 2024 3 10) (mk_date 2024 3 10) eq_refl eq_refl
           (conj eq_refl eq_refl) (conj eq_refl eq_refl)).
Defined.

Lemma in_window_dates user w1 w2 k1 k2 r :
  k1 * DAY <= w1 -> w2 < (k2 + 1) * DAY ->
  in_window user w1 w2 r = true ->
  row_user_id r = user /\ k1 <= local_date (row_timestamp r) <= k2.
Proof.
  intros H1 H2 Hin. unfold in_window in Hin.
  apply andb_true_iff in Hin. destruct Hin as [Hin Hhi].
  apply andb_true_iff in Hin. destruct Hin as [Hu Hlo].
  apply Z.eqb_eq in Hu. apply Z.leb_le in Hlo. apply Z.leb_le in Hhi.
  split; [exact Hu|]. unfold local_wall in *. split.
  - apply local_date_ge_iff. lia.
  - apply local_date_le_iff. lia.
Qed.

Lemma in_sorted_filter (f : row -> bool) db r :
  In r (sorted_asc row_timestamp (filter f db)) <-> In r db /\ f r = true.
Proof.
  rewrite <- filter_In. split; apply Permutation_in;
    [apply sorted_asc_perm | symmetry; apply sorted_asc_perm].
Qed.

(** X3.  For two dates that parse, from 0001-01-02 to 9999-12-30, both
    range routes answer with a list, and never with a record of another
    user or with one whose local date lies outside the two dates asked
    for. *)
Theorem range_results_within_dates (user : Z) (db : store) (s e : pystr) (sd ed : date)
    (x : pystr * datetime) :
  strptime s = Some sd -> strptime e = Some ed ->
  away_from_bounds sd -> away_from_bounds ed ->
  (exists l, AppRange.get_dropoffs_in_range user db (Some s) (Some e) = Some (Success l)
             /\ (In x l ->
                 exists r, In r db /\ x = shown r /\ row_user_id r = user
                           /\ toordinal sd <= local_date (row_timestamp r) <= toordinal ed))
  /\ (exists l, App2Range.get_dropoffs_in_range user db (Some s) (Some e) = Some (Success l)
                /\ (In x l ->
                    exists r, In r db /\ x = shown r /\ row_user_id r = user
                              /\ toordinal sd <= local_date (row_timestamp r) <= toordinal ed)).
Proof.
  intros Hs He Asd Aed.
  unfold AppRange.get_dropoffs_in_range, App2Range.get_dropoffs_in_range.
  rewrite (strptime_not_absent s sd Hs), (strptime_not_absent e ed He). cbn [orb].
  rewrite (app_range_bounds s e sd ed Hs He Asd Aed),
          (app2_range_bounds s e sd ed Hs He Asd Aed).
  rewrite (query_range_window _ user _ (midnight sd) (midnight ed + DAY - SECOND) db)
    by apply app_range_filter.
  rewrite (query_range_window _ user _ (midnight sd) (midnight ed + 999999) db)
    by apply app2_range_filter.
  rewrite shown_app, shown_app2.
  split; eexists.
  - split; [reflexivity|].
    intros Hx. apply in_map_iff in Hx. destruct Hx as [r [<- Hr]].
    apply in_sorted_filter in Hr. destruct Hr as [Hdb Hw].
    exists r. split; [exact Hdb|]. split; [reflexivity|].
    apply (in_window_dates user (midnight sd) (midnight ed + DAY - SECOND)); [| |exact Hw];
      unfold midnight, DAY, HOUR, MINUTE, SECOND; lia.
  - split; [reflexivity|].
    intros Hx. apply in_map_iff in Hx. destruct Hx as [r [<- Hr]].
    apply in_sorted_filter in Hr. destruct Hr as [Hdb Hw].
    exists r. split; [exact Hdb|]. split; [reflexivity|].
    apply (in_window_dates user (midnight sd) (midnight ed + 999999)); [| |exact Hw];
      unfold midnight, DAY, HOUR, MINUTE, SECOND; lia.
Qed.

Lemma range_results_within_dates_witness :
  exists l, AppRange.get_dropoffs_in_range 7
              [mk_row 1 7 "794644790132" (utc 2024 3 10 20 0 0);
               mk_row 2 8 "794644790143" (utc 2024 3 10 21 0 0)]
              (Some "2024-03-10") (Some "2024-03-10") = Some (Success l)
            /\ (In (shown (mk_row 1 7 "794644790132" (utc 2024 3 10 20 0 0))) l ->
                exists r, In r [mk_row 1 7 "794644790132" (utc 2024 3 10 20 0 0);
                                mk_row 2 8 "794644790143" (utc 2024 3 10 21 0 0)]
                          /\ shown (mk_row 1 7 "794644790132" (utc 2024 3 10 20 0 0)) = shown r
                          /\ row_user_id r = 7
                          /\ toordinal (mk_date 2024 3 10) <= local_date (row_timestamp r)
                             <= toordinal (mk_date 2024 3 10)).
Proof.
  exact (proj1 (range_results_within_dates 7 _ "2024-03-10" "2024-03-10"
           (mk_date 2024 3 10) (mk_date 2024 3 10) _ eq_refl eq_refl
           (conj eq_refl eq_refl) (conj eq_refl eq_refl))).
Defined.

(** ** Properties of the receipt *)

Lemma selected_tracking_some user tid db sel :
  selected_tracking user tid db = Some sel ->
  In sel db /\ row_id sel = tid /\ row_user_id sel = user.
Proof.
  intros H. apply find_some in H. destruct H as [Hin Hm].
  apply andb_true_iff in Hm. destruct Hm as [H1 H2].
  apply Z.eqb_eq in H1. apply Z.eqb_eq in H2. tauto.
Qed.

Lemma selected_in_window user w1 w2 sel :
  row_user_id sel = user ->
  w1 <= local_date (row_timestamp sel) * DAY ->
  (local_date (row_timestamp sel) + 1) * DAY - 1 <= w2 ->
  in_window user w1 w2 sel = true.
Proof.
  intros Hu H1 H2. unfold in_window.
  pose proof (proj1 (local_date_ge_iff (local_date (row_timestamp sel)) (row_timestamp sel))
                ltac:(lia)) as Hge.
  pose proof (proj1 (local_date_le_iff (local_date (row_timestamp sel)) (row_timestamp sel))
                ltac:(lia)) as Hlt.
  unfold local_wall.
  apply andb_true_iff. split; [apply andb_true_iff; split|].
  - apply Z.eqb_eq. exact Hu.
  - apply Z.leb_le. lia.
  - apply Z.leb_le. lia.
Qed.

Lemma app_day_bounds sel :
  AppReceipt.day_bounds (load App.process_result_value sel)
  = Some (local_date (row_timestamp sel),
          (astimezone_utc (localized DISPLAY_TIMEZONE (local_date (row_timestamp sel) * DAY)),
           astimezone_utc (localized DISPLAY_TIMEZONE
             ((local_date (row_timestamp sel) + 2) * DAY - SECOND - 1)))).
Proof.
  unfold AppReceipt.day_bounds. rewrite load_app. cbn [timestamp].
  unfold astimezone. cbn [instant utcoffset]. rewrite Z.sub_0_r.
  fold (local_date (row_timestamp sel)). set (d := local_date (row_timestamp sel)).
  unfold combine, min_time, max_time, timedelta.
  replace (d * DAY + 0) with (d * DAY) by lia.
  replace (d * DAY + (DAY - 1) + (1 * DAY + -1 * SECOND + 0))
    with ((d + 2) * DAY - SECOND - 1) by lia.
  rewrite (localize_around_midnight d) by apply near_midnight_0.
  rewrite (localize_around_midnight (d + 2))
    by (unfold DAY, HOUR, MINUTE, SECOND; lia).
  reflexivity.
Qed.

Lemma app2_day_bounds sel :
  App2Receipt.day_bounds (load App2.process_result_value sel)
  = Some (local_date (row_timestamp sel),
          (astimezone_utc (localized DISPLAY_TIMEZONE (local_date (row_timestamp sel) * DAY)),
           add_delta (astimezone_utc (localized DISPLAY_TIMEZONE
                        ((local_date (row_timestamp sel) + 1) * DAY - 1)))
                     999999)).
Proof.
  unfold App2Receipt.day_bounds. rewrite load_app2. cbn [timestamp].
  fold (local_date (row_timestamp sel)). set (d := local_date (row_timestamp sel)).
  unfold combine, min_time, max_time, timedelta.
  replace (d * DAY + 0) with (d * DAY) by lia.
  replace (d * DAY + (DAY - 1)) with ((d + 1) * DAY - 1) by lia.
  replace (0 * DAY + 0 * SECOND + 999999) with 999999 by lia.
  rewrite (localize_around_midnight d) by apply near_midnight_0.
  rewrite (localize_around_midnight (d + 1))
    by (unfold DAY, HOUR, MINUTE, SECOND; lia).
  reflexivity.
Qed.

Lemma receipt_of_window (prv : option datetime -> option datetime)
    (g : Tracking -> pystr * datetime) user w1 w2 db sel bounds d :
  (forall rows, map g (map (load prv) rows) = map shown rows) ->
  (forall r, in_filter user bounds r = in_window user w1 w2 r) ->
  In sel db -> in_window user w1 w2 sel = true ->
  exists items,
    match query_range prv user bounds db with
    | [] => Some (NotFound msg_no_records)
    | _ :: _ =>
        Some (Receipt d (map g (query_range prv user bounds db))
                (Z.of_nat (List.length (query_range prv user bounds db))))
    end = Some (Receipt d items (Z.of_nat (List.length items)))
    /\ items = map shown (sorted_asc row_timestamp (filter (in_window user w1 w2) db))
    /\ In (shown sel) items.
Proof.
  intros Hshown Hfilter Hin Hw.
  rewrite (query_range_window prv user bounds w1 w2 db Hfilter).
  set (rows := sorted_asc row_timestamp (filter (in_window user w1 w2) db)).
  assert (Hsel : In sel rows) by (apply in_sorted_filter; tauto).
  exists (map shown rows). rewrite Hshown, !length_map.
  destruct rows as [|a rows']; [destruct Hsel|].
  split; [reflexivity|]. split; [reflexivity|].
  apply in_map. exact Hsel.
Qed.

Lemma app_same_day_in_window user sel r :
  row_user_id r = user ->
  local_date (row_timestamp r) = local_date (row_timestamp sel) ->
  in_window user (local_date (row_timestamp sel) * DAY)
            ((local_date (row_timestamp sel) + 2) * DAY - SECOND - 1) r = true.
Proof.
  intros Hr Hdate. apply selected_in_window; [exact Hr | |];
    rewrite Hdate; unfold DAY, HOUR, MINUTE, SECOND; lia.
Qed.

Lemma app_receipt_answer (user tracking_id : Z) (db : store) (sel : row) :
  selected_tracking user tracking_id db = Some sel ->
  let d := local_date (row_timestamp sel) in
  exists items,
    AppReceipt.get_tracking_details user tracking_id db
      = Some (Receipt d items (Z.of_nat (List.length items)))
    /\ items = map shown (sorted_asc row_timestamp
                 (filter (in_window user (d * DAY) ((d + 2) * DAY - SECOND - 1)) db))
    /\ In (shown sel) items.
Proof.
  intros Hsel d. destruct (selected_tracking_some _ _ _ _ Hsel) as [Hin [_ Hu]].
  unfold AppReceipt.get_tracking_details. rewrite Hsel, app_day_bounds. fold d.
  apply (receipt_of_window App.process_result_value
           (fun track => (tracking_number track,
                             astimezone DISPLAY_TIMEZONE (timestamp track)))
           user (d * DAY) ((d + 2) * DAY - SECOND - 1) db sel
           (astimezone_utc (localized DISPLAY_TIMEZONE (d * DAY)),
               astimezone_utc (localized DISPLAY_TIMEZONE ((d + 2) * DAY - SECOND - 1))) d).
  - exact shown_app.
  - intros r. apply (in_filter_window d (d + 2)); [apply near_midnight_0|].
    unfold near_midnight, DAY, HOUR, MINUTE, SECOND. lia.
  - exact Hin.
  - apply (app_same_day_in_window user sel sel Hu eq_refl).
Qed.

(** X4.  The receipt of [app.py].  When the record asked for is the user's,
    the answer is a receipt dated with that record's local date, never the
    no-records failure.  It lists the user's records from 00:00:00 of that
    date to 23:59:58.999999 of the date after it, oldest first: the record
    itself and every record of the user with the same local date are on
    it. *)
Theorem app_receipt_covers_the_day (user tracking_id : Z) (db : store) (sel : row) :
  selected_tracking user tracking_id db = Some sel ->
  let d := local_date (row_timestamp sel) in
  exists items,
    AppReceipt.get_tracking_details user tracking_id db
      = Some (Receipt d items (Z.of_nat (List.length items)))
    /\ items = map shown (sorted_asc row_timestamp
                 (filter (in_window user (d * DAY) ((d + 2) * DAY - SECOND - 1)) db))
    /\ In (shown sel) items
    /\ (forall r, In r db -> row_user_id r = user ->
                  local_date (row_timestamp r) = d -> In (shown r) items).
Proof.
  intros Hsel d.
  destruct (app_receipt_answer user tracking_id db sel Hsel) as [items [Hget [Hitems Hself]]].
  exists items. split; [exact Hget|]. split; [exact Hitems|]. split; [exact Hself|].
  intros r Hr Hur Hdate. rewrite Hitems. apply in_map.
  apply in_sorted_filter. split; [exact Hr|].
  apply (app_same_day_in_window user sel r Hur Hdate).
Qed.

Lemma app_receipt_covers_the_day_witness :
  exists items,
    AppReceipt.get_tracking_details 7 1 [mk_row 1 7 "794644790132" (utc 2024 3 10 20 0 0)]
      = Some (Receipt (local_date (utc 2024 3 10 20 0 0)) items (Z.of_nat (List.length items)))
    /\ items = map shown (sorted_asc row_timestamp
                 (filter (in_window 7 (local_date (utc 2024 3 10 20 0 0) * DAY)
                            ((local_date (utc 2024 3 10 20 0 0) + 2) * DAY - SECOND - 1))
                         [mk_row 1 7 "794644790132" (utc 2024 3 10 20 0 0)]))
    /\ In (shown (mk_row 1 7 "794644790132" (utc 2024 3 10 20 0 0))) items
    /\ (forall r, In r [mk_row 1 7 "794644790132" (utc 2024 3 10 20 0 0)] ->
                  row_user_id r = 7 ->
                  local_date (row_timestamp r) = local_date (utc 2024 3 10 20 0 0) ->
                  In (shown r) items).
Proof.
  exact (app_receipt_covers_the_day 7 1 [mk_row 1 7 "794644790132" (utc 2024 3 10 20 0 0)]
           (mk_row 1 7 "794644790132" (utc 2024 3 10 20 0 0)) eq_refl).
Defined.

Lemma app2_same_day_in_window user sel r :
  row_user_id r = user ->
  local_date (row_timestamp r) = local_date (row_timestamp sel) ->
  in_window user (local_date (row_timestamp sel) * DAY)
            ((local_date (row_timestamp sel) + 1) * DAY + 999998) r = true.
Proof.
  intros Hr Hdate. apply selected_in_window; [exact Hr | |];
    rewrite Hdate; unfold DAY, HOUR, MINUTE, SECOND; lia.
Qed.

Lemma app2_receipt_answer (user tracking_id : Z) (db : store) (sel : row) :
  selected_tracking user tracking_id db = Some sel ->
  let d := local_date (row_timestamp sel) in
  exists items,
    App2Receipt.get_tracking_details user tracking_id db
      = Some (Receipt d items (Z.of_nat (List.length items)))
    /\ items = map shown (sorted_asc row_timestamp
                 (filter (in_window user (d * DAY) ((d + 1) * DAY + 999998)) db))
    /\ In (shown sel) items.
Proof.
  intros Hsel d. destruct (selected_tracking_some _ _ _ _ Hsel) as [Hin [_ Hu]].
  unfold App2Receipt.get_tracking_details. rewrite Hsel, app2_day_bounds. fold d.
  apply (receipt_of_window App2.process_result_value
           (fun track => (tracking_number track, timestamp track))
           user (d * DAY) ((d + 1) * DAY + 999998) db sel
           (astimezone_utc (localized DISPLAY_TIMEZONE (d * DAY)),
               add_delta (astimezone_utc (localized DISPLAY_TIMEZONE ((d + 1) * DAY - 1)))
                         999999) d).
  - exact shown_app2.
  - intros r.
    replace ((d + 1) * DAY + 999998) with ((d + 1) * DAY - 1 + 999999) by lia.
    apply (in_filter_window_delta d (d + 1)); [apply near_midnight_0 | |];
      unfold near_midnight, DAY, HOUR, MINUTE, SECOND; lia.
  - exact Hin.
  - apply (app2_same_day_in_window user sel sel Hu eq_refl).
Qed.

(** X5.  The receipt of [app2.py].  When the record asked for is the user's,
    the answer is a receipt dated with that record's local date, never the
    no-records failure.  It lists the user's records from 00:00:00 of that
    date to 00:00:00.999998 of the date after it, oldest first: the record
    itself and every record of the user with the same local date are on
    it. *)
Theorem app2_receipt_covers_the_day (user tracking_id : Z) (db : store) (sel : row) :
  selected_tracking user tracking_id db = Some sel ->
  let d := local_date (row_timestamp sel) in
  exists items,
    App2Receipt.get_tracking_details user tracking_id db
      = Some (Receipt d items (Z.of_nat (List.length items)))
    /\ items = map shown (sorted_asc row_timestamp
                 (filter (in_window user (d * DAY) ((d + 1) * DAY + 999998)) db))
    /\ In (shown sel) items
    /\ (forall r, In r db -> row_user_id r = user ->
                  local_date (row_timestamp r) = d -> In (shown r) items).
Proof.
  intros Hsel d.
  destruct (app2_receipt_answer user tracking_id db sel Hsel) as [items [Hget [Hitems Hself]]].
  exists items. split; [exact Hget|]. split; [exact Hitems|]. split; [exact Hself|].
  intros r Hr Hur Hdate. rewrite Hitems. apply in_map.
  apply in_sorted_filter. split; [exact Hr|].
  apply (app2_same_day_in_window user sel r Hur Hdate).
Qed.

Lemma app2_receipt_covers_the_day_witness :
  exists items,
    App2Receipt.get_tracking_details 7 1 [mk_row 1 7 "794644790132" (utc 2024 3 10 20 0 0)]
      = Some (Receipt (local_date (utc 2024 3 10 20 0 0)) items (Z.of_nat (List.length items)))
    /\ items = map shown (sorted_asc row_timestamp
                 (filter (in_window 7 (local_date (utc 2024 3 10 20 0 0) * DAY)
                            ((local_date (utc 2024 3 10 20 0 0) + 1) * DAY + 999998))
                         [mk_row 1 7 "794644790132" (utc 2024 3 10 20 0 0)]))
    /\ In (shown (mk_row 1 7 "794644790132" (utc 2024 3 10 20 0 0))) items
    /\ (forall r, In r [mk_row 1 7 "794644790132" (utc 2024 3 10 20 0 0)] ->
                  row_user_id r = 7 ->
                  local_date (row_timestamp r) = local_date (utc 2024 3 10 20 0 0) ->
                  In (shown r) items).
Proof.
  exact (app2_receipt_covers_the_day 7 1 [mk_row 1 7 "794644790132" (utc 2024 3 10 20 0 0)]
           (mk_row 1 7 "794644790132" (utc 2024 3 10 20 0 0)) eq_refl).
Defined.

(** X6.  A receipt is never given for a record that is not the user's own:
    when no record has the id and the user as owner, both routes answer
    with the not-found failure. *)
Theorem receipt_only_for_own_record (user tracking_id : Z) (db : store) :
  (forall r, In r db -> row_id r = tracking_id -> row_user_id r <> user) ->
  AppReceipt.get_tracking_details user tracking_id db = Some (NotFound msg_record_not_found)
  /\ App2Receipt.get_tracking_details user tracking_id db
     = Some (NotFound msg_record_not_found).
Proof.
  intros Hnone.
  assert (Hsel : selected_tracking user tracking_id db = None).
  { destruct (selected_tracking user tracking_id db) as [sel|] eqn:E; [|reflexivity].
    destruct (selected_tracking_some _ _ _ _ E) as [Hin [Hid Hu]].
    exfalso. exact (Hnone sel Hin Hid Hu). }
  unfold AppReceipt.get_tracking_details, App2Receipt.get_tracking_details.
  rewrite Hsel. split; reflexivity.
Qed.

Lemma receipt_only_for_own_record_witness :
  AppReceipt.get_tracking_details 7 1 [mk_row 1 8 "794644790132" (utc 2024 3 10 20 0 0)]
    = Some (NotFound msg_record_not_found)
  /\ App2Receipt.get_tracking_details 7 1 [mk_row 1 8 "794644790132" (utc 2024 3 10 20 0 0)]
     = Some (NotFound msg_record_not_found).
Proof.
  apply (receipt_only_for_own_record 7 1).
  intros r Hin Hid. simpl in Hin. destruct Hin as [<-|[]]. simpl. discriminate.
Defined.

(** ** Properties of the admin search *)

Lemma passes_lower_date sd r :
  passes_lower (Some (astimezone_utc (local_midnight (toordinal sd)))) r
  = (toordinal sd <=? local_date (row_timestamp r)).
Proof.
  unfold passes_lower, local_midnight. rewrite instant_astimezone_utc.
  apply leb_iff_eq.
  rewrite (localized_le_iff (toordinal sd) _ (row_timestamp r) (near_midnight_0 _)).
  symmetry. apply local_date_ge_iff.
Qed.

Lemma passes_upper_date ed r :
  passes_upper (Some (astimezone_utc
                  (localized DISPLAY_TIMEZONE ((toordinal ed + 1) * DAY - 1)))) r
  = (local_date (row_timestamp r) <=? toordinal ed).
Proof.
  unfold passes_upper. rewrite instant_astimezone_utc.
  apply leb_iff_eq.
  rewrite (le_localized_iff (toordinal ed + 1) _ (row_timestamp r))
    by (unfold DAY, HOUR, MINUTE, SECOND; lia).
  rewrite local_date_le_iff. lia.
Qed.

Definition local_end_of_day (k : Z) : datetime :=
  localized DISPLAY_TIMEZONE ((k + 1) * DAY - 1).

Lemma end_of_day_wall ed :
  midnight ed + timedelta 0 (23 * 3600 + 59 * 60 + 59) 999999 = (toordinal ed + 1) * DAY - 1.
Proof. unfold midnight, timedelta, DAY, HOUR, MINUTE, SECOND. lia. Qed.

Lemma localize_py_end_of_day ed :
  away_from_bounds ed ->
  localize_py DISPLAY_TIMEZONE
    (midnight ed + timedelta 0 (23 * 3600 + 59 * 60 + 59) 999999)
  = Ok (local_end_of_day (toordinal ed)).
Proof.
  intros Hd. rewrite end_of_day_wall. apply localize_py_fuel_clear;
    [exact display_offsets_ok | exact display_spaced_ok | | |].
  - apply (clear_around_midnight (toordinal ed + 1)).
    unfold DAY, HOUR, MINUTE, SECOND. lia.
  - calendar.
  - calendar.
Qed.

Lemma astimezone_utc_py_end_of_day ed :
  away_from_bounds ed ->
  astimezone_utc_py (local_end_of_day (toordinal ed))
  = Ok (astimezone_utc (local_end_of_day (toordinal ed))).
Proof.
  intros Hd. apply astimezone_utc_py_localized; [exact display_offsets_ok | |]; calendar.
Qed.

Lemma localize_py_end_of_day_overflow ed :
  at_bounds ed ->
  localize_py DISPLAY_TIMEZONE
    (midnight ed + timedelta 0 (23 * 3600 + 59 * 60 + 59) 999999)
  = Raise OverflowError.
Proof. intros Hd. rewrite end_of_day_wall. apply localize_py_fuel_overflow. calendar. Qed.

Lemma admin_start_bound s sd :
  strptime s = Some sd -> away_from_bounds sd ->
  forall e,
    admin_date_filters (Some s) e
    = bind (admin_date_filters None e)
           (fun p => Ok (Some (astimezone_utc (local_midnight (toordinal sd))), snd p)).
Proof.
  intros Hs Asd e. unfold admin_date_filters.
  destruct s as [|c s']; [discriminate|].
  rewrite Hs, (localize_py_midnight sd Asd). cbn [bind].
  rewrite (astimezone_utc_py_midnight sd Asd). cbn [bind].
  destruct e as [[|c' e']|]; try reflexivity.
  destruct (strptime (c' :: e')); [|reflexivity].
  destruct (localize_py DISPLAY_TIMEZONE _); try reflexivity. cbn [bind].
  destruct (astimezone_utc_py a); reflexivity.
Qed.

Lemma admin_end_bound e ed :
  strptime e = Some ed -> away_from_bounds ed ->
  admin_date_filters None (Some e)
  = Ok (None, Some (astimezone_utc (local_end_of_day (toordinal ed)))).
Proof.
  intros He Aed. unfold admin_date_filters. cbn [bind].
  destruct e as [|c e']; [discriminate|].
  rewrite He, (localize_py_end_of_day ed Aed). cbn [bind].
  rewrite (astimezone_utc_py_end_of_day ed Aed). reflexivity.
Qed.

Lemma admin_no_bound b e :
  absent b = true -> absent e = true -> admin_date_filters b e = Ok (None, None).
Proof.
  intros Hb He. destruct b as [[|cb b']|]; try discriminate;
    destruct e as [[|ce e']|]; try discriminate; reflexivity.
Qed.

Lemma admin_absent_start b e :
  absent b = true -> admin_date_filters b e = admin_date_filters None e.
Proof. intros Hb. destruct b as [[|cb b']|]; try discriminate; reflexivity. Qed.

Lemma admin_absent_end b e :
  absent e = true -> admin_date_filters b e = admin_date_filters b None.
Proof. intros He. destruct e as [[|ce e']|]; try discriminate; reflexivity. Qed.

Lemma passes_upper_end_of_day ed r :
  passes_upper (Some (astimezone_utc (local_end_of_day (toordinal ed)))) r
  = (local_date (row_timestamp r) <=? toordinal ed).
Proof. apply passes_upper_date. Qed.

(** X7.  The date filter of the admin search is exact on whole local days:
    with two dates that parse, from 0001-01-02 to 9999-12-30, the listing
    holds the matching records whose local date lies between the two dates,
    both included, newest first, and no message is flashed. *)
Theorem admin_dropoffs_whole_days (user_matches : row -> bool) (db : store)
    (s e : pystr) (sd ed : date) :
  strptime s = Some sd -> strptime e = Some ed ->
  away_from_bounds sd -> away_from_bounds ed ->
  admin_dropoffs user_matches (Some s) (Some e) db
  = Ok (map (load App.process_result_value)
          (sorted_desc row_timestamp
             (filter (fun r => user_matches r
                               && ((toordinal sd <=? local_date (row_timestamp r))
                                   && (local_date (row_timestamp r) <=? toordinal ed)))
                     db)),
        false).
Proof.
  intros Hs He Asd Aed. unfold admin_dropoffs.
  rewrite (admin_start_bound s sd Hs Asd), (admin_end_bound e ed He Aed). cbn [bind snd].
  do 4 f_equal. apply filter_ext. intros r.
  rewrite passes_lower_date, passes_upper_end_of_day. reflexivity.
Qed.

Lemma admin_dropoffs_whole_days_witness :
  admin_dropoffs (fun _ => true) (Some "2024-03-10") (Some "2024-03-10")
                 [mk_row 1 7 "794644790132" (utc 2024 3 11 6 59 59 + 999999)]
  = Ok (map (load App.process_result_value)
          (sorted_desc row_timestamp
             (filter (fun r => true
                               && ((toordinal (mk_date 2024 3 10) <=? local_date (row_timestamp r))
                                   && (local_date (row_timestamp r)
                                       <=? toordinal (mk_date 2024 3 10))))
                     [mk_row 1 7 "794644790132" (utc 2024 3 11 6 59 59 + 999999)])),
        false).
Proof.
  exact (admin_dropoffs_whole_days (fun _ => true) _ "2024-03-10" "2024-03-10"
           (mk_date 2024 3 10) (mk_date 2024 3 10) eq_refl eq_refl
           (conj eq_refl eq_refl) (conj eq_refl eq_refl)).
Defined.

(** X8.  A field left empty leaves its side of the range open, for a date
    from 0001-01-02 to 9999-12-30 in the other field. *)
Theorem admin_dropoffs_open_sides (user_matches : row -> bool) (db : store)
    (s : pystr) (sd : date) :
  strptime s = Some sd -> away_from_bounds sd ->
  (forall e, absent e = true ->
     admin_dropoffs user_matches (Some s) e db
     = Ok (map (load App.process_result_value)
             (sorted_desc row_timestamp
                (filter (fun r => user_matches r
                                  && (toordinal sd <=? local_date (row_timestamp r)))
                        db)),
           false))
  /\ (forall b, absent b = true ->
        admin_dropoffs user_matches b (Some s) db
        = Ok (map (load App.process_result_value)
                (sorted_desc row_timestamp
                   (filter (fun r => user_matches r
                                     && (local_date (row_timestamp r) <=? toordinal sd))
                           db)),
              false))
  /\ (forall b e, absent b = true -> absent e = true ->
        admin_dropoffs user_matches b e db
        = Ok (map (load App.process_result_value)
                (sorted_desc row_timestamp (filter user_matches db)),
              false)).
Proof.
  intros Hs Asd. split; [|split].
  - intros e He. unfold admin_dropoffs.
    rewrite (admin_absent_end (Some s) e He), (admin_start_bound s sd Hs Asd).
    cbn [admin_date_filters bind snd].
    do 4 f_equal. apply filter_ext. intros r.
    rewrite passes_lower_date. cbn [passes_upper]. rewrite andb_true_r. reflexivity.
  - intros b Hb. unfold admin_dropoffs.
    rewrite (admin_absent_start b (Some s) Hb), (admin_end_bound s sd Hs Asd).
    do 4 f_equal. apply filter_ext. intros r.
    rewrite passes_upper_end_of_day. cbn [passes_lower andb]. reflexivity.
  - intros b e Hb He. unfold admin_dropoffs.
    rewrite (admin_no_bound b e Hb He).
    do 4 f_equal. apply filter_ext. intros r.
    cbn [passes_lower passes_upper andb]. apply andb_true_r.
Qed.

Lemma admin_dropoffs_open_sides_witness :
  admin_dropoffs (fun _ => true) (Some "2024-03-10") None
                 [mk_row 1 7 "794644790132" (utc 2024 3 11 6 59 59)]
  = Ok (map (load App.process_result_value)
          (sorted_desc row_timestamp
             (filter (fun r => true
                               && (toordinal (mk_date 2024 3 10)
                                   <=? local_date (row_timestamp r)))
                     [mk_row 1 7 "794644790132" (utc 2024 3 11 6 59 59)])),
        false).
Proof.
  exact (proj1 (admin_dropoffs_open_sides (fun _ => true)
                  [mk_row 1 7 "794644790132" (utc 2024 3 11 6 59 59)]
                  "2024-03-10" (mk_date 2024 3 10) eq_refl (conj eq_refl eq_refl))
               None eq_refl).
Defined.

(** X9.  A filled-in field that is no date drops the whole date filter: the
    message is flashed and the listing holds every matching record.  This
    is so when the start field is no date, whatever the end field holds,
    and when the end field is no date while the start field is empty or a
    date from 0001-01-02 to 9999-12-30.  A start date on the first or the
    last day of the calendar raises [OverflowError] before the end field is
    read: the route fails, also when the end field is no date. *)
Theorem admin_dropoffs_invalid_date (user_matches : row -> bool) (db : store)
    (start_date_str end_date_str : option pystr) :
  ((exists s, start_date_str = Some s /\ absent (Some s) = false /\ strptime s = None)
   \/ ((absent start_date_str = true
        \/ exists s sd, start_date_str = Some s /\ strptime s = Some sd
                        /\ away_from_bounds sd)
       /\ exists e, end_date_str = Some e /\ absent (Some e) = false /\ strptime e = None) ->
   admin_dropoffs user_matches start_date_str end_date_str db
   = Ok (map (load App.process_result_value)
           (sorted_desc row_timestamp (filter user_matches db)),
         true))
  /\ ((exists s sd, start_date_str = Some s /\ strptime s = Some sd /\ at_bounds sd) ->
      admin_dropoffs user_matches start_date_str end_date_str db = Raise OverflowError).
Proof.
  assert (Hall : forall l : store,
            filter (fun r => user_matches r && true) l = filter user_matches l).
  { intros l. apply filter_ext. intros r. apply andb_true_r. }
  assert (Hend : forall e, absent (Some e) = false -> strptime e = None ->
                   admin_date_filters None (Some e) = Raise ValueError).
  { intros e He Hbad. unfold admin_date_filters. cbn [bind].
    destruct e as [|c e']; [discriminate|]. rewrite Hbad. reflexivity. }
  split.
  - intros [[s [-> [Hs Hbad]]] | [Hstart [e [-> [He Hbad]]]]]; unfold admin_dropoffs.
    + unfold admin_date_filters. destruct s as [|c s']; [discriminate|].
      rewrite Hbad. cbn [bind]. rewrite Hall. reflexivity.
    + destruct Hstart as [Habs | [s [sd [-> [Hs Asd]]]]].
      * rewrite (admin_absent_start _ _ Habs), (Hend e He Hbad), Hall. reflexivity.
      * rewrite (admin_start_bound s sd Hs Asd), (Hend e He Hbad). cbn [bind].
        rewrite Hall. reflexivity.
  - intros [s [sd [-> [Hs Bsd]]]]. unfold admin_dropoffs, admin_date_filters.
    destruct s as [|c s']; [discriminate|].
    rewrite Hs, (localize_py_midnight_overflow sd Bsd). reflexivity.
Qed.

Lemma admin_dropoffs_invalid_date_witness :
  admin_dropoffs (fun _ => true) (Some "2024-03-10") (Some "10/03/2024")
                 [mk_row 1 7 "794644790132" (utc 2020 1 1 0 0 0)]
  = Ok (map (load App.process_result_value)
          (sorted_desc row_timestamp
             (filter (fun _ => true) [mk_row 1 7 "794644790132" (utc 2020 1 1 0 0 0)])),
        true).
Proof.
  apply (proj1 (admin_dropoffs_invalid_date (fun _ => true)
                  [mk_row 1 7 "794644790132" (utc 2020 1 1 0 0 0)]
                  (Some (py "2024-03-10")) (Some (py "10/03/2024")))).
  right. split.
  - right. exists (py "2024-03-10"), (mk_date 2024 3 10).
    split; [reflexivity|]. split; [reflexivity|]. split; reflexivity.
  - exists (py "10/03/2024"). repeat split.
Defined.

(** ** Further properties of the dashboard *)

Lemma insert_desc_perm {A : Type} (key : A -> Z) x l :
  Permutation (insert_desc key x l) (x :: l).
Proof.
  induction l as [|z l IH]; simpl; [reflexivity|].
  destruct (key z <=? key x); [reflexivity|].
  rewrite IH. apply perm_swap.
Qed.

Lemma sorted_desc_perm {A : Type} (key : A -> Z) l : Permutation (sorted_desc key l) l.
Proof.
  induction l as [|x l IH]; simpl; [reflexivity|].
  rewrite insert_desc_perm. apply perm_skip. exact IH.
Qed.

Lemma concat_perm {A : Type} (l1 l2 : list (list A)) :
  Permutation l1 l2 -> Permutation (List.concat l1) (List.concat l2).
Proof.
  induction 1 as [|x l l' H IH|x y l|l l' l'' H1 IH1 H2 IH2]; simpl.
  - reflexivity.
  - apply Permutation_app_head. exact IH.
  - rewrite !app_assoc. apply Permutation_app_tail. apply Permutation_app_comm.
  - rewrite IH1. exact IH2.
Qed.

Lemma dict_append_concat {A : Type} k (v : A) d :
  Permutation (List.concat (map snd (dict_append k v d))) (v :: List.concat (map snd d)).
Proof.
  induction d as [|[k' vs] d IH]; simpl; [reflexivity|].
  destruct (k =? k'); simpl.
  - rewrite <- app_assoc. simpl. symmetry. apply Permutation_middle.
  - rewrite IH. symmetry. apply Permutation_middle.
Qed.

Lemma dict_loop_concat {A : Type} (date_key : A -> Z) l : forall d,
  Permutation
    (List.concat (map snd (fold_left (fun d t => dict_append (date_key t) t d) l d)))
    (l ++ List.concat (map snd d)).
Proof.
  induction l as [|v l IH]; intros d; simpl; [reflexivity|].
  rewrite IH, dict_append_concat. symmetry. apply Permutation_middle.
Qed.

Lemma buckets_nonempty {A : Type} (date_key : A -> Z) l d k vs :
  buckets_of date_key l d -> In (k, vs) d -> vs <> [].
Proof.
  intros [Hnd Hget] Hin. pose proof (dict_get_In k vs d Hnd Hin) as H.
  rewrite Hget in H. destruct (filter (fun t => date_key t =? k) l); simpl in H.
  - discriminate.
  - injection H as <-. discriminate.
Qed.

Definition total_of (out : list day_entry) : Z :=
  fold_right (fun e n => package_count e + n) 0 out.

Section DashboardMore.
Variable display_timestamp : datetime -> datetime.

Lemma dashboard_data_trackings l :
  Permutation (List.concat (map trackings (dashboard_data display_timestamp l))) l.
Proof.
  unfold dashboard_data. rewrite map_map.
  transitivity (List.concat (map snd (grouped_trackings display_timestamp l))).
  - induction (grouped_trackings display_timestamp l) as [|[k vs] g IH]; simpl;
      [reflexivity|].
    apply Permutation_app; [apply sorted_asc_perm | exact IH].
  - unfold grouped_trackings.
    rewrite (concat_perm _ _ (Permutation_map snd (sorted_desc_perm fst _))).
    unfold trackings_by_display_date.
    rewrite (dict_loop_concat (drop_off_date display_timestamp) l []).
    simpl. rewrite app_nil_r. reflexivity.
Qed.

Lemma dashboard_data_counts l :
  total_of (dashboard_data display_timestamp l)
  = Z.of_nat (List.length (List.concat (map trackings (dashboard_data display_timestamp l)))).
Proof.
  unfold dashboard_data.
  induction (grouped_trackings display_timestamp l) as [|[k vs] g IH]; [reflexivity|].
  cbn [map total_of fold_right List.concat package_count trackings].
  fold (total_of (map (fun item : Z * list Tracking =>
                         let (date_obj, trackings_list) := item in
                         mk_day_entry date_obj (Z.of_nat (List.length trackings_list))
                           (sorted_asc (fun t => instant (timestamp t)) trackings_list)
                           match trackings_list with
                           | [] => None
                           | t :: _ => Some (id t)
                           end) g)).
  rewrite IH, length_app.
  rewrite (Permutation_length (sorted_asc_perm (fun t => instant (timestamp t)) vs)).
  lia.
Qed.

Lemma dashboard_data_first l e :
  In e (dashboard_data display_timestamp l) ->
  exists t rest,
    filter (fun x => drop_off_date display_timestamp x =? entry_date e) l = t :: rest
    /\ reference_id e = Some (id t)
    /\ package_count e = Z.of_nat (List.length (t :: rest)).
Proof.
  unfold dashboard_data. intros H. apply in_map_iff in H.
  destruct H as [[k vs] [<- Hin]]. cbn [entry_date reference_id package_count].
  pose proof (grouped_trackings_In display_timestamp l k vs Hin) as Hvs.
  unfold grouped_trackings, trackings_by_display_date in Hin.
  apply sorted_desc_In in Hin.
  pose proof (buckets_nonempty _ l _ k vs
                (buckets_of_all (drop_off_date display_timestamp) l) Hin) as Hne.
  destruct vs as [|t rest]; [congruence|].
  exists t, rest. rewrite <- Hvs. repeat split.
Qed.
End DashboardMore.

(** X10.  The dashboards lose and invent nothing: the day entries together hold
    the input records, each once, and the package counts of the days add up
    to the number of records. *)
Theorem dashboard_partitions_records (l : list Tracking) :
  Permutation (List.concat (map trackings (dashboard_app l))) l
  /\ total_of (dashboard_app l) = Z.of_nat (List.length l)
  /\ Permutation (List.concat (map trackings (dashboard_app2 l))) l
  /\ total_of (dashboard_app2 l) = Z.of_nat (List.length l).
Proof.
  unfold dashboard_app, dashboard_app2.
  repeat split; try apply dashboard_data_trackings;
    rewrite dashboard_data_counts;
    rewrite (Permutation_length (dashboard_data_trackings _ l)); reflexivity.
Qed.

(** X11.  No day entry is empty.  Its package count is the number of input
    records of its date, and its reference id is the id of the first of
    them in the input order, which the query makes the latest of the day. *)
Theorem dashboard_reference_is_first_of_day (l : list Tracking) (e : day_entry) :
  (In e (dashboard_app l) ->
   exists t rest,
     filter (fun x => drop_off_date (astimezone DISPLAY_TIMEZONE) x =? entry_date e) l
       = t :: rest
     /\ reference_id e = Some (id t)
     /\ package_count e = Z.of_nat (List.length (t :: rest)))
  /\ (In e (dashboard_app2 l) ->
      exists t rest,
        filter (fun x => date_of (timestamp x) =? entry_date e) l = t :: rest
        /\ reference_id e = Some (id t)
        /\ package_count e = Z.of_nat (List.length (t :: rest))).
Proof.
  split; intros H.
  - apply (dashboard_data_first (astimezone DISPLAY_TIMEZONE) l e H).
  - apply (dashboard_data_first (fun ts => ts) l e H).
Qed.

Definition sample_trackings : list Tracking :=
  [mk_Tracking 5 7 "794644790132" (Aware (3 * DAY + 10) timezone_utc);
   mk_Tracking 4 7 "794644790143" (Aware (3 * DAY + 5) timezone_utc)].

Definition sample_entry : day_entry :=
  mk_day_entry 3 2
    [mk_Tracking 4 7 "794644790143" (Aware (3 * DAY + 5) timezone_utc);
     mk_Tracking 5 7 "794644790132" (Aware (3 * DAY + 10) timezone_utc)]
    (Some 5).

Lemma dashboard_reference_is_first_of_day_witness :
  exists t rest,
    filter (fun x => date_of (timestamp x) =? entry_date sample_entry) sample_trackings
      = t :: rest
    /\ reference_id sample_entry = Some (id t)
    /\ package_count sample_entry = Z.of_nat (List.length (t :: rest)).
Proof.
  apply (proj2 (dashboard_reference_is_first_of_day sample_trackings sample_entry)).
  vm_compute. left. reflexivity.
Defined.

Lemma all_user_trackings_perm prv user db :
  Permutation (all_user_trackings prv user db)
              (map (load prv) (filter (fun r => row_user_id r =? user) db)).
Proof.
  unfold all_user_trackings. apply Permutation_map. apply sorted_desc_perm.
Qed.

(** X12.  The dashboard of a user shows that user's records and no others: the
    day entries together hold exactly the stored records owned by the
    user, each once. *)
Theorem dashboard_shows_own_records (user : Z) (db : store) :
  Permutation
    (List.concat (map trackings
       (dashboard_app (all_user_trackings App.process_result_value user db))))
    (map (load App.process_result_value) (filter (fun r => row_user_id r =? user) db))
  /\ Permutation
       (List.concat (map trackings
          (dashboard_app2 (all_user_trackings App2.process_result_value user db))))
       (map (load App2.process_result_value) (filter (fun r => row_user_id r =? user) db)).
Proof.
  unfold dashboard_app, dashboard_app2. split.
  - rewrite dashboard_data_trackings. apply all_user_trackings_perm.
  - rewrite dashboard_data_trackings. apply all_user_trackings_perm.
Qed.

Lemma NoDup_map_inj {A B : Type} (f : A -> B) (l : list A) a b :
  NoDup (map f l) -> In a l -> In b l -> f a = f b -> a = b.
Proof.
  induction l as [|x l IH]; simpl; [tauto|].
  intros Hnd Ha Hb Hf. inversion Hnd as [|? ? Hnotin Hnd']; subst.
  destruct Ha as [->|Ha]; destruct Hb as [->|Hb].
  - reflexivity.
  - exfalso. apply Hnotin. rewrite Hf. apply in_map. exact Hb.
  - exfalso. apply Hnotin. rewrite <- Hf. apply in_map. exact Ha.
  - apply IH; assumption.
Qed.

Lemma selected_tracking_unique user db r :
  NoDup (map row_id db) -> In r db -> row_user_id r = user ->
  selected_tracking user (row_id r) db = Some r.
Proof.
  intros Hnd Hin Hu.
  destruct (selected_tracking user (row_id r) db) as [sel|] eqn:E.
  - destruct (selected_tracking_some _ _ _ _ E) as [Hsel [Hid _]].
    f_equal. apply (NoDup_map_inj row_id db sel r Hnd Hsel Hin Hid).
  - exfalso. pose proof (find_none _ _ E r Hin) as Hn. cbn beta in Hn.
    rewrite Hu, !Z.eqb_refl in Hn. discriminate.
Qed.

Lemma reference_row prv display_timestamp user db e i :
  In e (dashboard_data display_timestamp (all_user_trackings prv user db)) ->
  reference_id e = Some i ->
  exists r, In r db /\ row_user_id r = user /\ row_id r = i
            /\ drop_off_date display_timestamp (load prv r) = entry_date e.
Proof.
  intros He Hi.
  destruct (dashboard_data_first display_timestamp _ e He) as [t [rest [Hf [Href _]]]].
  assert (Ht : In t (filter (fun x => drop_off_date display_timestamp x =? entry_date e)
                            (all_user_trackings prv user db))).
  { rewrite Hf. left. reflexivity. }
  apply filter_In in Ht. destruct Ht as [Ht Hdate]. apply Z.eqb_eq in Hdate.
  unfold all_user_trackings in Ht. apply in_map_iff in Ht.
  destruct Ht as [r [<- Hr]]. apply sorted_desc_In in Hr.
  apply filter_In in Hr. destruct Hr as [Hdb Hu]. apply Z.eqb_eq in Hu.
  exists r. split; [exact Hdb|]. split; [exact Hu|]. split; [|exact Hdate].
  rewrite Hi in Href. injection Href as ->. reflexivity.
Qed.

(** X13.  The dashboard and the receipt agree: in a store with distinct ids, the
    reference id of a day entry of the user's dashboard opens a receipt,
    and the receipt bears the date of that entry. *)
Theorem dashboard_reference_opens_its_day (user : Z) (db : store) (e : day_entry) (i : Z) :
  NoDup (map row_id db) -> reference_id e = Some i ->
  (In e (dashboard_app (all_user_trackings App.process_result_value user db)) ->
   exists items,
     AppReceipt.get_tracking_details user i db
     = Some (Receipt (entry_date e) items (Z.of_nat (List.length items))))
  /\ (In e (dashboard_app2 (all_user_trackings App2.process_result_value user db)) ->
      exists items,
        App2Receipt.get_tracking_details user i db
        = Some (Receipt (entry_date e) items (Z.of_nat (List.length items)))).
Proof.
  intros Hnd Hi. split; intros He.
  - destruct (reference_row _ _ user db e i He Hi) as [r [Hdb [Hu [Hid Hdate]]]].
    subst i. pose proof (selected_tracking_unique user db r Hnd Hdb Hu) as Hsel.
    destruct (app_receipt_answer user (row_id r) db r Hsel) as [items [Hget _]].
    exists items. rewrite Hget. rewrite <- Hdate.
    rewrite load_app. unfold drop_off_date, astimezone, local_date.
    cbn [timestamp instant utcoffset]. rewrite Z.sub_0_r. reflexivity.
  - destruct (reference_row _ _ user db e i He Hi) as [r [Hdb [Hu [Hid Hdate]]]].
    subst i. pose proof (selected_tracking_unique user db r Hnd Hdb Hu) as Hsel.
    destruct (app2_receipt_answer user (row_id r) db r Hsel) as [items [Hget _]].
    exists items. rewrite Hget. rewrite <- Hdate.
    rewrite load_app2. reflexivity.
Qed.

Definition sample_store : store :=
  [mk_row 1 7 "794644790132" (utc 2024 3 10 20 0 0);
   mk_row 2 8 "794644790143" (utc 2024 3 10 21 0 0)].

Lemma dashboard_reference_opens_its_day_witness :
  exists items,
    App2Receipt.get_tracking_details 7 1 sample_store
    = Some (Receipt
              (entry_date (mk_day_entry (local_date (utc 2024 3 10 20 0 0)) 1
                             [load App2.process_result_value
                                (mk_row 1 7 "794644790132" (utc 2024 3 10 20 0 0))]
                             (Some 1)))
              items (Z.of_nat (List.length items))).
Proof.
  apply (proj2 (dashboard_reference_opens_its_day 7 sample_store
                  (mk_day_entry (local_date (utc 2024 3 10 20 0 0)) 1
                     [load App2.process_result_value
                        (mk_row 1 7 "794644790132" (utc 2024 3 10 20 0 0))]
                     (Some 1))
                  1 ltac:(repeat constructor; simpl; intuition discriminate) eq_refl)).
  vm_compute. left. reflexivity.
Defined.

(** ** Users and the admin routes of [app.py] *)

Record user_row := mk_user {
  u_id : Z;
  phone_number : string;
  password_hash : string;
  is_admin : bool
}.

Record database := mk_db { users : list user_row; trackings_table : store }.

(** How a guarded route ends. *)
Inductive outcome :=
| to_login            (* [login_required]: nobody is logged in *)
| no_admin_access     (* [admin_required]: flashed, back to the dashboard *)
| abort_404           (* [get_or_404] found nothing *)
| refused (message : string)
| done (message : string).

(** [login_required] and [admin_required] stacked on a route body:
    [current_user] is [None] when nobody is logged in. *)
Definition admin_route (current_user : option user_row) (db : database)
    (body : user_row -> database * outcome) : database * outcome :=
  match current_user with
  | None => (db, to_login)
  | Some u => if is_admin u then body u else (db, no_admin_access)
  end.

(** [User.query.get_or_404(user_id)] *)
Definition get_user (user_id : Z) (db : database) : option user_row :=
  find (fun u => u_id u =? user_id) (users db).

(** [delete_user] *)
Definition delete_user (current_user : option user_row) (user_id : Z) (db : database)
    : database * outcome :=
  admin_route current_user db (fun cu =>
    match get_user user_id db with
    | None => (db, abort_404)
    | Some user_to_delete =>
        if u_id user_to_delete =? u_id cu then
          (db, refused "You cannot delete your own account from here.")
        else
          (mk_db (filter (fun u => negb (u_id u =? u_id user_to_delete)) (users db))
                 (filter (fun r => negb (row_user_id r =? u_id user_to_delete))
                         (trackings_table db)),
           done "deleted")
    end).

(** [toggle_admin_status] *)
Definition toggle_admin_status (current_user : option user_row) (user_id : Z)
    (db : database) : database * outcome :=
  admin_route current_user db (fun cu =>
    match get_user user_id db with
    | None => (db, abort_404)
    | Some user =>
        if u_id user =? u_id cu then
          (db, refused "You cannot change your own admin status.")
        else
          (mk_db (map (fun u => if u_id u =? u_id user
                                then mk_user (u_id u) (phone_number u) (password_hash u)
                                             (negb (is_admin u))
                                else u)
                      (users db))
                 (trackings_table db),
           done "changed")
    end).

(** [edit_tracking], the POST branch. *)
Definition edit_tracking (current_user : option user_row) (tracking_id : Z)
    (new_tracking_number : option pystr) (db : database) : database * outcome :=
  admin_route current_user db (fun _ =>
    match find (fun r => row_id r =? tracking_id) (trackings_table db) with
    | None => (db, abort_404)
    | Some tracking =>
        match new_tracking_number with
        | None | Some [] => (db, refused "Tracking number cannot be empty.")
        | Some n =>
            if existsb (fun r => pystr_eqb (row_tracking_number r) n
                                 && negb (row_id r =? tracking_id))
                       (trackings_table db)
            then (db, refused "already exists for another record")
            else
              (mk_db (users db)
                     (map (fun r => if row_id r =? row_id tracking
                                    then mk_row (row_id r) (row_user_id r) n (row_timestamp r)
                                    else r)
                          (trackings_table db)),
               done "updated")
        end
    end).

Section Register.
(** [bcrypt.generate_password_hash(password).decode('utf-8')] *)
Variable generate_password_hash : string -> string.

Definition next_user_id (us : list user_row) : Z :=
  fold_right (fun u m => Z.max (u_id u + 1) m) 1 us.

(** [register], the POST branch; [authenticated] is
    [current_user.is_authenticated]. *)
Definition register (authenticated : bool) (phone password : option string)
    (db : database) : database * outcome :=
  if authenticated then (db, done "dashboard")
  else
    match phone, password with
    | Some (String c p), Some (String c' pw) =>
        if existsb (fun u => String.eqb (phone_number u) (String c p)) (users db)
        then (db, refused "Phone number already registered. Please log in.")
        else
          (mk_db (users db ++ [mk_user (next_user_id (users db)) (String c p)
                                       (generate_password_hash (String c' pw)) false])
                 (trackings_table db),
           done "Registration successful! Please log in.")
    | _, _ => (db, refused "Phone number and password are required.")
    end.
End Register.

(** Every tracking row belongs to a stored user. *)
Definition owners_exist (db : database) : Prop :=
  forall r, In r (trackings_table db) ->
            exists u, In u (users db) /\ u_id u = row_user_id r.

Lemma get_user_some user_id db u :
  get_user user_id db = Some u -> In u (users db) /\ u_id u = user_id.
Proof.
  intros H. apply find_some in H. destruct H as [Hin Hid].
  apply Z.eqb_eq in Hid. tauto.
Qed.

Lemma get_user_none user_id db :
  (forall u, In u (users db) -> u_id u <> user_id) -> get_user user_id db = None.
Proof.
  intros H. unfold get_user. destruct (find _ (users db)) as [u|] eqn:F; [|reflexivity].
  apply find_some in F. destruct F as [Hin Hid]. apply Z.eqb_eq in Hid.
  exfalso. exact (H u Hin Hid).
Qed.

Lemma get_user_found user_id db :
  (exists u, In u (users db) /\ u_id u = user_id) ->
  exists t, get_user user_id db = Some t /\ In t (users db) /\ u_id t = user_id.
Proof.
  intros [u [Hin Hid]]. unfold get_user.
  destruct (find _ (users db)) as [t|] eqn:F.
  - exists t. split; [reflexivity|]. apply find_some in F.
    destruct F as [Ht Htid]. apply Z.eqb_eq in Htid. tauto.
  - pose proof (find_none _ _ F u Hin) as Hn. cbn beta in Hn.
    rewrite Hid, Z.eqb_refl in Hn. discriminate.
Qed.

(** X14.  [delete_user], case by case.  Nobody logged in: the login page.
    A user who is no admin: the no-access message.  An admin who names an
    id no user has: 404, and an admin who names the own id: refused.  In
    these four cases the database is returned as it was.  An admin who
    names another, existing user: that user and all the trackings of that
    user are removed and nothing else is; no tracking and no user with that
    id is left, the admin is still there, and every remaining tracking
    still has its owner. *)
Theorem delete_user_effect (current_user : option user_row) (user_id : Z) (db : database) :
  (current_user = None -> delete_user current_user user_id db = (db, to_login))
  /\ (forall u, current_user = Some u -> is_admin u = false ->
        delete_user current_user user_id db = (db, no_admin_access))
  /\ (forall admin, current_user = Some admin -> is_admin admin = true ->
        ((forall u, In u (users db) -> u_id u <> user_id) ->
         delete_user current_user user_id db = (db, abort_404))
        /\ ((exists u, In u (users db) /\ u_id u = user_id) -> user_id = u_id admin ->
            delete_user current_user user_id db
            = (db, refused "You cannot delete your own account from here."))
        /\ ((exists u, In u (users db) /\ u_id u = user_id) -> user_id <> u_id admin ->
            exists db',
              delete_user current_user user_id db = (db', done "deleted")
              /\ users db' = filter (fun u => negb (u_id u =? user_id)) (users db)
              /\ trackings_table db'
                 = filter (fun r => negb (row_user_id r =? user_id)) (trackings_table db)
              /\ (forall u, In u (users db') -> u_id u <> user_id)
              /\ (forall r, In r (trackings_table db') -> row_user_id r <> user_id)
              /\ (forall u, In u (users db) -> u_id u <> user_id -> In u (users db'))
              /\ (forall r, In r (trackings_table db) -> row_user_id r <> user_id ->
                            In r (trackings_table db'))
              /\ (In admin (users db) -> In admin (users db'))
              /\ (owners_exist db -> owners_exist db'))).
Proof.
  unfold delete_user, admin_route.
  split; [intros ->; reflexivity|].
  split; [intros u -> Hadm; rewrite Hadm; reflexivity|].
  intros admin -> Hadm. rewrite Hadm.
  split; [intros Hnone; rewrite (get_user_none user_id db Hnone); reflexivity|].
  split.
  - intros Hex Hself. destruct (get_user_found user_id db Hex) as [t [Hget [_ Hid]]].
    rewrite Hget, Hid, Hself, Z.eqb_refl. reflexivity.
  - intros Hex Hother. destruct (get_user_found user_id db Hex) as [t [Hget [_ Hid]]].
    rewrite Hget, Hid. apply Z.eqb_neq in Hother. rewrite Hother.
    apply Z.eqb_neq in Hother.
    eexists. split; [reflexivity|]. cbn [users trackings_table].
    split; [reflexivity|]. split; [reflexivity|].
    assert (Hkeep_u : forall u, In u (users db) -> u_id u <> user_id ->
              In u (filter (fun u => negb (u_id u =? user_id)) (users db))).
    { intros u Hu Hne. apply filter_In. split; [exact Hu|].
      apply negb_true_iff. apply Z.eqb_neq. exact Hne. }
    split.
    { intros u Hu. apply filter_In in Hu. destruct Hu as [_ Hu].
      apply negb_true_iff in Hu. apply Z.eqb_neq in Hu. exact Hu. }
    split.
    { intros r Hr. apply filter_In in Hr. destruct Hr as [_ Hr].
      apply negb_true_iff in Hr. apply Z.eqb_neq in Hr. exact Hr. }
    split; [exact Hkeep_u|].
    split.
    { intros r Hr Hne. apply filter_In. split; [exact Hr|].
      apply negb_true_iff. apply Z.eqb_neq. exact Hne. }
    split.
    { intros Hin. apply Hkeep_u; [exact Hin | congruence]. }
    intros Hown r Hr. cbn [trackings_table users] in *.
    apply filter_In in Hr. destruct Hr as [Hr Hne].
    apply negb_true_iff in Hne. apply Z.eqb_neq in Hne.
    destruct (Hown r Hr) as [u [Hu Heq]]. exists u. split; [|exact Heq].
    apply Hkeep_u; [exact Hu | congruence].
Qed.

Definition sample_db : database :=
  mk_db [mk_user 1 "7145550100" "h1" true; mk_user 2 "7145550101" "h2" false]
        [mk_row 1 2 "794644790132" 0; mk_row 2 1 "794644790143" 5].

Lemma delete_user_effect_witness :
  exists db',
    delete_user (Some (mk_user 1 "7145550100" "h1" true)) 2 sample_db = (db', done "deleted")
    /\ users db' = filter (fun u => negb (u_id u =? 2)) (users sample_db)
    /\ trackings_table db'
       = filter (fun r => negb (row_user_id r =? 2)) (trackings_table sample_db)
    /\ (forall u, In u (users db') -> u_id u <> 2)
    /\ (forall r, In r (trackings_table db') -> row_user_id r <> 2)
    /\ (forall u, In u (users sample_db) -> u_id u <> 2 -> In u (users db'))
    /\ (forall r, In r (trackings_table sample_db) -> row_user_id r <> 2 ->
                  In r (trackings_table db'))
    /\ (In (mk_user 1 "7145550100" "h1" true) (users sample_db) ->
        In (mk_user 1 "7145550100" "h1" true) (users db'))
    /\ (owners_exist sample_db -> owners_exist db').
Proof.
  apply (proj2 (proj2 (proj2 (proj2
           (delete_user_effect (Some (mk_user 1 "7145550100" "h1" true)) 2 sample_db))
           (mk_user 1 "7145550100" "h1" true) eq_refl eq_refl))).
  - exists (mk_user 2 "7145550101" "h2" false). split; [right; left|]; reflexivity.
  - discriminate.
Defined.

Lemma find_map_same_id (g : user_row -> user_row) user_id l :
  (forall u, u_id (g u) = u_id u) ->
  find (fun u => u_id u =? user_id) (map g l)
  = option_map g (find (fun u => u_id u =? user_id) l).
Proof.
  intros Hg. induction l as [|x l IH]; simpl; [reflexivity|].
  rewrite Hg. destruct (u_id x =? user_id); [reflexivity | exact IH].
Qed.

(** X15.  Toggling the admin flag of another user twice gives back the database;
    the flag of every other user is never touched, and an admin cannot
    toggle the own flag. *)
Theorem toggle_admin_status_twice (admin : user_row) (user_id : Z) (db db' : database)
    (m : string) :
  is_admin admin = true ->
  toggle_admin_status (Some admin) user_id db = (db', done m) ->
  user_id <> u_id admin
  /\ (forall u, In u (users db) -> u_id u <> user_id -> In u (users db'))
  /\ trackings_table db' = trackings_table db
  /\ toggle_admin_status (Some admin) user_id db' = (db, done m).
Proof.
  unfold toggle_admin_status, admin_route. intros Hadm. rewrite Hadm.
  destruct (get_user user_id db) as [target|] eqn:Hget; [|discriminate].
  destruct (get_user_some _ _ _ Hget) as [Hin Hid]. rewrite Hid.
  destruct (user_id =? u_id admin) eqn:Hself; [discriminate|].
  intros H. injection H as <- <-.
  split; [apply Z.eqb_neq; exact Hself|]. split; [|split; [reflexivity|]].
  - intros u Hu Hne. cbn [users]. apply in_map_iff. exists u. split; [|exact Hu].
    apply Z.eqb_neq in Hne. rewrite Hne. reflexivity.
  - set (flip := fun u => if u_id u =? user_id
                          then mk_user (u_id u) (phone_number u) (password_hash u)
                                       (negb (is_admin u))
                          else u).
    assert (Hflip : forall u, u_id (flip u) = u_id u).
    { intros u. unfold flip. destruct (u_id u =? user_id); reflexivity. }
    unfold get_user. cbn [users trackings_table].
    rewrite (find_map_same_id flip user_id (users db) Hflip).
    unfold get_user in Hget. rewrite Hget. cbn [option_map].
    rewrite Hflip, Hid, Hself. f_equal.
    destruct db as [us ts]. cbn [users trackings_table]. f_equal.
    rewrite map_map. rewrite <- (map_id us) at 2. apply map_ext. intros u.
    fold (flip u). fold (flip (flip u)). unfold flip at 1. rewrite Hflip.
    unfold flip. destruct (u_id u =? user_id); [|reflexivity].
    destruct u as [i p h a]. cbn. rewrite negb_involutive. reflexivity.
Qed.

Lemma toggle_admin_status_twice_witness :
  2 <> u_id (mk_user 1 "7145550100" "h1" true)
  /\ (forall u, In u (users sample_db) -> u_id u <> 2 ->
                In u (users (fst (toggle_admin_status
                                    (Some (mk_user 1 "7145550100" "h1" true)) 2 sample_db))))
  /\ trackings_table (fst (toggle_admin_status
                             (Some (mk_user 1 "7145550100" "h1" true)) 2 sample_db))
     = trackings_table sample_db
  /\ toggle_admin_status (Some (mk_user 1 "7145550100" "h1" true)) 2
       (fst (toggle_admin_status (Some (mk_user 1 "7145550100" "h1" true)) 2 sample_db))
     = (sample_db, done "changed").
Proof.
  apply (toggle_admin_status_twice (mk_user 1 "7145550100" "h1" true) 2 sample_db).
  - reflexivity.
  - reflexivity.
Defined.

(** X16.  A successful [edit_tracking] rewrites the number of the record with
    the given id and nothing else: ids, owners and timestamps of all rows
    and the users stay as they were, and no other record bears the new
    number.  It succeeds only for an admin. *)
Theorem edit_tracking_effect (current_user : option user_row) (tracking_id : Z)
    (new_tracking_number : option pystr) (db db' : database) (m : string) :
  edit_tracking current_user tracking_id new_tracking_number db = (db', done m) ->
  exists admin n,
    current_user = Some admin /\ is_admin admin = true
    /\ new_tracking_number = Some n /\ n <> []
    /\ users db' = users db
    /\ map row_id (trackings_table db') = map row_id (trackings_table db)
    /\ map row_user_id (trackings_table db') = map row_user_id (trackings_table db)
    /\ map row_timestamp (trackings_table db') = map row_timestamp (trackings_table db)
    /\ (forall r, In r (trackings_table db) -> row_id r <> tracking_id ->
                  In r (trackings_table db'))
    /\ (forall r, In r (trackings_table db') ->
                  (row_id r = tracking_id /\ row_tracking_number r = n)
                  \/ (row_id r <> tracking_id /\ row_tracking_number r <> n
                      /\ In r (trackings_table db))).
Proof.
  unfold edit_tracking, admin_route. intros H.
  destruct current_user as [cu|]; [|discriminate].
  destruct (is_admin cu) eqn:Hadm; [|discriminate].
  destruct (find _ (trackings_table db)) as [tracking|] eqn:Hfind; [|discriminate].
  apply find_some in Hfind. destruct Hfind as [Hin Hid]. apply Z.eqb_eq in Hid.
  destruct new_tracking_number as [[|c n']|]; try discriminate.
  set (n := c :: n') in *.
  destruct (existsb _ (trackings_table db)) eqn:Hex; [discriminate|].
  injection H as <- <-. exists cu, n. cbn [users trackings_table].
  rewrite Hid.
  split; [reflexivity|]. split; [exact Hadm|]. split; [reflexivity|].
  split; [discriminate|]. split; [reflexivity|].
  rewrite !map_map.
  split; [apply map_ext; intros r; destruct (row_id r =? tracking_id); reflexivity|].
  split; [apply map_ext; intros r; destruct (row_id r =? tracking_id); reflexivity|].
  split; [apply map_ext; intros r; destruct (row_id r =? tracking_id); reflexivity|].
  split.
  - intros r Hr Hne. apply in_map_iff. exists r. split; [|exact Hr].
    apply Z.eqb_neq in Hne. rewrite Hne. reflexivity.
  - intros r Hr. apply in_map_iff in Hr. destruct Hr as [r0 [<- Hr0]].
    destruct (row_id r0 =? tracking_id) eqn:E.
    + left. apply Z.eqb_eq in E. split; [exact E | reflexivity].
    + right. apply Z.eqb_neq in E. split; [exact E|]. split; [|exact Hr0].
      intros Hn. pose proof (existsb_exists
        (fun r => pystr_eqb (row_tracking_number r) n && negb (row_id r =? tracking_id))
        (trackings_table db)) as [_ Hback].
      rewrite Hback in Hex; [discriminate|].
      exists r0. split; [exact Hr0|]. apply andb_true_iff. split.
      * apply pystr_eqb_eq. exact Hn.
      * apply negb_true_iff. apply Z.eqb_neq. exact E.
Qed.

Lemma edit_tracking_effect_witness :
  exists admin n,
    Some (mk_user 1 "7145550100" "h1" true) = Some admin /\ is_admin admin = true
    /\ Some (py "794644790999") = Some n /\ n <> []
    /\ users (fst (edit_tracking (Some (mk_user 1 "7145550100" "h1" true)) 1
                     (Some "794644790999") sample_db)) = users sample_db
    /\ map row_id (trackings_table (fst (edit_tracking
                     (Some (mk_user 1 "7145550100" "h1" true)) 1
                     (Some "794644790999") sample_db)))
       = map row_id (trackings_table sample_db)
    /\ map row_user_id (trackings_table (fst (edit_tracking
                     (Some (mk_user 1 "7145550100" "h1" true)) 1
                     (Some "794644790999") sample_db)))
       = map row_user_id (trackings_table sample_db)
    /\ map row_timestamp (trackings_table (fst (edit_tracking
                     (Some (mk_user 1 "7145550100" "h1" true)) 1
                     (Some "794644790999") sample_db)))
       = map row_timestamp (trackings_table sample_db)
    /\ (forall r, In r (trackings_table sample_db) -> row_id r <> 1 ->
                  In r (trackings_table (fst (edit_tracking
                     (Some (mk_user 1 "7145550100" "h1" true)) 1
                     (Some "794644790999") sample_db))))
    /\ (forall r, In r (trackings_table (fst (edit_tracking
                     (Some (mk_user 1 "7145550100" "h1" true)) 1
                     (Some "794644790999") sample_db))) ->
                  (row_id r = 1 /\ row_tracking_number r = n)
                  \/ (row_id r <> 1 /\ row_tracking_number r <> n
                      /\ In r (trackings_table sample_db))).
Proof.
  apply (edit_tracking_effect (Some (mk_user 1 "7145550100" "h1" true)) 1
           (Some "794644790999") sample_db _ "updated").
  reflexivity.
Defined.

Lemma NoDup_snoc {A : Type} (l : list A) (x : A) :
  NoDup l -> ~ In x l -> NoDup (l ++ [x]).
Proof.
  intros Hnd Hx. apply NoDup_rev in Hnd. rewrite <- (rev_involutive (l ++ [x])).
  apply NoDup_rev. rewrite rev_app_distr. simpl. constructor; [|exact Hnd].
  rewrite <- in_rev. exact Hx.
Qed.

(** X17.  [register] keeps phone numbers distinct, never makes an admin, and
    leaves the stored users and the trackings as they were. *)
Theorem register_keeps_phones_distinct (generate_password_hash : string -> string)
    (authenticated : bool) (phone password : option string) (db db' : database)
    (o : outcome) :
  register generate_password_hash authenticated phone password db = (db', o) ->
  NoDup (map phone_number (users db)) ->
  NoDup (map phone_number (users db'))
  /\ trackings_table db' = trackings_table db
  /\ (exists added, users db' = users db ++ added
                    /\ (List.length added <= 1)%nat
                    /\ forall u, In u added ->
                         is_admin u = false /\ Some (phone_number u) = phone).
Proof.
  unfold register. intros H Hnd.
  assert (Hsame : (db', o) = (db, o) ->
            NoDup (map phone_number (users db')) /\ trackings_table db' = trackings_table db
            /\ (exists added, users db' = users db ++ added /\ (List.length added <= 1)%nat
                  /\ forall u, In u added ->
                       is_admin u = false /\ Some (phone_number u) = phone)).
  { intros E. injection E as ->. split; [exact Hnd|]. split; [reflexivity|].
    exists []. rewrite app_nil_r. split; [reflexivity|]. split; [simpl; lia|].
    intros u []. }
  destruct authenticated; [apply Hsame; rewrite <- H; f_equal; congruence|].
  destruct phone as [[|c p]|]; try (apply Hsame; rewrite <- H; f_equal; congruence).
  destruct password as [[|c' pw]|]; try (apply Hsame; rewrite <- H; f_equal; congruence).
  destruct (existsb _ (users db)) eqn:Hex;
    [apply Hsame; rewrite <- H; f_equal; congruence|].
  injection H as <- <-. cbn [users trackings_table].
  split.
  - rewrite map_app. cbn [map phone_number]. apply NoDup_snoc; [exact Hnd|].
    intros Hin. apply in_map_iff in Hin. destruct Hin as [u [Hu Hin]].
    pose proof (existsb_exists (fun u => String.eqb (phone_number u) (String c p))
                               (users db)) as [_ Hback].
    rewrite Hback in Hex; [discriminate|].
    exists u. split; [exact Hin | apply String.eqb_eq; exact Hu].
  - split; [reflexivity|]. eexists. split; [reflexivity|]. split; [simpl; lia|].
    intros u [<-|[]]. split; reflexivity.
Qed.

Lemma register_keeps_phones_distinct_witness :
  NoDup (map phone_number
           (users (fst (register (fun p => p) false (Some "7145550102") (Some "secret")
                                 sample_db))))
  /\ trackings_table (fst (register (fun p => p) false (Some "7145550102") (Some "secret")
                                    sample_db))
     = trackings_table sample_db
  /\ (exists added,
        users (fst (register (fun p => p) false (Some "7145550102") (Some "secret")
                             sample_db))
        = users sample_db ++ added
        /\ (List.length added <= 1)%nat
        /\ forall u, In u added ->
             is_admin u = false /\ Some (phone_number u) = Some "7145550102").
Proof.
  apply (register_keeps_phones_distinct (fun p => p) false (Some "7145550102")
           (Some "secret") sample_db _
           (snd (register (fun p => p) false (Some "7145550102") (Some "secret") sample_db))).
  - apply surjective_pairing.
  - repeat constructor; simpl; intuition discriminate.
Defined.

(** ** Further properties of the tracking routes *)

Definition number_key (r : row) : Z * pystr := (row_user_id r, row_tracking_number r).

Lemma not_existing_key user n db :
  existsb (fun r => (row_user_id r =? user) && pystr_eqb (row_tracking_number r) n) db
    = false ->
  ~ In (user, n) (map number_key db).
Proof.
  intros Hex Hin. apply in_map_iff in Hin. destruct Hin as [r [Hk Hr]].
  unfold number_key in Hk. injection Hk as Hu Hn.
  pose proof (existsb_exists
    (fun r => (row_user_id r =? user) && pystr_eqb (row_tracking_number r) n) db)
    as [_ Hback].
  rewrite Hback in Hex; [discriminate|].
  exists r. split; [exact Hr|]. apply andb_true_iff. split.
  - apply Z.eqb_eq. exact Hu.
  - apply pystr_eqb_eq. exact Hn.
Qed.

(** X18.  Neither [add_tracking] ever gives a user two records with the same
    number: if no user has a number twice before, none has after. *)
Theorem add_tracking_keeps_numbers_unique (current_user now : Z) (db : store)
    (input : option pystr) :
  NoDup (map number_key db) ->
  NoDup (map number_key (fst (AppAdd.add_tracking current_user now db input)))
  /\ NoDup (map number_key (fst (add_tracking current_user now db input))).
Proof.
  intros Hnd. split.
  - unfold AppAdd.add_tracking. destruct input as [[|c n]|]; try exact Hnd.
    destruct (existsb _ db) eqn:Hex; [exact Hnd|]. cbn [fst].
    rewrite map_app. apply NoDup_snoc; [exact Hnd|].
    apply (not_existing_key current_user (c :: n) db Hex).
  - unfold add_tracking. destruct input as [[|c n]|]; try exact Hnd.
    destruct (existsb _ db) eqn:Hex; [exact Hnd|]. cbn [fst].
    rewrite map_app. apply NoDup_snoc; [exact Hnd|].
    apply (not_existing_key current_user _ db Hex).
Qed.

Lemma add_tracking_keeps_numbers_unique_witness :
  NoDup (map number_key (fst (AppAdd.add_tracking 7 9 sample_store (Some "794644790132"))))
  /\ NoDup (map number_key (fst (add_tracking 7 9 sample_store (Some "794644790132")))).
Proof.
  apply (add_tracking_keeps_numbers_unique 7 9 sample_store (Some "794644790132")).
  repeat constructor; simpl; intuition discriminate.
Defined.

Lemma existsb_snoc {A : Type} (f : A -> bool) l x :
  f x = true -> existsb f (l ++ [x]) = true.
Proof.
  intros H. rewrite existsb_app. simpl. rewrite H. apply orb_true_iff. right. reflexivity.
Qed.

(** X19.  A number just added is refused when it is submitted again, and the
    store stays as it is: in [app.py] for the same text, in [app2.py] for
    every text that cleans to the same number.  What cleans to the same
    number is decided by [str.isdigit]: a superscript two is kept, so the
    text of code points 49, 178, 50 is added after the text 49, 50. *)
Theorem add_tracking_twice_is_refused (current_user now now' : Z) (db db' : store)
    (input input' : pystr) (n : pystr) :
  (AppAdd.add_tracking current_user now db (Some input) = (db', flash_added n) ->
   AppAdd.add_tracking current_user now' db' (Some input) = (db', flash_exists n))
  /\ (add_tracking current_user now db (Some input) = (db', flash_added n) ->
      absent (Some input') = false ->
      final_tracking_number_to_save input' = n ->
      add_tracking current_user now' db' (Some input') = (db', flash_exists n))
  /\ final_tracking_number_to_save [49; 178; 50] <> final_tracking_number_to_save [49; 50]
  /\ add_tracking current_user now' (fst (add_tracking current_user now [] (Some [49; 50])))
                  (Some [49; 178; 50])
     = ([mk_row 1 current_user [49; 50] now; mk_row 2 current_user [49; 178; 50] now'],
        flash_added [49; 178; 50]).
Proof.
  split; [|split; [|split]].
  - unfold AppAdd.add_tracking. destruct input as [|c i]; [discriminate|].
    destruct (existsb _ db) eqn:Hex; [discriminate|].
    intros H. injection H as <- <-.
    rewrite existsb_snoc; [reflexivity|].
    cbn [row_user_id row_tracking_number]. rewrite Z.eqb_refl, pystr_eqb_refl. reflexivity.
  - unfold add_tracking. destruct input as [|c i]; [discriminate|].
    destruct (existsb _ db) eqn:Hex; [discriminate|].
    intros H Habs Hn. injection H as <- <-.
    destruct input' as [|c' i']; [discriminate|]. rewrite Hn.
    rewrite existsb_snoc; [reflexivity|].
    cbn [row_user_id row_tracking_number]. rewrite Z.eqb_refl, pystr_eqb_refl. reflexivity.
  - vm_compute. discriminate.
  - unfold add_tracking. cbn [fst existsb].
    change (final_tracking_number_to_save [49; 50]) with [49; 50].
    change (final_tracking_number_to_save [49; 178; 50]) with [49; 178; 50].
    cbn [fst existsb app row_user_id row_tracking_number pystr_eqb next_id fold_right row_id].
    rewrite Z.eqb_refl. reflexivity.
Qed.

Lemma add_tracking_twice_is_refused_witness :
  add_tracking 7 10 (fst (add_tracking 7 9 [] (Some "7946-4479-0132")))
               (Some "00 794644790132")
  = (fst (add_tracking 7 9 [] (Some "7946-4479-0132")), flash_exists "794644790132").
Proof.
  apply (proj1 (proj2 (add_tracking_twice_is_refused 7 9 10 [] _ "7946-4479-0132"
                         "00 794644790132" "794644790132"))); reflexivity.
Defined.

Lemma next_id_above db r : In r db -> row_id r < next_id db.
Proof.
  induction db as [|x db IH]; [intros []|].
  change (next_id (x :: db)) with (Z.max (row_id x + 1) (next_id db)).
  intros [->|H]; [lia|]. specialize (IH H). lia.
Qed.

Lemma find_snoc {A : Type} (f : A -> bool) l x :
  (forall r, In r l -> f r = false) -> f x = true -> find f (l ++ [x]) = Some x.
Proof.
  intros Hl Hx. induction l as [|y l IH]; simpl; [rewrite Hx; reflexivity|].
  rewrite (Hl y (or_introl eq_refl)). apply IH. intros r Hr. apply Hl. right. exact Hr.
Qed.

(** X20.  Adding a number and deleting the new record gives back the store: the
    record gets a fresh id, the user who added it may delete it, and
    deleting it removes nothing else. *)
Theorem add_then_delete_restores (current_user now : Z) (db db' : store)
    (input : option pystr) (n : pystr) :
  AppAdd.add_tracking current_user now db input = (db', flash_added n)
  \/ add_tracking current_user now db input = (db', flash_added n) ->
  (forall r, In r db -> row_id r <> next_id db)
  /\ delete_tracking current_user (next_id db) db' = (db, flash_deleted).
Proof.
  intros H.
  assert (Hfresh : forall r, In r db -> row_id r <> next_id db).
  { intros r Hr. pose proof (next_id_above db r Hr). lia. }
  split; [exact Hfresh|].
  assert (Hdb' : exists m, db' = db ++ [mk_row (next_id db) current_user m now]).
  { destruct H as [H|H]; [unfold AppAdd.add_tracking in H | unfold add_tracking in H];
      destruct input as [[|c i]|]; try discriminate;
      destruct (existsb _ db); try discriminate;
      injection H as <- _; eexists; reflexivity. }
  destruct Hdb' as [m ->].
  unfold delete_tracking, tracking_to_delete.
  rewrite find_snoc.
  - unfold session_delete. cbn [row_id]. rewrite filter_app. cbn [filter row_id].
    rewrite Z.eqb_refl. cbn [negb]. rewrite app_nil_r.
    rewrite filter_all; [reflexivity|].
    intros r Hr. apply negb_true_iff. apply Z.eqb_neq. apply Hfresh. exact Hr.
  - intros r Hr. apply andb_false_iff. left. apply Z.eqb_neq. apply Hfresh. exact Hr.
  - cbn [row_id row_user_id]. rewrite !Z.eqb_refl. reflexivity.
Qed.

Lemma add_then_delete_restores_witness :
  (forall r, In r sample_store -> row_id r <> next_id sample_store)
  /\ delete_tracking 7 (next_id sample_store)
       (fst (add_tracking 7 9 sample_store (Some "7946-4479-0199")))
     = (sample_store, flash_deleted).
Proof.
  apply (add_then_delete_restores 7 9 sample_store _ (Some "7946-4479-0199") "794644790199").
  right. reflexivity.
Defined.

(** ** The column type, write then read *)

(** The column keeps the fields of the bound value, without zone. *)
Definition stored_value (value : option datetime) : option datetime :=
  option_map (fun v => Naive (wall_of v)) (process_bind_param value).

(** X21.  Writing a value and reading it back keeps the instant: [app.py]
    returns it in UTC, [app2.py] in the display zone, and a null stays
    null.  Binding twice is the same as binding once. *)
Theorem column_write_read (v : datetime) :
  (exists r, App.process_result_value (stored_value (Some v)) = Some r
             /\ tzinfo_of r = Some timezone_utc /\ instant r = instant v)
  /\ (exists r, App2.process_result_value (stored_value (Some v)) = Some r
                /\ r = fromutc DISPLAY_TIMEZONE (instant v) /\ instant r = instant v)
  /\ App.process_result_value (stored_value None) = None
  /\ App2.process_result_value (stored_value None) = None
  /\ process_bind_param (process_bind_param (Some v)) = process_bind_param (Some v).
Proof.
  assert (Hst : stored_value (Some v) = Some (Naive (instant v))).
  { destruct v as [w|w tz]; unfold stored_value; cbn; [reflexivity|].
    reflexivity. }
  rewrite Hst. split; [|split; [|split; [|split]]]; try reflexivity.
  - eexists. split; [reflexivity|]. split; [reflexivity|].
    cbn [tzinfo_of replace_tzinfo_utc wall_of instant utcoffset]. lia.
  - eexists. split; [reflexivity|].
    unfold astimezone. cbn [tzinfo_of replace_tzinfo_utc wall_of instant utcoffset].
    rewrite Z.sub_0_r. split; [reflexivity | apply instant_fromutc].
  - destruct v as [w|w tz]; unfold process_bind_param, astimezone_utc, replace_tzinfo_utc;
      cbn [tzinfo_of wall_of instant utcoffset]; do 2 f_equal; lia.
Qed.

(** ** Dates as text *)

Definition digit_char (n : Z) : Z := 48 + n.

Definition two_digits (n : Z) (rest : pystr) : pystr :=
  digit_char (n / 10) :: digit_char (n mod 10) :: rest.

(** [d.strftime('%Y-%m-%d')], as the dashboard and the receipts print a
    date, for a year of four digits. *)
Definition strftime_date (d : date) : pystr :=
  two_digits (year d / 100)
    (two_digits (year d mod 100)
       (45 :: two_digits (month d) (45 :: two_digits (day d) []))).

Lemma below_cases (P : Z -> Prop) (n : nat) :
  (forall k : nat, (k < n)%nat -> P (Z.of_nat k)) ->
  forall x, 0 <= x < Z.of_nat n -> P x.
Proof.
  intros H x Hx. rewrite <- (Z2Nat.id x) by lia. apply H. lia.
Qed.

Lemma digit_val_char n : 0 <= n < 10 -> digit_val (digit_char n) = Some n.
Proof.
  revert n. apply (below_cases (fun n => digit_val (digit_char n) = Some n) 10).
  intros k Hk. do 10 (destruct k as [|k]; [reflexivity|]). lia.
Qed.

Lemma digit_val_range c n : digit_val c = Some n -> 0 <= n <= 9.
Proof.
  unfold digit_val.
  destruct (find (fun z => (z <=? c) && (c <=? z + 9)) decimal_zeros) as [z|] eqn:F;
    [|discriminate].
  apply find_some in F. destruct F as [_ F].
  apply andb_true_iff in F. destruct F as [F1 F2].
  apply Z.leb_le in F1. apply Z.leb_le in F2. intros H. injection H as <-. lia.
Qed.

Lemma ascii_digit_range c n : ascii_digit c = Some n -> 0 <= n <= 9.
Proof.
  unfold ascii_digit. destruct ((48 <=? c) && (c <=? 57)) eqn:E; [|discriminate].
  apply andb_true_iff in E. destruct E as [E1 E2].
  apply Z.leb_le in E1. apply Z.leb_le in E2. intros H. injection H as <-. lia.
Qed.

Lemma parse_month_two_digits m rest :
  1 <= m <= 12 -> parse_month (two_digits m rest) = Some (m, rest).
Proof.
  intros Hm. revert rest.
  assert (H : 0 <= m < Z.of_nat 13) by lia. revert Hm. revert m H.
  apply (below_cases (fun m => 1 <= m <= 12 -> forall rest,
                        parse_month (two_digits m rest) = Some (m, rest)) 13).
  intros k Hk Hm rest. do 13 (destruct k as [|k]; [try lia; reflexivity|]). lia.
Qed.

Lemma parse_day_two_digits d rest :
  1 <= d <= 31 -> parse_day (two_digits d rest) = Some (d, rest).
Proof.
  intros Hd. revert rest.
  assert (H : 0 <= d < Z.of_nat 32) by lia. revert Hd. revert d H.
  apply (below_cases (fun d => 1 <= d <= 31 -> forall rest,
                        parse_day (two_digits d rest) = Some (d, rest)) 32).
  intros k Hk Hd rest. do 32 (destruct k as [|k]; [try lia; reflexivity|]). lia.
Qed.

Lemma days_in_month_le_31 y m : days_in_month y m <= 31.
Proof.
  unfold days_in_month.
  destruct (m =? 2); [destruct (is_leap y); lia|].
  destruct ((m =? 4) || (m =? 6) || (m =? 9) || (m =? 11)); lia.
Qed.

(** X22.  A date printed as text is read back as the same date: for every
    calendar date with a year of four digits,
    [strptime(d.strftime('%Y-%m-%d'), '%Y-%m-%d')] is [d]. *)
Theorem strptime_strftime (y m d : Z) :
  1000 <= y <= 9999 -> 1 <= m <= 12 -> 1 <= d <= days_in_month y m ->
  strptime (strftime_date (mk_date y m d)) = Some (mk_date y m d).
Proof.
  intros Hy Hm Hd. pose proof (days_in_month_le_31 y m) as H31.
  unfold strftime_date. cbn [year month day].
  unfold two_digits at 1 2. unfold strptime.
  pose proof (Z.div_mod y 100 ltac:(lia)) as Ey.
  pose proof (Z.mod_pos_bound y 100 ltac:(lia)) as By.
  pose proof (Z.div_mod (y / 100) 10 ltac:(lia)) as Ea.
  pose proof (Z.mod_pos_bound (y / 100) 10 ltac:(lia)) as Ba.
  pose proof (Z.div_mod (y mod 100) 10 ltac:(lia)) as Ec.
  pose proof (Z.mod_pos_bound (y mod 100) 10 ltac:(lia)) as Bc.
  rewrite !digit_val_char by lia.
  change (45 =? 45) with true. cbv iota.
  rewrite (parse_month_two_digits m _ Hm).
  change (45 =? 45) with true. cbv iota.
  rewrite (parse_day_two_digits d [] ltac:(lia)).
  replace (1000 * (y / 100 / 10) + 100 * ((y / 100) mod 10)
           + 10 * (y mod 100 / 10) + (y mod 100) mod 10) with y by lia.
  assert (E1 : (1 <=? y) = true) by (apply Z.leb_le; lia).
  assert (E2 : (d <=? days_in_month y m) = true) by (apply Z.leb_le; lia).
  rewrite E1, E2. reflexivity.
Qed.

Lemma strptime_strftime_witness :
  strptime (strftime_date (mk_date 2024 2 29)) = Some (mk_date 2024 2 29).
Proof.
  apply (strptime_strftime 2024 2 29); vm_compute; split; discriminate.
Defined.

Lemma single_digit_range d1 (r1 : pystr) d r :
  0 <= d1 <= 9 ->
  (if 1 <=? d1 then Some (d1, r1) else None) = Some (d, r) -> 1 <= d <= 9.
Proof.
  intros B. destruct (1 <=? d1) eqn:L; [|discriminate].
  apply Z.leb_le in L. intros H.
  assert (Hd : d1 = d) by (injection H; intros _ E; exact E). lia.
Qed.

Lemma parse_month_range s m r : parse_month s = Some (m, r) -> 1 <= m <= 12.
Proof.
  unfold parse_month. destruct s as [|c1 r1]; [discriminate|].
  destruct (ascii_digit c1) as [d1|] eqn:E1; [|discriminate].
  pose proof (ascii_digit_range _ _ E1) as B1.
  pose proof (single_digit_range d1 r1 m r B1) as Hone.
  destruct r1 as [|c2 r2]; [intros H; specialize (Hone H); lia|].
  destruct (ascii_digit c2) as [d2|] eqn:E2; [|intros H; specialize (Hone H); lia].
  pose proof (ascii_digit_range _ _ E2) as B2.
  destruct (((d1 =? 1) && (d2 <=? 2)) || ((d1 =? 0) && (1 <=? d2))) eqn:C;
    [|intros H; specialize (Hone H); lia].
  intros H.
  assert (Hm : 10 * d1 + d2 = m) by (injection H; intros _ Hm; exact Hm).
  apply orb_true_iff in C. destruct C as [C|C];
    apply andb_true_iff in C; destruct C as [Ca Cb];
    apply Z.eqb_eq in Ca; apply Z.leb_le in Cb; lia.
Qed.

Lemma parse_day_range s d r : parse_day s = Some (d, r) -> 1 <= d <= 31.
Proof.
  unfold parse_day. destruct s as [|c1 r1]; [discriminate|]. cbv zeta.
  destruct (ascii_digit c1) as [d1|] eqn:E1.
  - pose proof (ascii_digit_range _ _ E1) as B1.
    pose proof (single_digit_range d1 r1 d r B1) as Hone.
    destruct ((d1 =? 1) || (d1 =? 2)) eqn:C12.
    + destruct r1 as [|c2 r2]; [intros H; specialize (Hone H); lia|].
      destruct (digit_val c2) as [d2|] eqn:E2; [|intros H; specialize (Hone H); lia].
      pose proof (digit_val_range _ _ E2) as B2. intros H.
      assert (Hd : 10 * d1 + d2 = d) by (injection H; intros _ E; exact E).
      apply orb_true_iff in C12. destruct C12 as [C|C]; apply Z.eqb_eq in C; lia.
    + destruct r1 as [|c2 r2]; [intros H; specialize (Hone H); lia|].
      destruct (ascii_digit c2) as [d2|] eqn:E2; [|intros H; specialize (Hone H); lia].
      pose proof (ascii_digit_range _ _ E2) as B2.
      destruct (((d1 =? 3) && (d2 <=? 1)) || ((d1 =? 0) && (1 <=? d2))) eqn:C;
        [|intros H; specialize (Hone H); lia].
      intros H.
      assert (Hd : 10 * d1 + d2 = d) by (injection H; intros _ E; exact E).
      apply orb_true_iff in C. destruct C as [C|C];
        apply andb_true_iff in C; destruct C as [Ca Cb];
        apply Z.eqb_eq in Ca; apply Z.leb_le in Cb; lia.
  - destruct (c1 =? 32); [|discriminate].
    destruct r1 as [|c2 r2]; [discriminate|].
    destruct (ascii_digit c2) as [d2|] eqn:E2; [|discriminate].
    pose proof (ascii_digit_range _ _ E2) as B2.
    destruct (1 <=? d2) eqn:L; [|discriminate].
    apply Z.leb_le in L. intros H.
    assert (Hd : d2 = d) by (injection H; intros _ E; exact E). lia.
Qed.

(** X23.  [strptime] only answers with calendar dates: the year is between 1
    and 9999, the month between 1 and 12 and the day exists in that month;
    an empty text is refused. *)
Theorem strptime_gives_calendar_dates (s : pystr) (d : date) :
  strptime s = Some d ->
  1 <= year d <= 9999 /\ 1 <= month d <= 12
  /\ 1 <= day d <= days_in_month (year d) (month d)
  /\ s <> [].
Proof.
  unfold strptime.
  destruct s as [|y1 [|y2 [|y3 [|y4 [|sep1 r]]]]]; try discriminate.
  destruct (digit_val y1) as [a|] eqn:Ea; [|discriminate].
  destruct (digit_val y2) as [b|] eqn:Eb; [|discriminate].
  destruct (digit_val y3) as [c|] eqn:Ec; [|discriminate].
  destruct (digit_val y4) as [e|] eqn:Ee; [|discriminate].
  pose proof (digit_val_range _ _ Ea). pose proof (digit_val_range _ _ Eb).
  pose proof (digit_val_range _ _ Ec). pose proof (digit_val_range _ _ Ee).
  destruct (sep1 =? 45); [|discriminate].
  destruct (parse_month r) as [[m [|sep2 r']]|] eqn:Em; try discriminate.
  pose proof (parse_month_range _ _ _ Em) as Bm.
  destruct (sep2 =? 45); [|discriminate].
  destruct (parse_day r') as [[dd [|c' r'']]|] eqn:Ed; try discriminate.
  destruct ((1 <=? 1000 * a + 100 * b + 10 * c + e)
            && (dd <=? days_in_month (1000 * a + 100 * b + 10 * c + e) m)) eqn:V;
    [|discriminate].
  apply andb_true_iff in V. destruct V as [V1 V2].
  apply Z.leb_le in V1. apply Z.leb_le in V2.
  pose proof (parse_day_range _ _ _ Ed) as Bd.
  intros Hd. destruct d as [Y M D]. cbn [year month day].
  assert (EY : 1000 * a + 100 * b + 10 * c + e = Y) by (injection Hd; intros _ _ E; exact E).
  assert (EM : m = M) by (injection Hd; intros _ E _; exact E).
  assert (ED : dd = D) by (injection Hd; intros E _ _; exact E).
  subst M D. rewrite <- EY. repeat split; try lia. discriminate.
Qed.

Lemma strptime_gives_calendar_dates_witness :
  1 <= year (mk_date 2024 2 29) <= 9999 /\ 1 <= month (mk_date 2024 2 29) <= 12
  /\ 1 <= day (mk_date 2024 2 29) <= days_in_month (year (mk_date 2024 2 29))
                                                    (month (mk_date 2024 2 29))
  /\ py "2024-02-29" <> [].
Proof.
  apply (strptime_gives_calendar_dates "2024-02-29" (mk_date 2024 2 29)). reflexivity.
Defined.

(** What the patterns of [strptime] take and refuse: a year in fullwidth
    digits and a day whose second digit is Arabic-Indic are read, a month
    in Arabic-Indic digits is not; a month or a day of one digit is read,
    text after the day is not. *)
Lemma strptime_examples :
  strptime [65298; 65296; 65298; 65300; 45; 48; 51; 45; 49; 48] = Some (mk_date 2024 3 10)
  /\ strptime [50; 48; 50; 52; 45; 48; 51; 45; 49; 1632] = Some (mk_date 2024 3 10)
  /\ strptime [50; 48; 50; 52; 45; 1632; 1635; 45; 49; 48] = None
  /\ strptime [50; 48; 50; 52; 45; 48; 51; 45; 51; 1632] = None
  /\ strptime "2024-3-5" = Some (mk_date 2024 3 5)
  /\ strptime "2024-03- 5" = Some (mk_date 2024 3 5)
  /\ strptime "2024-03-05 " = None
  /\ strptime "2024-01-32" = None
  /\ strptime "2024-13-01" = None
  /\ strptime "2024-02-30" = None
  /\ strptime "0000-01-01" = None
  /\ strptime "20240310" = None.
Proof. vm_compute. repeat split. Qed.
